(** * MemoHub: memory ingestion and semantic retrieval

    A shallow embedding of the storage and retrieval core of MemoHub:

    - [services/parser_service.py]: the chunker
      ([_split_text_into_chunks], [_split_long_paragraph]);
    - [utils/memory_utils.py]: [calculate_similarity];
    - [services/database_service.py]: [DatabaseService] with its two
      DynamoDB tables and the process-local [vector_store];
    - [routers/search.py]: the [DELETE /memories/{memory_id}] route.

    Python floats and numpy's float64 are IEEE 754 binary64 numbers: they
    are modelled by Rocq's primitive floats, so that every definition
    below computes.  Python strings are sequences of Unicode code points. *)

From Stdlib Require Import ZArith List Bool Lia Floats Uint63 Sorted Permutation.
From stdpp Require Import strings list.

Set Warnings "-inexact-float".
Local Open Scope Z_scope.

(** ** numpy on one-dimensional float64 arrays *)

Module Numpy.

(** A one-dimensional [np.array] of float64. *)
Definition ndarray := list float.

(** The sum of products [np.dot] accumulates, taken left to right from
    [0.0], each product rounded before it is added.  numpy hands the sum
    to a BLAS kernel, which may add the products in another order and
    fuse a product with its addition, so that the last bit of a sum can
    differ from the one below.  Nothing that follows says which float a
    sum of several non-zero products is: the statements hold for
    whatever similarity is computed, and the vectors of the examples have
    at most one product that is not zero, for which every order and
    fusing gives the same float. *)
Definition dot_sum (a b : ndarray) : float :=
  fold_left (fun acc xy => (acc + fst xy * snd xy)%float) (combine a b) 0%float.

(** [np.dot(a, b)] on two 1-D arrays: [None] stands for the [ValueError]
    numpy raises when the shapes are not aligned. *)
Definition dot (a b : ndarray) : option float :=
  if (length a =? length b)%nat then Some (dot_sum a b) else None.

(** [np.linalg.norm(a)] on a real 1-D array is [sqrt(a.dot(a))]. *)
Definition norm (a : ndarray) : float :=
  PrimFloat.sqrt (dot_sum a a).

End Numpy.

(** ** utils/memory_utils.py *)

Module MemoryUtils.
Import Numpy.

(** [calculate_similarity]: cosine similarity of two vectors;
    [None] is the [ValueError] of [np.dot]. *)
Definition calculate_similarity (embedding1 embedding2 : list float) : option float :=
  match dot embedding1 embedding2 with
  | Some d => Some (d / (norm embedding1 * norm embedding2))%float
  | None => None
  end.

End MemoryUtils.

(** ** Python strings *)

Module PyStr.

(** A Python [str] is a sequence of Unicode code points. *)
Definition char := N.
Definition str := list char.

(** The code points [str.isspace], [str.strip()] and [str.split()] treat
    as whitespace. *)
Definition isspace (c : char) : bool :=
  ((0x09 <=? c) && (c <=? 0x0D) || (0x1C <=? c) && (c <=? 0x20)
   || (c =? 0x85) || (c =? 0xA0) || (c =? 0x1680)
   || (0x2000 <=? c) && (c <=? 0x200A)
   || (c =? 0x2028) || (c =? 0x2029) || (c =? 0x202F) || (c =? 0x205F)
   || (c =? 0x3000))%N.

Fixpoint lstrip (s : str) : str :=
  match s with
  | c :: s' => if isspace c then lstrip s' else s
  | [] => []
  end.

Definition rstrip (s : str) : str := rev (lstrip (rev s)).

(** [s.strip()] *)
Definition strip (s : str) : str := rstrip (lstrip s).

(** [s.split()]: the maximal runs of non-whitespace characters.  The
    helper returns the word being read and the words after it. *)
Fixpoint words_from (s : str) : str * list str :=
  match s with
  | [] => ([], [])
  | c :: s' =>
      let '(w, ws) := words_from s' in
      if isspace c
      then ([], match w with [] => ws | _ => w :: ws end)
      else (c :: w, ws)
  end.

Definition split_whitespace (s : str) : list str :=
  let '(w, ws) := words_from s in
  match w with [] => ws | _ => w :: ws end.

Fixpoint startswith (sep s : str) : bool :=
  match sep, s with
  | [], _ => true
  | a :: sep', b :: s' => (a =? b)%N && startswith sep' s'
  | _ :: _, [] => false
  end.

(** [s.split(sep)] for a non-empty [sep]: the pieces between the
    occurrences of [sep] found left to right, without overlap.  [skip]
    counts the characters of a found separator still to pass over; the
    head of the result is the piece being read. *)
Fixpoint split_from (sep : str) (skip : nat) (s : str) : list str :=
  match s with
  | [] => [[]]
  | c :: s' =>
      match skip with
      | S k => split_from sep k s'
      | O =>
          if startswith sep s
          then [] :: split_from sep (length sep - 1) s'
          else match split_from sep 0 s' with
               | p :: ps => (c :: p) :: ps
               | [] => [[c]]
               end
      end
  end.

Definition split (sep s : str) : list str := split_from sep 0 s.

(** Truthiness of a string: [if s:]. *)
Definition truthy (s : str) : bool :=
  match s with [] => false | _ => true end.

End PyStr.

(** ** Python numbers *)

Module PyNum.

(** [float(n)] for a length [n] (below 2^63). *)
Definition float_of_len (n : nat) : float :=
  PrimFloat.of_uint63 (Uint63.of_Z (Z.of_nat n)).

(** [int(f)]: truncation towards zero.  Python raises on [nan] and on the
    infinities; the chunker only converts a finite sum of two finite
    non-negative products. *)
Definition int (f : float) : Z :=
  match Prim2SF f with
  | S754_finite s m e =>
      let v := if 0 <=? e then Z.pos m * 2 ^ e else Z.pos m / 2 ^ (- e) in
      if s then - v else v
  | _ => 0
  end.

End PyNum.

(** ** services/parser_service.py: the chunker *)

Module ParserService.
Import PyStr PyNum.

(** [self.max_tokens] *)
Definition max_tokens_default : Z := 6000.

(** The paragraph separator ["\n\n"] and the sentence mark ["。"] (U+3002). *)
Definition para_sep : str := [0x0A; 0x0A]%N.
Definition full_stop : str := [0x3002]%N.

Definition is_chinese (c : char) : bool := ((0x4e00 <=? c) && (c <=? 0x9fff))%N.

(** [estimate_tokens]: Chinese characters weigh 1.2, whitespace-separated
    words 1.5. *)
Definition estimate_tokens (text : str) : Z :=
  let chinese_chars := length (List.filter is_chinese text) in
  let english_words := length (split_whitespace text) in
  int (float_of_len chinese_chars * 1.2 + float_of_len english_words * 1.5)%float.

(** One turn of the sentence loop of [_split_long_paragraph]; the state is
    [(chunks, current_chunk)]. *)
Definition sentence_step (max_tokens : Z) (st : list str * str) (sentence : str)
  : list str * str :=
  let '(chunks, current_chunk) := st in
  if negb (truthy (strip sentence)) then (chunks, current_chunk)
  else if estimate_tokens (current_chunk ++ sentence) <=? max_tokens
  then (chunks, current_chunk ++ sentence ++ full_stop)
  else ((if truthy current_chunk then chunks ++ [strip current_chunk] else chunks),
        sentence ++ full_stop).

(** The closing [if current_chunk: chunks.append(current_chunk.strip())]. *)
Definition flush (st : list str * str) : list str :=
  let '(chunks, current_chunk) := st in
  if truthy current_chunk then chunks ++ [strip current_chunk] else chunks.

Definition _split_long_paragraph (paragraph : str) (max_tokens : Z) : list str :=
  let sentences := split full_stop paragraph in
  flush (fold_left (sentence_step max_tokens) sentences ([], [])).

(** One turn of the paragraph loop of [_split_text_into_chunks]. *)
Definition paragraph_step (max_tokens : Z) (st : list str * str) (paragraph : str)
  : list str * str :=
  let '(chunks, current_chunk) := st in
  if max_tokens <? estimate_tokens paragraph
  then (flush (chunks, current_chunk) ++ _split_long_paragraph paragraph max_tokens, [])
  else if estimate_tokens (current_chunk ++ paragraph) <=? max_tokens
  then (chunks, current_chunk ++ paragraph ++ para_sep)
  else ((if truthy current_chunk then chunks ++ [strip current_chunk] else chunks),
        paragraph ++ para_sep).

Definition _split_text_into_chunks (text : str) (max_tokens : option Z) : list str :=
  let max_tokens := default max_tokens_default max_tokens in
  if estimate_tokens text <=? max_tokens then [text]
  else
    let paragraphs := split para_sep text in
    flush (fold_left (paragraph_step max_tokens) paragraphs ([], [])).

End ParserService.

(** ** Python dictionaries *)

Module PyDict.
Section Dict.
Context {V : Type}.

(** A [dict] with string keys keeps its items in insertion order, which
    is the order [items()] iterates in. *)
Definition dict := list (string * V).

(** [d[k]], [None] for a missing key *)
Fixpoint dict_get (k : string) (d : dict) : option V :=
  match d with
  | [] => None
  | (k', v) :: d' => if String.eqb k k' then Some v else dict_get k d'
  end.

(** [d[k] = v]: an existing key keeps its place, a new key goes last. *)
Fixpoint dict_set (k : string) (v : V) (d : dict) : dict :=
  match d with
  | [] => [(k, v)]
  | (k', v') :: d' =>
      if String.eqb k k' then (k', v) :: d' else (k', v') :: dict_set k v d'
  end.

(** [if k in d: del d[k]]; a key occurs once in a [dict]. *)
Definition dict_del (k : string) (d : dict) : dict :=
  List.filter (fun kv => negb (String.eqb k (fst kv))) d.

End Dict.
Arguments dict : clear implicits.
End PyDict.

(** ** services/database_service.py *)

Module DatabaseService.
Import Numpy MemoryUtils PyDict.

(** *** Items and tables *)

(** An item of the memories table ([memory_data]).  A stored item always
    has its key [id]; the code reads [user_id] with [.get], so it may be
    missing. *)
Record MemoryData := {
  md_id : string;
  md_user_id : option string;
  md_content : string;
  md_memory_type : string;
  md_metadata : list (string * string);
  md_created_at : string;
  md_updated_at : string;
  md_source : option string;
  md_summary : option string;
  md_tags : list string
}.

(** A component of a stored embedding: a DynamoDB number, or the NULL
    attribute, on which [float(x)] raises [TypeError]. *)
Inductive attr := Number (x : float) | Null.

(** An item of the embeddings table ([vector_data]).  Recovery reads
    [item['embedding']] (a [KeyError] when missing) and
    [item.get('user_id')]. *)
Record VectorItem := {
  vi_id : string;
  vi_user_id : option string;
  vi_embedding : option (list attr);
  vi_memory_id : string;
  vi_created_at : string
}.

(** A DynamoDB table with hash key [id]: a collection of items, at most
    one per key when built by [put_item].  DynamoDB fixes no order for a
    scan: the order of the list stands for the order in which [scan()]
    hands the items out. *)
Section Table.
Context {I : Type} (key : I -> string).

Definition get_item (k : string) (t : list I) : option I :=
  List.find (fun i => String.eqb (key i) k) t.

Definition delete_item (k : string) (t : list I) : list I :=
  List.filter (fun i => negb (String.eqb (key i) k)) t.

Definition put_item (i : I) (t : list I) : list I :=
  delete_item (key i) t ++ [i].

End Table.

(** An entry of [self.vector_store]. *)
Record VectorData := {
  vd_embedding : ndarray;
  vd_memory_id : string;
  vd_user_id : option string
}.

(** An element of the list [semantic_search] returns.  Its third field,
    [search_time], is a reading of the wall clock and is left out. *)
Record SearchResult := {
  memory : MemoryData;
  similarity_score : float
}.

(** *** The service and its environment *)

(** The fields of the service, the contents of its two DynamoDB tables,
    and what DynamoDB decides.  [faults]: for each coming request,
    whether it fails with a [ClientError] (no entry: it succeeds).
    [memories_page] and [embeddings_page]: of the items a scan or a query
    goes through, in the order it hands them out, how many DynamoDB puts
    in one response page; it ends a page when it has read 1 MB of
    data, so the number depends on the items. *)
Record State := {
  dynamodb_disabled : bool;
  memories_table : list MemoryData;
  embeddings_table : list VectorItem;
  faults : list bool;
  vector_store : dict VectorData;
  memories_page : list MemoryData -> nat;
  embeddings_page : list VectorItem -> nat
}.

Definition set_memories_table (f : list MemoryData -> list MemoryData) (s : State) : State :=
  {| dynamodb_disabled := dynamodb_disabled s;
     memories_table := f (memories_table s);
     embeddings_table := embeddings_table s;
     faults := faults s;
     vector_store := vector_store s;
     memories_page := memories_page s;
     embeddings_page := embeddings_page s |}.

Definition set_embeddings_table (f : list VectorItem -> list VectorItem) (s : State) : State :=
  {| dynamodb_disabled := dynamodb_disabled s;
     memories_table := memories_table s;
     embeddings_table := f (embeddings_table s);
     faults := faults s;
     vector_store := vector_store s;
     memories_page := memories_page s;
     embeddings_page := embeddings_page s |}.

Definition set_faults (fs : list bool) (s : State) : State :=
  {| dynamodb_disabled := dynamodb_disabled s;
     memories_table := memories_table s;
     embeddings_table := embeddings_table s;
     faults := fs;
     vector_store := vector_store s;
     memories_page := memories_page s;
     embeddings_page := embeddings_page s |}.

Definition set_vector_store (f : dict VectorData -> dict VectorData) (s : State) : State :=
  {| dynamodb_disabled := dynamodb_disabled s;
     memories_table := memories_table s;
     embeddings_table := embeddings_table s;
     faults := faults s;
     vector_store := f (vector_store s);
     memories_page := memories_page s;
     embeddings_page := embeddings_page s |}.

(** *** Methods run on the state and may raise *)

(** [OutOfRange] is the refusal of a number that DynamoDB cannot hold:
    boto3's [decimal.Overflow] or [decimal.Underflow] where its Decimal
    context cannot hold the number either, DynamoDB's
    [ValidationException] otherwise. *)
Inductive exn :=
  ClientError | ValueError | KeyError | TypeError | AttributeError | OutOfRange.

Inductive outcome (A : Type) :=
| Return (a : A)
| Raise (e : exn).
Arguments Return {A} a.
Arguments Raise {A} e.

Definition M (A : Type) : Type := State -> outcome A * State.

Definition ret {A} (a : A) : M A := fun s => (Return a, s).

Definition raise {A} (e : exn) : M A := fun s => (Raise e, s).

Definition bind {A B} (m : M A) (k : A -> M B) : M B :=
  fun s =>
    match m s with
    | (Return a, s') => k a s'
    | (Raise e, s') => (Raise e, s')
    end.

(** [try: m except Exception as e: h e]; what [m] changed before it
    raised stays changed. *)
Definition try_except {A} (m : M A) (h : exn -> M A) : M A :=
  fun s =>
    match m s with
    | (Return a, s') => (Return a, s')
    | (Raise e, s') => h e s'
    end.

Definition gets {A} (f : State -> A) : M A := fun s => (Return (f s), s).

Definition modify (f : State -> State) : M unit := fun s => (Return tt, f s).

Notation "x <- m ;; k" := (bind m (fun x => k))
  (at level 100, m at next level, k at level 200, right associativity).
Notation "'run' m ;; k" := (bind m (fun _ => k))
  (at level 100, m at next level, k at level 200, right associativity).

(** [self.dynamodb.Table(name)]: [self.dynamodb] is [None] once
    [_init_tables] has disabled DynamoDB. *)
Definition Table : M unit :=
  disabled <- gets dynamodb_disabled ;;
  if disabled : bool then raise AttributeError else ret tt.

(** A request to DynamoDB takes the next entry of [faults]. *)
Definition request : M unit :=
  fun s =>
    match faults s with
    | [] => (Return tt, s)
    | b :: fs => (if b then Raise ClientError else Return tt, set_faults fs s)
    end.

(** A number DynamoDB holds: zero, or of a magnitude from 1E-130 up to
    9.9999999999999999999999999999999999999E+125.  The number sent for
    the float [x] is [Decimal(str(float(x)))], the shortest decimal that
    reads back as [x], of 17 digits at most. *)
Definition in_range (x : float) : bool :=
  let magnitude := PrimFloat.abs x in
  (magnitude =? 0)%float
  || ((1e-130 <=? magnitude)%float && (magnitude <? 1e126)%float).

(** What [put_item] does with the component [Decimal(str(float(x)))]:
    boto3's serializer raises [TypeError] on NaN and on the infinities,
    and a finite number out of range is refused as well. *)
Definition number_error (x : float) : option exn :=
  if in_range x then None
  else if PrimFloat.is_nan x || PrimFloat.is_infinity x then Some TypeError
  else Some OutOfRange.

(** The serialization of an embedding, component by component, before
    anything is written. *)
Fixpoint serialize (embedding : list attr) : M unit :=
  match embedding with
  | [] => ret tt
  | Number x :: rest =>
      match number_error x with
      | Some e => raise e
      | None => serialize rest
      end
  | Null :: rest => serialize rest
  end.

(** The page a single [table.scan()] answers with.  The code never asks
    for the page after it: it does not look at [LastEvaluatedKey]. *)
Definition first_page {I} (page : list I -> nat) (items : list I) : list I :=
  take (page items) items.

(** [table.put_item(Item=item)], [table.delete_item(Key={'id': k})],
    [table.get_item(Key={'id': k})] and [table.scan()] on the two
    tables.  DynamoDB's [delete_item] succeeds whether or not the key is
    present. *)
Definition memories_put_item (item : MemoryData) : M unit :=
  run request ;; modify (set_memories_table (put_item md_id item)).

Definition embeddings_put_item (item : VectorItem) : M unit :=
  run serialize (default [] (vi_embedding item)) ;;
  run request ;; modify (set_embeddings_table (put_item vi_id item)).

Definition memories_delete_item (k : string) : M unit :=
  run request ;; modify (set_memories_table (delete_item md_id k)).

Definition embeddings_delete_item (k : string) : M unit :=
  run request ;; modify (set_embeddings_table (delete_item vi_id k)).

Definition memories_get_item (k : string) : M (option MemoryData) :=
  run request ;; t <- gets memories_table ;; ret (get_item md_id k t).

Definition embeddings_scan : M (list VectorItem) :=
  run request ;;
  t <- gets embeddings_table ;;
  page <- gets embeddings_page ;;
  ret (first_page page t).

(** *** _load_vectors_to_memory *)

(** [float(x)] on a stored component *)
Definition float_of_attr (x : attr) : option float :=
  match x with
  | Number f => Some f
  | Null => None
  end.

(** [[float(x) for x in decimal_embedding]] *)
Fixpoint floats_of_attrs (l : list attr) : option (list float) :=
  match l with
  | [] => Some []
  | x :: l' =>
      match float_of_attr x with
      | None => None
      | Some f =>
          match floats_of_attrs l' with
          | None => None
          | Some fs => Some (f :: fs)
          end
      end
  end.

(** The [for item in response.get('Items', [])] loop; it returns
    [loaded_count]. *)
Fixpoint load_items (items : list VectorItem) (loaded_count : nat) : M nat :=
  match items with
  | [] => ret loaded_count
  | item :: rest =>
      let memory_id := vi_id item in
      match vi_embedding item with
      | None => raise KeyError
      | Some decimal_embedding =>
          match floats_of_attrs decimal_embedding with
          | None => raise TypeError
          | Some float_embedding =>
              run modify (set_vector_store (dict_set memory_id
                    {| vd_embedding := float_embedding;
                       vd_memory_id := memory_id;
                       vd_user_id := vi_user_id item |})) ;;
              load_items rest (S loaded_count)
          end
      end
  end.

Definition _load_vectors_to_memory : M unit :=
  disabled <- gets dynamodb_disabled ;;
  if disabled : bool then ret tt
  else
    try_except
      (run Table ;;
       items <- embeddings_scan ;;
       _ <- load_items items 0 ;;
       ret tt)
      (fun _ => ret tt).

(** *** create_memory *)

(** [memory_id] is the value of [str(uuid.uuid4())] and [now] that of
    [datetime.utcnow().isoformat()].  [Decimal(str(float(x)))] raises on
    no float and keeps the number [x]; whether the number can be stored
    is found out by [put_item]. *)
Definition create_memory (content memory_type : string) (embedding : list float)
    (user_id : string) (metadata : option (list (string * string)))
    (source summary : option string) (tags : option (list string))
    (memory_id now : string) : M (option string) :=
  disabled <- gets dynamodb_disabled ;;
  if disabled : bool then ret None
  else
    let memory_data :=
      {| md_id := memory_id;
         md_user_id := Some user_id;
         md_content := content;
         md_memory_type := memory_type;
         md_metadata := default [] metadata;
         md_created_at := now;
         md_updated_at := now;
         md_source := source;
         md_summary := summary;
         md_tags := default [] tags |} in
    let decimal_embedding := List.map Number embedding in
    let vector_data :=
      {| vi_id := memory_id;
         vi_user_id := Some user_id;
         vi_embedding := Some decimal_embedding;
         vi_memory_id := memory_id;
         vi_created_at := now |} in
    try_except
      (run Table ;;
       run memories_put_item memory_data ;;
       run Table ;;
       run embeddings_put_item vector_data ;;
       run modify (set_vector_store (dict_set memory_id
             {| vd_embedding := embedding;
                vd_memory_id := memory_id;
                vd_user_id := Some user_id |})) ;;
       ret (Some memory_id))
      (fun e => raise e).

(** *** get_memory_by_id *)

Definition get_memory_by_id (memory_id : string) : M (option MemoryData) :=
  disabled <- gets dynamodb_disabled ;;
  if disabled : bool then ret None
  else
    try_except
      (run Table ;; memories_get_item memory_id)
      (fun _ => ret None).

(** *** semantic_search *)

(** The cosine similarity of the loop body, [np.dot(q, e) /
    (np.linalg.norm(q) * np.linalg.norm(e))], the expression
    [calculate_similarity] evaluates as well; shapes that are not aligned
    raise [ValueError]. *)
Definition cosine (query_vector embedding : ndarray) : M float :=
  match calculate_similarity query_vector embedding with
  | Some similarity => ret similarity
  | None => raise ValueError
  end.

(** The [for memory_id, vector_data in self.vector_store.items()] loop,
    with the list [results] built so far. *)
Fixpoint scan_vectors (query_vector : ndarray) (user_id : string) (threshold : float)
    (items : list (string * VectorData)) (results : list SearchResult)
  : M (list SearchResult) :=
  match items with
  | [] => ret results
  | (memory_id, vector_data) :: rest =>
      if negb (bool_decide (vd_user_id vector_data = Some user_id))
      then scan_vectors query_vector user_id threshold rest results
      else
        similarity <- cosine query_vector (vd_embedding vector_data) ;;
        if (threshold <=? similarity)%float
        then
          memory <- get_memory_by_id memory_id ;;
          match memory with
          | Some memory =>
              if bool_decide (md_user_id memory = Some user_id)
              then scan_vectors query_vector user_id threshold rest
                     (results ++ [{| memory := memory; similarity_score := similarity |}])
              else scan_vectors query_vector user_id threshold rest results
          | None => scan_vectors query_vector user_id threshold rest results
          end
        else scan_vectors query_vector user_id threshold rest results
  end.

(** [results.sort(key=lambda x: x['similarity_score'], reverse=True)]:
    Python's sort is stable, also with [reverse=True], and compares keys
    with [<] only.  The sort below puts each element behind the elements
    already placed whose key is not smaller; on keys without NaN every
    stable sort returns this list. *)
Fixpoint insert_desc (x : SearchResult) (l : list SearchResult) : list SearchResult :=
  match l with
  | [] => [x]
  | y :: l' =>
      if (similarity_score y <? similarity_score x)%float
      then x :: y :: l'
      else y :: insert_desc x l'
  end.

Definition sort_desc (l : list SearchResult) : list SearchResult :=
  fold_left (fun acc x => insert_desc x acc) l [].

(** [l[:limit]]: a negative [limit] counts from the end. *)
Definition slice_to {A} (l : list A) (limit : Z) : list A :=
  if 0 <=? limit then take (Z.to_nat limit) l
  else take (length l - Z.to_nat (- limit))%nat l.

Definition semantic_search (query_embedding : list float) (user_id : string)
    (limit : Z) (threshold : float) : M (list SearchResult) :=
  let query_vector : ndarray := query_embedding in
  items <- gets vector_store ;;
  results <- scan_vectors query_vector user_id threshold items [] ;;
  ret (slice_to (sort_desc results) limit).

(** *** delete_memory *)

Definition delete_memory (memory_id : string) : M bool :=
  try_except
    (run Table ;;
     run memories_delete_item memory_id ;;
     run Table ;;
     run embeddings_delete_item memory_id ;;
     run modify (set_vector_store (dict_del memory_id)) ;;
     ret true)
    (fun _ => ret false).

(** *** get_related_memories *)

Definition get_related_memories (memory_id user_id : string) (limit : Z)
  : M (list SearchResult) :=
  try_except
    (store <- gets vector_store ;;
     match dict_get memory_id store with
     | None => ret []
     | Some vector_data =>
         if negb (bool_decide (vd_user_id vector_data = Some user_id))
         then ret []
         else
           let current_embedding := vd_embedding vector_data in
           results <- semantic_search current_embedding user_id (limit + 1) 0.5 ;;
           let related :=
             List.filter (fun r => negb (String.eqb (md_id (memory r)) memory_id))
               results in
           ret (slice_to related limit)
     end)
    (fun _ => ret []).

(** *** get_memories *)

(** [l[a:b]]: an index below zero counts from the end, and both ends are
    cut to the list. *)
Definition slice_index (len i : Z) : Z :=
  if i <? 0 then Z.max 0 (len + i) else Z.min i len.

Definition slice {A} (l : list A) (a b : Z) : list A :=
  let len := Z.of_nat (length l) in
  take (Z.to_nat (slice_index len b - slice_index len a))
       (drop (Z.to_nat (slice_index len a)) l).

(** [memories.sort(key=lambda x: x['created_at'], reverse=True)]: stable,
    newest first, the keys compared as strings. *)
Fixpoint insert_newest (x : MemoryData) (l : list MemoryData) : list MemoryData :=
  match l with
  | [] => [x]
  | y :: l' =>
      if String.ltb (md_created_at y) (md_created_at x)
      then x :: y :: l'
      else y :: insert_newest x l'
  end.

Definition sort_newest (l : list MemoryData) : list MemoryData :=
  fold_left (fun acc x => insert_newest x acc) l [].

(** The filter expression ['user_id = :user_id'], with
    [' AND created_at BETWEEN :start AND :end'] when both dates are given. *)
Definition filter_expression (user_id : string) (dates : option (string * string))
    (m : MemoryData) : bool :=
  bool_decide (md_user_id m = Some user_id)
  && match dates with
     | Some (start_date, end_date) =>
         String.leb start_date (md_created_at m)
         && String.leb (md_created_at m) end_date
     | None => true
     end.

(** [table.scan(Limit=limit, FilterExpression=...)] and
    [table.query(IndexName='memory_type_index', ..., Limit=limit,
    ScanIndexForward=False)].  DynamoDB evaluates at most [Limit] items,
    and no more than one page of them, and hands out those that pass the
    filter; the index orders the items of one [memory_type] by
    [created_at], here newest first.  boto3 refuses a [Limit] below 1
    before any request is sent (a [ParamValidationError], rendered by
    [ValueError]). *)
Definition memories_scan (limit : Z) (keep : MemoryData -> bool) : M (list MemoryData) :=
  if limit <? 1 then raise ValueError
  else
    run request ;;
    t <- gets memories_table ;;
    page <- gets memories_page ;;
    ret (List.filter keep (take (Z.to_nat limit) (first_page page t))).

Definition memories_query_by_type (memory_type : string) (limit : Z)
    (keep : MemoryData -> bool) : M (list MemoryData) :=
  if limit <? 1 then raise ValueError
  else
    run request ;;
    t <- gets memories_table ;;
    page <- gets memories_page ;;
    let indexed :=
      sort_newest (List.filter (fun m => String.eqb (md_memory_type m) memory_type) t) in
    ret (List.filter keep (take (Z.to_nat limit) (first_page page indexed))).

(** Truthiness of an optional string argument: [None] and [""] are false. *)
Definition given (o : option string) : option string :=
  match o with
  | Some EmptyString => None
  | _ => o
  end.

Definition get_memories (user_id : string) (limit offset : Z)
    (memory_type start_date end_date : option string) : M (list MemoryData) :=
  disabled <- gets dynamodb_disabled ;;
  if disabled : bool then ret []
  else
    try_except
      (run Table ;;
       memories <-
         match given memory_type with
         | Some mt => memories_query_by_type mt limit (filter_expression user_id None)
         | None =>
             let dates :=
               match given start_date, given end_date with
               | Some s, Some e => Some (s, e)
               | _, _ => None
               end in
             memories_scan limit (filter_expression user_id dates)
         end ;;
       ret (slice (sort_newest memories) offset (offset + limit)))
      (fun _ => ret []).

(** *** get_search_stats *)

(** The dict [get_search_stats] returns.  [storage_mode] is always
    ['dynamodb'] and [last_updated] is a reading of the clock: both are
    left out.  [error] is the exception of the failure branch. *)
Record SearchStats := {
  total_memories : nat;
  vector_count : nat;
  type_distribution : dict nat;
  error : option exn
}.

(** [table.scan(Select='COUNT')] and its [response['Count']]: the number
    of items of the one page the scan went through. *)
Definition memories_count : M nat :=
  run request ;;
  t <- gets memories_table ;;
  page <- gets memories_page ;;
  ret (length (first_page page t)).

(** [type_stats[memory_type] = type_stats.get(memory_type, 0) + 1] *)
Definition count_type (memory_type : string) (type_stats : dict nat) : dict nat :=
  dict_set memory_type (default 0 (dict_get memory_type type_stats) + 1)%nat type_stats.

(** The [for memory_id in self.vector_store.keys()] loop.  Every record
    has a [memory_type], so the default ['unknown'] is never used. *)
Fixpoint count_types (keys : list string) (type_stats : dict nat) : M (dict nat) :=
  match keys with
  | [] => ret type_stats
  | memory_id :: rest =>
      memory <- get_memory_by_id memory_id ;;
      match memory with
      | Some memory => count_types rest (count_type (md_memory_type memory) type_stats)
      | None => count_types rest type_stats
      end
  end.

Definition get_search_stats : M SearchStats :=
  try_except
    (run Table ;;
     total_memories <- memories_count ;;
     store <- gets vector_store ;;
     let vector_count := length store in
     type_stats <- count_types (List.map fst store) [] ;;
     ret {| total_memories := total_memories;
            vector_count := vector_count;
            type_distribution := type_stats;
            error := None |})
    (fun e =>
       ret {| total_memories := 0;
              vector_count := 0;
              type_distribution := [];
              error := Some e |}).

(** *** The end of __init__ *)

(** [self.vector_store = {}] and [self._load_vectors_to_memory()]: what a
    start of the process does to the index. *)
Definition rebuild_index : M unit :=
  run modify (set_vector_store (fun _ => [])) ;;
  _load_vectors_to_memory.

End DatabaseService.

(** ** routers/search.py *)

Module SearchRouter.
Import DatabaseService.

(** What the route answers: the JSON body of a 200, or the
    [HTTPException] raised. *)
Inductive response :=
| Success (memory_id : string)
| HTTPException (status_code : Z) (detail : string).

(** [DELETE /api/search/memories/{memory_id}].  The route takes the id
    alone: it has no [current_user] dependency.  [delete_memory] never
    raises, so the route's [except Exception] branch (status 500) is
    never taken. *)
Definition delete_memory (memory_id : string) : M response :=
  try_except
    (success <- DatabaseService.delete_memory memory_id ;;
     if negb success
     then ret (HTTPException 404 "Memory not found")
     else ret (Success memory_id))
    (fun _ => ret (HTTPException 500 "Failed to delete memory")).

End SearchRouter.

(** The routes of [routers/search.py] that answer with a body. *)

Module SearchRoutes.
Import DatabaseService.

(** The body of a 200, or the [HTTPException] raised. *)
Inductive answer (A : Type) :=
| Ok (body : A)
| HTTPException (status_code : Z) (detail : string).
Arguments Ok {A} body.
Arguments HTTPException {A} status_code detail.

(** [GET /api/search/memories/{memory_id}].  The route has no
    [current_user] dependency. *)
Definition get_memory_by_id (memory_id : string) : M (answer MemoryData) :=
  try_except
    (memory <- DatabaseService.get_memory_by_id memory_id ;;
     match memory with
     | None => ret (HTTPException 404 "Memory not found")
     | Some memory => ret (Ok memory)
     end)
    (fun _ => ret (HTTPException 500 "Failed to get memory")).

(** The body of [POST /api/search/memories/{memory_id}/related]. *)
Record Related := {
  related_memory_id : string;
  related_memories : list SearchResult;
  count : nat
}.

(** [current_user] is the user the bearer token stands for; FastAPI
    keeps [limit] within 1 and 20. *)
Definition get_related_memories (memory_id : string) (limit : Z)
    (current_user : string) : M (answer Related) :=
  try_except
    (memory <- DatabaseService.get_memory_by_id memory_id ;;
     match memory with
     | None => ret (HTTPException 404 "Memory not found")
     | Some memory =>
         if negb (bool_decide (md_user_id memory = Some current_user))
         then ret (HTTPException 403 "Access denied")
         else
           related <- DatabaseService.get_related_memories memory_id current_user limit ;;
           ret (Ok {| related_memory_id := memory_id;
                      related_memories := related;
                      count := length related |})
     end)
    (fun _ => ret (HTTPException 500 "Failed to get related memories")).

End SearchRoutes.

(** * Properties *)

(** ** The chunker *)

Module ChunkerFacts.
Import PyStr PyNum ParserService.

(** The characters of a text that are not whitespace, in order. *)
Definition nonspace (s : str) : str :=
  List.filter (fun c => negb (isspace c)) s.

(** The same without the sentence mark. *)
Definition letters (s : str) : str :=
  List.filter (fun c => negb (isspace c) && negb (c =? 0x3002)%N) s.

Section Kept.
(** [keep] selects the characters a comparison looks at; it always
    ignores whitespace. *)
Variable keep : char -> bool.
Hypothesis keep_space : forall c, isspace c = true -> keep c = false.

Lemma kept_lstrip s : List.filter keep (lstrip s) = List.filter keep s.
Proof.
  induction s as [|c s IH]; simpl; [reflexivity|].
  destruct (isspace c) eqn:Hc; [|reflexivity].
  now rewrite (keep_space c Hc).
Qed.

Lemma kept_rev s : List.filter keep (rev s) = rev (List.filter keep s).
Proof.
  induction s as [|c s IH]; simpl; [reflexivity|].
  rewrite List.filter_app, IH. simpl.
  destruct (keep c); simpl; [reflexivity|]. now rewrite app_nil_r.
Qed.

Lemma kept_strip s : List.filter keep (strip s) = List.filter keep s.
Proof.
  unfold strip, rstrip.
  now rewrite kept_rev, kept_lstrip, kept_rev, rev_involutive, kept_lstrip.
Qed.

Lemma kept_blank s : truthy (strip s) = false -> List.filter keep s = [].
Proof.
  intros H. rewrite <- kept_strip.
  destruct (strip s); [reflexivity|discriminate].
Qed.

Lemma startswith_take sep s :
  startswith sep s = true -> take (length sep) s = sep.
Proof.
  revert s. induction sep as [|a sep IH]; intros [|b s]; simpl; try easy.
  intros [Hab Hs]%andb_prop. apply N.eqb_eq in Hab. subst b.
  now rewrite IH.
Qed.

Lemma kept_split_from sep k s :
  sep <> [] ->
  Forall (fun c => keep c = false) sep ->
  Forall (fun c => keep c = false) (take k s) ->
  List.filter keep (concat (split_from sep k s)) = List.filter keep s.
Proof.
  intros Hne Hsep. revert k.
  induction s as [|c s IH]; intros k Hk; [reflexivity|].
  destruct k as [|k]; simpl.
  - destruct (startswith sep (c :: s)) eqn:Hp.
    + apply startswith_take in Hp.
      destruct sep as [|a sep]; [congruence|].
      simpl in Hp. injection Hp as -> Hp.
      inversion Hsep as [|? ? Ha Hrest]; subst.
      simpl. rewrite Ha, Nat.sub_0_r. apply IH. now rewrite Hp.
    + assert (H0 : Forall (fun c => keep c = false) (take 0 s)) by constructor.
      specialize (IH 0%nat H0).
      destruct (split_from sep 0 s) as [|p ps]; simpl in *.
      * now rewrite <- IH.
      * rewrite <- IH. now destruct (keep c).
  - simpl in Hk. inversion Hk as [|? ? Hc Hrest]; subst.
    rewrite Hc. now apply IH.
Qed.

Lemma kept_split sep s :
  sep <> [] ->
  Forall (fun c => keep c = false) sep ->
  List.filter keep (concat (split sep s)) = List.filter keep s.
Proof.
  intros Hne Hsep. apply kept_split_from; [assumption|assumption|constructor].
Qed.

(** What the loops have collected so far. *)
Definition content (st : list str * str) : str :=
  List.filter keep (concat (fst st) ++ snd st).

Lemma kept_snoc (chunks : list str) (c : str) :
  List.filter keep (concat (chunks ++ [c])) = List.filter keep (concat chunks ++ c).
Proof. now rewrite concat_app; simpl; rewrite app_nil_r. Qed.

Lemma content_flush st : List.filter keep (concat (flush st)) = content st.
Proof.
  destruct st as [chunks cur]. unfold flush, content. simpl.
  destruct cur as [|c cur]; simpl truthy; cbv iota.
  - now rewrite app_nil_r.
  - now rewrite kept_snoc, !List.filter_app, kept_strip.
Qed.

Lemma content_push chunks cur :
  List.filter keep
    (concat (if truthy cur then chunks ++ [strip cur] else chunks))
  = List.filter keep (concat chunks ++ cur).
Proof. apply (content_flush (chunks, cur)). Qed.

Lemma content_sentence_step max_tokens st sentence :
  keep 0x3002%N = false ->
  content (sentence_step max_tokens st sentence)
  = content st ++ List.filter keep sentence.
Proof.
  intros Hstop. destruct st as [chunks cur]. unfold sentence_step, content.
  destruct (truthy (strip sentence)) eqn:Hb; simpl negb; cbv iota.
  - destruct (estimate_tokens (cur ++ sentence) <=? max_tokens); simpl fst; simpl snd.
    + rewrite !List.filter_app. simpl. rewrite Hstop.
      now rewrite app_nil_r, app_assoc.
    + rewrite List.filter_app, content_push, !List.filter_app. simpl.
      now rewrite Hstop, app_nil_r.
  - simpl. now rewrite (kept_blank _ Hb), app_nil_r.
Qed.

Lemma content_sentences max_tokens sentences st :
  keep 0x3002%N = false ->
  content (fold_left (sentence_step max_tokens) sentences st)
  = content st ++ List.filter keep (concat sentences).
Proof.
  intros Hstop. revert st.
  induction sentences as [|s ss IH]; intros st; simpl.
  - now rewrite app_nil_r.
  - now rewrite IH, content_sentence_step, List.filter_app, app_assoc.
Qed.

Lemma kept_split_long_paragraph paragraph max_tokens :
  keep 0x3002%N = false ->
  List.filter keep (concat (_split_long_paragraph paragraph max_tokens))
  = List.filter keep paragraph.
Proof.
  intros Hstop. unfold _split_long_paragraph.
  rewrite content_flush, content_sentences by assumption.
  unfold content. simpl. apply kept_split; [discriminate|].
  constructor; [assumption|constructor].
Qed.

Lemma content_paragraph_step max_tokens st paragraph :
  keep 0x3002%N = false \/ estimate_tokens paragraph <= max_tokens ->
  content (paragraph_step max_tokens st paragraph)
  = content st ++ List.filter keep paragraph.
Proof.
  intros Hcase. destruct st as [chunks cur]. unfold paragraph_step.
  assert (Hsep : List.filter keep para_sep = []).
  { simpl. now rewrite (keep_space 0x0A%N eq_refl). }
  destruct (max_tokens <? estimate_tokens paragraph) eqn:Hlong.
  - destruct Hcase as [Hstop|Hle]; [|apply Z.ltb_lt in Hlong; lia].
    unfold content. simpl fst. simpl snd.
    rewrite app_nil_r, concat_app, List.filter_app.
    rewrite kept_split_long_paragraph by assumption.
    f_equal. apply (content_flush (chunks, cur)).
  - unfold content.
    destruct (estimate_tokens (cur ++ paragraph) <=? max_tokens); simpl fst; simpl snd.
    + rewrite !List.filter_app, Hsep. now rewrite app_nil_r, app_assoc.
    + rewrite List.filter_app, content_push, !List.filter_app, Hsep.
      now rewrite app_nil_r.
Qed.

Lemma content_paragraphs max_tokens paragraphs st :
  keep 0x3002%N = false
  \/ Forall (fun p => estimate_tokens p <= max_tokens) paragraphs ->
  content (fold_left (paragraph_step max_tokens) paragraphs st)
  = content st ++ List.filter keep (concat paragraphs).
Proof.
  revert st. induction paragraphs as [|p ps IH]; intros st Hcase; simpl.
  - now rewrite app_nil_r.
  - rewrite IH, content_paragraph_step, List.filter_app, app_assoc; [reflexivity| |].
    + destruct Hcase as [H|H]; [now left|right]. now inversion H.
    + destruct Hcase as [H|H]; [now left|right]. now inversion H.
Qed.

Lemma kept_chunks text max_tokens :
  keep 0x3002%N = false
  \/ Forall (fun p => estimate_tokens p <= default max_tokens_default max_tokens)
       (split para_sep text) ->
  List.filter keep (concat (_split_text_into_chunks text max_tokens))
  = List.filter keep text.
Proof.
  intros Hcase. unfold _split_text_into_chunks.
  destruct (estimate_tokens text <=? default max_tokens_default max_tokens).
  - simpl. now rewrite app_nil_r.
  - rewrite content_flush, content_paragraphs by assumption.
    unfold content. simpl. apply kept_split; [discriminate|].
    assert (H : keep 0x0A%N = false) by now apply keep_space.
    repeat constructor; assumption.
Qed.

End Kept.

(** *** One chunk or more *)

(** [sep.join(pieces)] *)
Fixpoint join (sep : str) (pieces : list str) : str :=
  match pieces with
  | [] => []
  | p :: ps =>
      match ps with
      | [] => p
      | _ :: _ => p ++ sep ++ join sep ps
      end
  end.

(** The paragraphs read so far, as the loop collects them. *)
Definition collected (paragraphs : list str) : str :=
  concat (List.map (fun p => p ++ para_sep) paragraphs).

Lemma split_from_skip sep k s : split_from sep k s = split_from sep 0 (drop k s).
Proof.
  revert k. induction s as [|c s IH]; intros [|k]; try reflexivity.
  simpl. now rewrite IH.
Qed.

Lemma split_from_nonempty sep k s : split_from sep k s <> [].
Proof.
  revert k. induction s as [|c s IH]; intros k; simpl; [discriminate|].
  destruct k as [|k]; [|apply IH].
  destruct (startswith sep (c :: s)); [discriminate|].
  now destruct (split_from sep 0 s).
Qed.

Lemma join_cons sep p ps : ps <> [] -> join sep (p :: ps) = p ++ sep ++ join sep ps.
Proof. now destruct ps. Qed.

(** Splitting a text and joining the pieces gives the text back. *)
Lemma join_split sep s : sep <> [] -> join sep (split sep s) = s.
Proof.
  intros Hne. unfold split.
  remember (length s) as n eqn:Hn.
  assert (Hlen : (length s <= n)%nat) by lia. clear Hn.
  revert s Hlen. induction n as [|n IH]; intros [|c s] Hlen; simpl in *;
    try reflexivity; try lia.
  destruct (startswith sep (c :: s)) eqn:Hp.
  - apply startswith_take in Hp.
    destruct sep as [|a sep]; [congruence|].
    simpl in Hp. injection Hp as -> Hp.
    replace (length (a :: sep) - 1)%nat with (length sep) by (simpl; lia).
    rewrite split_from_skip.
    rewrite join_cons by apply split_from_nonempty.
    rewrite IH by (rewrite length_drop; lia).
    simpl. f_equal. rewrite <- Hp at 1. apply take_drop.
  - specialize (IH s ltac:(lia)).
    pose proof (split_from_nonempty sep 0 s) as Hs.
    destruct (split_from sep 0 s) as [|p ps]; [congruence|].
    destruct ps as [|q ps]; simpl in *; now rewrite IH.
Qed.

Lemma join_snoc sep ps p :
  join sep (ps ++ [p]) = concat (List.map (fun q => q ++ sep) ps) ++ p.
Proof.
  induction ps as [|q ps IH]; [reflexivity|].
  change ((q :: ps) ++ [p]) with (q :: (ps ++ [p])).
  rewrite join_cons by (now destruct ps). rewrite IH. simpl.
  now rewrite <- !app_assoc.
Qed.

Section OneChunk.
Variable max_tokens : Z.

Local Abbreviation within := (fun p => estimate_tokens p <= max_tokens).

(** While no paragraph alone is over the budget: if the loop has put
    away no chunk, then every paragraph was added to the current chunk
    because the text up to and with that paragraph was within the
    budget. *)
Lemma nothing_put_away paragraphs :
  forall chunks current_chunk,
    Forall within paragraphs ->
    fst (fold_left (paragraph_step max_tokens) paragraphs (chunks, current_chunk)) = [] ->
    chunks = []
    /\ forall before p after,
         paragraphs = before ++ p :: after ->
         estimate_tokens (current_chunk ++ collected before ++ p) <= max_tokens.
Proof.
  induction paragraphs as [|p0 ps IH]; intros chunks cur Hall Hfst.
  - split; [exact Hfst|]. intros [|? ?] ? ? H; discriminate.
  - inversion Hall as [|? ? Hp0 Hps]; subst.
    cbn [fold_left] in Hfst. unfold paragraph_step at 2 in Hfst.
    assert (Hlong : (max_tokens <? estimate_tokens p0) = false)
      by (apply Z.ltb_ge; exact Hp0).
    rewrite Hlong in Hfst.
    destruct (estimate_tokens (cur ++ p0) <=? max_tokens) eqn:Hfit.
    + destruct (IH _ _ Hps Hfst) as [Hch Hrest]. split; [exact Hch|].
      intros before p after Heq. destruct before as [|b before].
      * injection Heq as <- _. simpl. apply Z.leb_le. exact Hfit.
      * injection Heq as <- Heq. specialize (Hrest before p after Heq).
        unfold collected in *. simpl. rewrite <- !app_assoc in *. exact Hrest.
    + destruct (IH _ _ Hps Hfst) as [Hch _].
      destruct cur as [|c cur]; simpl in Hch.
      * simpl in Hfit. apply Z.leb_gt in Hfit. lia.
      * now destruct chunks.
Qed.

(** After a paragraph within the budget the current chunk is not empty. *)
Lemma current_chunk_nonempty paragraphs :
  forall st,
    Forall within paragraphs -> paragraphs <> [] ->
    snd (fold_left (paragraph_step max_tokens) paragraphs st) <> [].
Proof.
  induction paragraphs as [|p0 ps IH]; intros [chunks cur] Hall Hne; [congruence|].
  inversion Hall as [|? ? Hp0 Hps]; subst. cbn [fold_left].
  destruct ps as [|p1 ps].
  - simpl. unfold paragraph_step.
    assert (Hlong : (max_tokens <? estimate_tokens p0) = false)
      by (apply Z.ltb_ge; exact Hp0).
    rewrite Hlong.
    destruct (estimate_tokens (cur ++ p0) <=? max_tokens); simpl.
    + intros H. apply app_eq_nil in H as [_ H]. apply app_eq_nil in H as [_ H].
      discriminate.
    + intros H. apply app_eq_nil in H as [_ H]. discriminate.
  - apply IH; [exact Hps|discriminate].
Qed.

(** A text over the budget none of whose paragraphs is over it comes
    back as two chunks at least. *)
Lemma over_budget_two_chunks text :
  Forall within (split para_sep text) ->
  max_tokens < estimate_tokens text ->
  (2 <= length (_split_text_into_chunks text (Some max_tokens)))%nat.
Proof.
  intros Hall Hover. unfold _split_text_into_chunks. simpl default.
  assert (Htest : (estimate_tokens text <=? max_tokens) = false)
    by (apply Z.leb_gt; exact Hover).
  rewrite Htest.
  pose proof (split_from_nonempty para_sep 0 text) as Hne.
  fold (split para_sep text) in Hne.
  assert (Hflush : forall st : list str * str,
            snd st <> [] -> fst st <> [] -> (2 <= length (flush st))%nat).
  { intros [chunks [|c cur]] Hcur Hch; simpl in *; [congruence|].
    rewrite length_app. simpl. destruct chunks; [congruence|simpl; lia]. }
  apply Hflush; [now apply current_chunk_nonempty|].
  intros Hfst. destruct (nothing_put_away _ _ _ Hall Hfst) as [_ Hfit].
  destruct (exists_last Hne) as (before & p & Heq).
  specialize (Hfit before p [] Heq). simpl in Hfit.
  assert (Htext : collected before ++ p = text).
  { unfold collected. rewrite <- join_snoc, <- Heq.
    apply join_split. discriminate. }
  rewrite Htext in Hfit. lia.
Qed.

End OneChunk.

(** The guarantee as the specification words it: the chunks, put end to
    end, have the non-whitespace characters of the text, and one chunk
    comes back exactly when the estimate is within the budget. *)
Definition chunks_as_specified (text : str) (max_tokens : Z) : Prop :=
  let chunks := _split_text_into_chunks text (Some max_tokens) in
  nonspace (concat chunks) = nonspace text
  /\ (length chunks = 1%nat <-> estimate_tokens text <= max_tokens).

(** The text ["a b"] with a budget of one token. *)
Definition two_words : str := [0x61; 0x20; 0x62]%N.

(** C8, as stated, fails: ["a b"] is estimated at 3 tokens, over the
    budget of 1, yet one chunk comes back, and that chunk, ["a b。"],
    ends with a sentence mark the text does not have. *)
Lemma chunker_one_chunk_over_budget :
  _split_text_into_chunks two_words (Some 1) = [[0x61; 0x20; 0x62; 0x3002]%N]
  /\ estimate_tokens two_words = 3
  /\ nonspace (concat (_split_text_into_chunks two_words (Some 1))) <> nonspace two_words
  /\ ~ chunks_as_specified two_words 1.
Proof.
  split; [now vm_compute|]. split; [now vm_compute|]. split.
  - now vm_compute.
  - intros [H _]. revert H. now vm_compute.
Qed.

(** C8, amended: for every text and budget the chunks are in document
    order and never overlap, in that their concatenation has exactly the
    characters of the text, in order, that are neither whitespace nor the
    sentence mark; a text whose estimate is within the budget comes back
    as the one chunk [text]; and when no paragraph alone is over the
    budget, the concatenation has exactly the non-whitespace characters
    of the text, and one chunk comes back exactly when the estimate of
    the text is within the budget. *)
Theorem chunks_reproduce_text (text : str) (max_tokens : option Z) :
  (estimate_tokens text <= default max_tokens_default max_tokens ->
   _split_text_into_chunks text max_tokens = [text])
  /\ letters (concat (_split_text_into_chunks text max_tokens)) = letters text
  /\ (Forall (fun p => estimate_tokens p <= default max_tokens_default max_tokens)
        (split para_sep text) ->
      nonspace (concat (_split_text_into_chunks text max_tokens)) = nonspace text
      /\ (length (_split_text_into_chunks text max_tokens) = 1%nat
          <-> estimate_tokens text <= default max_tokens_default max_tokens)).
Proof.
  assert (Hone : estimate_tokens text <= default max_tokens_default max_tokens ->
                 _split_text_into_chunks text max_tokens = [text]).
  { intros Hle. unfold _split_text_into_chunks.
    apply Z.leb_le in Hle. now rewrite Hle. }
  split; [exact Hone|]. split; [|intros Hall; split].
  - apply kept_chunks.
    + intros c Hc. now rewrite Hc.
    + left. reflexivity.
  - apply kept_chunks.
    + intros c Hc. now rewrite Hc.
    + now right.
  - split; [|intros Hle; now rewrite (Hone Hle)].
    intros Hlen.
    destruct (Z_le_gt_dec (estimate_tokens text)
                (default max_tokens_default max_tokens)) as [Hle|Hgt]; [exact Hle|].
    pose proof (over_budget_two_chunks (default max_tokens_default max_tokens)
                  text Hall ltac:(lia)) as Htwo.
    change (_split_text_into_chunks text
              (Some (default max_tokens_default max_tokens)))
      with (_split_text_into_chunks text max_tokens) in Htwo.
    lia.
Qed.

(** Three short paragraphs, ["a b\n\nc d\n\n\ne"], with a budget of 3. *)
Definition three_paragraphs : str :=
  [0x61; 0x20; 0x62; 0x0A; 0x0A; 0x63; 0x20; 0x64; 0x0A; 0x0A; 0x0A; 0x65]%N.

Lemma chunks_reproduce_text_witness :
  Forall (fun p => estimate_tokens p <= 3) (split para_sep three_paragraphs)
  /\ _split_text_into_chunks three_paragraphs (Some 3)
     = [[0x61; 0x20; 0x62]; [0x63; 0x20; 0x64]; [0x65]]%N
  /\ nonspace (concat (_split_text_into_chunks three_paragraphs (Some 3)))
     = nonspace three_paragraphs
  /\ (length (_split_text_into_chunks three_paragraphs (Some 3)) = 1%nat
      <-> estimate_tokens three_paragraphs <= 3).
Proof.
  assert (H : Forall (fun p => estimate_tokens p <= 3) (split para_sep three_paragraphs)).
  { repeat constructor; vm_compute; discriminate. }
  split; [exact H|]. split; [vm_compute; reflexivity|].
  exact (proj2 (proj2 (chunks_reproduce_text three_paragraphs (Some 3))) H).
Defined.

End ChunkerFacts.

(** ** The order on binary64 numbers *)

Module FloatFacts.

(** The place of a number that is not NaN in the order of the reals:
    class, then exponent, then mantissa. *)
Definition ord (x : spec_float) : Z * Z * Z :=
  match x with
  | S754_infinity true => (-2, 0, 0)
  | S754_finite true m e => (-1, - e, Z.neg m)
  | S754_zero _ => (0, 0, 0)
  | S754_nan => (0, 0, 0)
  | S754_finite false m e => (1, e, Z.pos m)
  | S754_infinity false => (2, 0, 0)
  end.

Definition lex (a b : Z * Z * Z) : comparison :=
  let '(a1, a2, a3) := a in
  let '(b1, b2, b3) := b in
  match a1 ?= b1 with
  | Eq => match a2 ?= b2 with Eq => a3 ?= b3 | c => c end
  | c => c
  end.

Lemma nan_dec (x : spec_float) : {x = S754_nan} + {x <> S754_nan}.
Proof. destruct x; ((left; reflexivity) || (right; discriminate)). Qed.

Lemma SFcompare_lex x y :
  x <> S754_nan -> y <> S754_nan ->
  SFcompare x y = Some (lex (ord x) (ord y)).
Proof.
  intros Hx Hy.
  destruct x as [sx|sx| |sx mx ex], y as [sy|sy| |sy my ey];
    try congruence; try (destruct sx); try (destruct sy); try reflexivity.
  cbn [SFcompare ord lex]. rewrite Z.compare_opp.
  change (Z.neg mx ?= Z.neg my) with (CompOpp (Pos.compare_cont Eq mx my)).
  rewrite (Z.compare_antisym ey ex), Z.compare_refl.
  now destruct (ey ?= ex).
Qed.

Lemma SFcompare_nan x y :
  x = S754_nan \/ y = S754_nan -> SFcompare x y = None.
Proof. intros [->| ->]; [reflexivity|]. now destruct x as [[]|[]| |[]]. Qed.

Lemma lex_Lt a b :
  lex a b = Lt <->
  a.1.1 < b.1.1 \/ a.1.1 = b.1.1 /\ (a.1.2 < b.1.2 \/ a.1.2 = b.1.2 /\ a.2 < b.2).
Proof.
  destruct a as [[a1 a2] a3], b as [[b1 b2] b3]. simpl.
  destruct (Z.compare_spec a1 b1), (Z.compare_spec a2 b2), (Z.compare_spec a3 b3);
    split; intros; try discriminate; try reflexivity; lia.
Qed.

Lemma lex_Eq a b : lex a b = Eq <-> a = b.
Proof.
  destruct a as [[a1 a2] a3], b as [[b1 b2] b3]. simpl.
  destruct (Z.compare_spec a1 b1), (Z.compare_spec a2 b2), (Z.compare_spec a3 b3);
    split; intros H'; try discriminate; try reflexivity;
    try (injection H' as ? ? ?; lia); subst; reflexivity.
Qed.

(** A number is ordered when it is not NaN. *)
Definition ordered (x : float) : Prop := Prim2SF x <> S754_nan.

Definition rank (x : float) : Z * Z * Z := ord (Prim2SF x).

Definition before (a b : Z * Z * Z) : Prop :=
  a.1.1 < b.1.1 \/ a.1.1 = b.1.1 /\ (a.1.2 < b.1.2 \/ a.1.2 = b.1.2 /\ a.2 < b.2).

Lemma ltb_true x y :
  (x <? y)%float = true <-> ordered x /\ ordered y /\ before (rank x) (rank y).
Proof.
  rewrite FloatAxioms.ltb_spec. unfold SFltb, ordered, rank, before.
  destruct (nan_dec (Prim2SF x)) as [Hx|Hx].
  { rewrite SFcompare_nan by now left. split; [discriminate|]. tauto. }
  destruct (nan_dec (Prim2SF y)) as [Hy|Hy].
  { rewrite SFcompare_nan by now right. split; [discriminate|]. tauto. }
  rewrite SFcompare_lex by assumption. rewrite <- lex_Lt.
  destruct (lex _ _); split; intros; try discriminate; try tauto;
    destruct H as (_ & _ & H); discriminate.
Qed.

Lemma eqb_true x y :
  (x =? y)%float = true <-> ordered x /\ ordered y /\ rank x = rank y.
Proof.
  rewrite FloatAxioms.eqb_spec. unfold SFeqb, ordered, rank.
  destruct (nan_dec (Prim2SF x)) as [Hx|Hx].
  { rewrite SFcompare_nan by now left. split; [discriminate|]. tauto. }
  destruct (nan_dec (Prim2SF y)) as [Hy|Hy].
  { rewrite SFcompare_nan by now right. split; [discriminate|]. tauto. }
  rewrite SFcompare_lex by assumption. rewrite <- lex_Eq.
  destruct (lex _ _); split; intros; try discriminate; try tauto;
    destruct H as (_ & _ & H); discriminate.
Qed.

Lemma leb_true x y :
  (x <=? y)%float = true <->
  ordered x /\ ordered y /\ (before (rank x) (rank y) \/ rank x = rank y).
Proof.
  rewrite FloatAxioms.leb_spec. unfold SFleb, ordered, rank, before.
  destruct (nan_dec (Prim2SF x)) as [Hx|Hx].
  { rewrite SFcompare_nan by now left. split; [discriminate|]. tauto. }
  destruct (nan_dec (Prim2SF y)) as [Hy|Hy].
  { rewrite SFcompare_nan by now right. split; [discriminate|]. tauto. }
  rewrite SFcompare_lex by assumption. rewrite <- lex_Lt, <- lex_Eq.
  destruct (lex _ _); split; intros; try discriminate; try tauto;
    destruct H as (_ & _ & [H|H]); discriminate.
Qed.

Lemma before_trans a b c : before a b -> before b c -> before a c.
Proof. unfold before. lia. Qed.

Lemma before_total a b : before a b \/ a = b \/ before b a.
Proof.
  destruct a as [[a1 a2] a3], b as [[b1 b2] b3]. unfold before. simpl.
  destruct (Z.compare_spec a1 b1), (Z.compare_spec a2 b2), (Z.compare_spec a3 b3);
    subst; auto; lia.
Qed.

Lemma before_irrefl a : ~ before a a.
Proof. unfold before. lia. Qed.

Lemma is_nan_false x : is_nan x = false <-> ordered x.
Proof.
  unfold is_nan. rewrite negb_false_iff, eqb_true. tauto.
Qed.

Lemma is_nan_true x : is_nan x = true <-> Prim2SF x = S754_nan.
Proof.
  destruct (is_nan x) eqn:H.
  - split; [intros _|reflexivity].
    destruct (nan_dec (Prim2SF x)) as [Hx|Hx]; [assumption|].
    apply is_nan_false in Hx. congruence.
  - apply is_nan_false in H. split; [discriminate|]. intros. contradiction.
Qed.

(** [<=] is transitive; a true comparison has no NaN on either side. *)
Lemma leb_trans x y z :
  (x <=? y)%float = true -> (y <=? z)%float = true -> (x <=? z)%float = true.
Proof.
  rewrite !leb_true. intros (Hx & Hy & Hxy) (_ & Hz & Hyz).
  repeat split; try assumption.
  destruct Hxy as [Hxy|Hxy], Hyz as [Hyz|Hyz].
  - left. eapply before_trans; eassumption.
  - left. now rewrite <- Hyz.
  - left. now rewrite Hxy.
  - right. congruence.
Qed.

Lemma leb_ordered_r x y : (x <=? y)%float = true -> is_nan y = false.
Proof. rewrite leb_true, is_nan_false. tauto. Qed.

Lemma leb_ordered_l x y : (x <=? y)%float = true -> is_nan x = false.
Proof. rewrite leb_true, is_nan_false. tauto. Qed.

Lemma ltb_leb x y : (x <? y)%float = true -> (x <=? y)%float = true.
Proof. rewrite ltb_true, leb_true. tauto. Qed.

(** Without NaN the order is total. *)
Lemma ltb_false_leb x y :
  is_nan x = false -> is_nan y = false ->
  (x <? y)%float = false -> (y <=? x)%float = true.
Proof.
  rewrite !is_nan_false. intros Hx Hy Hlt. apply leb_true.
  repeat split; try assumption.
  destruct (before_total (rank x) (rank y)) as [H|[H|H]]; auto.
  assert (Ht : (x <? y)%float = true) by (apply ltb_true; tauto).
  congruence.
Qed.

(** Equal numbers pass an inclusive comparison, either way round. *)
Lemma eqb_leb x y : (x =? y)%float = true -> (y <=? x)%float = true.
Proof. rewrite eqb_true, leb_true. intuition. Qed.

Lemma ltb_not_leb x y : (x <? y)%float = true -> (y <=? x)%float = false.
Proof.
  rewrite ltb_true. intros (Hx & Hy & Hlt).
  destruct (y <=? x)%float eqn:H; [|reflexivity].
  apply leb_true in H. destruct H as (_ & _ & [H|H]).
  - exfalso. eapply before_irrefl, before_trans; eassumption.
  - rewrite H in Hlt. now apply before_irrefl in Hlt.
Qed.

Lemma leb_nan_r x y : is_nan y = true -> (x <=? y)%float = false.
Proof.
  intros Hy. destruct (x <=? y)%float eqn:H; [|reflexivity].
  apply leb_ordered_r in H. congruence.
Qed.

End FloatFacts.

(** ** Cosine similarity with a zero vector *)

Module ZeroVectorFacts.
Import Numpy MemoryUtils FloatFacts.

(** A vector whose components are all [0.0] or [-0.0]. *)
Definition zero_vector (a : ndarray) : bool := forallb PrimFloat.is_zero a.

(** Zero of either sign, or NaN. *)
Definition nullish (x : float) : Prop :=
  Prim2SF x = S754_nan \/ exists s, Prim2SF x = S754_zero s.

Lemma is_zero_true x : PrimFloat.is_zero x = true -> exists s, Prim2SF x = S754_zero s.
Proof.
  unfold PrimFloat.is_zero. rewrite eqb_true. unfold ordered, rank.
  intros (Hx & _ & Hr). change (Prim2SF 0) with (S754_zero false) in Hr.
  destruct (Prim2SF x) as [s|[]| |[] m e]; try discriminate; try congruence.
  now exists s.
Qed.

Lemma nullish_zero x : PrimFloat.is_zero x = true -> nullish x.
Proof. intros H. right. now apply is_zero_true. Qed.

Lemma nullish_mul_l x y : nullish x -> nullish (x * y)%float.
Proof.
  unfold nullish. rewrite FloatAxioms.mul_spec. unfold SF64mul.
  intros [->|[s ->]]; [now left|].
  destruct (Prim2SF y) as [sy|sy| |sy my ey]; simpl; eauto.
Qed.

Lemma nullish_mul_r x y : nullish y -> nullish (x * y)%float.
Proof.
  unfold nullish. rewrite FloatAxioms.mul_spec. unfold SF64mul.
  intros [->|[s ->]].
  - left. now destruct (Prim2SF x).
  - destruct (Prim2SF x) as [sx|sx| |sx mx ex]; simpl; eauto.
Qed.

Lemma nullish_add x y : nullish x -> nullish y -> nullish (x + y)%float.
Proof.
  unfold nullish. rewrite FloatAxioms.add_spec. unfold SF64add.
  intros [->|[sx ->]] [->|[sy ->]]; simpl; eauto.
  destruct sx, sy; eauto.
Qed.

Lemma nullish_sqrt x : nullish x -> nullish (PrimFloat.sqrt x).
Proof.
  unfold nullish. rewrite FloatAxioms.sqrt_spec. unfold SF64sqrt.
  intros [->|[s ->]]; simpl; eauto.
Qed.

Lemma nullish_div x y : nullish x -> nullish y -> is_nan (x / y)%float = true.
Proof.
  unfold nullish. rewrite is_nan_true, FloatAxioms.div_spec. unfold SF64div.
  intros [->|[sx ->]] [->|[sy ->]]; reflexivity.
Qed.

Lemma nullish_dot_sum_from a b acc :
  zero_vector a = true \/ zero_vector b = true ->
  nullish acc ->
  nullish (fold_left (fun acc xy => (acc + fst xy * snd xy)%float) (combine a b) acc).
Proof.
  revert b acc. induction a as [|x a IH]; intros [|y b] acc Hz Hacc; simpl; try assumption.
  apply IH.
  - simpl in Hz. destruct Hz as [Hz|Hz]; apply andb_prop in Hz; tauto.
  - apply nullish_add; [assumption|].
    simpl in Hz. destruct Hz as [Hz|Hz]; apply andb_prop in Hz as [Hz _].
    + now apply nullish_mul_l, nullish_zero.
    + now apply nullish_mul_r, nullish_zero.
Qed.

Lemma nullish_dot_sum a b :
  zero_vector a = true \/ zero_vector b = true -> nullish (dot_sum a b).
Proof.
  intros Hz. apply nullish_dot_sum_from; [assumption|].
  right. now exists false.
Qed.

Lemma nullish_norm a : zero_vector a = true -> nullish (norm a).
Proof. intros Hz. apply nullish_sqrt, nullish_dot_sum. now left. Qed.

(** With a zero vector on either side the quotient is 0/0: the
    similarity is NaN. *)
Lemma zero_vector_similarity a b :
  zero_vector a = true \/ zero_vector b = true ->
  length a = length b ->
  exists s, calculate_similarity a b = Some s /\ is_nan s = true.
Proof.
  intros Hz Hlen. unfold calculate_similarity, dot.
  rewrite Hlen, Nat.eqb_refl. eexists. split; [reflexivity|].
  apply nullish_div.
  - now apply nullish_dot_sum.
  - destruct Hz as [Hz|Hz].
    + now apply nullish_mul_l, nullish_norm.
    + now apply nullish_mul_r, nullish_norm.
Qed.

End ZeroVectorFacts.

(** ** The service: what a search reads and returns *)

Module SearchFacts.
Import Numpy MemoryUtils PyDict DatabaseService FloatFacts.

(** [s'] differs from [s] at most in the faults still to come. *)
Definition frame (s s' : State) : Prop :=
  dynamodb_disabled s' = dynamodb_disabled s
  /\ memories_table s' = memories_table s
  /\ embeddings_table s' = embeddings_table s
  /\ vector_store s' = vector_store s.

Lemma frame_refl s : frame s s.
Proof. now repeat split. Qed.

Lemma frame_trans s1 s2 s3 : frame s1 s2 -> frame s2 s3 -> frame s1 s3.
Proof.
  unfold frame. intros (-> & -> & -> & ->) (-> & -> & -> & ->). now repeat split.
Qed.

(** [get_memory_by_id] never raises; it changes no table and no vector;
    what it finds is the item of the memories table under that key. *)
Lemma get_memory_by_id_spec memory_id s :
  exists o s1,
    get_memory_by_id memory_id s = (Return o, s1)
    /\ frame s s1
    /\ (o = None \/ o = get_item md_id memory_id (memories_table s)).
Proof.
  unfold get_memory_by_id, bind, gets, try_except, Table, memories_get_item,
    bind, gets, request, ret, raise.
  destruct (dynamodb_disabled s) eqn:Hd; simpl.
  - exists None, s. repeat split; auto.
  - rewrite Hd. destruct (faults s) as [|[] fs]; simpl.
    + eexists _, _. split; [reflexivity|]. split; [apply frame_refl|now right].
    + eexists _, _. split; [reflexivity|]. split; [now repeat split|now left].
    + eexists _, _. split; [reflexivity|]. split; [now repeat split|now right].
Qed.

Lemma get_item_key {I} (key : I -> string) k t i :
  get_item key k t = Some i -> key i = k /\ In i t.
Proof.
  unfold get_item. intros H. apply List.find_some in H as [Hin Hk].
  split; [|assumption]. now apply String.eqb_eq.
Qed.

Section Scan.
Variables (query_vector : ndarray) (user_id : string) (threshold : float).
Variable table : list MemoryData.

(** The results a scan of [items] may add, in the order of [items]: an
    entry of the tenant whose similarity passes the threshold and whose
    record, fetched from the memories table, is owned by the tenant; any
    entry may also be passed over. *)
Inductive hits : list (string * VectorData) -> list SearchResult -> Prop :=
| hits_nil : hits [] []
| hits_skip kv items new : hits items new -> hits (kv :: items) new
| hits_take memory_id vector_data items new m similarity :
    hits items new ->
    vd_user_id vector_data = Some user_id ->
    calculate_similarity query_vector (vd_embedding vector_data) = Some similarity ->
    (threshold <=? similarity)%float = true ->
    get_item md_id memory_id table = Some m ->
    md_user_id m = Some user_id ->
    hits ((memory_id, vector_data) :: items)
         ({| memory := m; similarity_score := similarity |} :: new).

Lemma hits_owned items new :
  hits items new ->
  Forall (fun r => md_user_id (memory r) = Some user_id) new.
Proof. induction 1; auto. Qed.

Lemma hits_threshold items new :
  hits items new ->
  Forall (fun r => (threshold <=? similarity_score r)%float = true) new.
Proof. induction 1; auto. Qed.

Lemma hits_source items new :
  hits items new ->
  Forall (fun r => exists vector_data,
            In (md_id (memory r), vector_data) items
            /\ vd_user_id vector_data = Some user_id
            /\ calculate_similarity query_vector (vd_embedding vector_data)
               = Some (similarity_score r)
            /\ get_item md_id (md_id (memory r)) table = Some (memory r)) new.
Proof.
  induction 1 as [|kv items new _ IH|k vd items new m sim _ IH Hu Hc Ht Hg Ho].
  - constructor.
  - eapply Forall_impl; [exact IH|]. intros r (vd & Hin & Hrest).
    exists vd. split; [now right|assumption].
  - constructor.
    + simpl. destruct (get_item_key _ _ _ _ Hg) as [Hk _]. subst k.
      exists vd. split; [now left|]. auto.
    + eapply Forall_impl; [exact IH|]. intros r (vd' & Hin & Hrest).
      exists vd'. split; [now right|assumption].
Qed.

(** The ids of the results follow the order of the index. *)
Lemma hits_sublist items new :
  hits items new ->
  sublist (List.map (fun r => md_id (memory r)) new) (List.map fst items).
Proof.
  induction 1 as [|kv items new _ IH|k vd items new m sim _ IH Hu Hc Ht Hg Ho]; simpl.
  - constructor.
  - now constructor.
  - destruct (get_item_key _ _ _ _ Hg) as [-> _]. now constructor.
Qed.

End Scan.

Lemma scan_vectors_spec q u t items :
  forall results s out s',
    scan_vectors q u t items results s = (out, s') ->
    frame s s'
    /\ forall rs, out = Return rs ->
         exists new, rs = results ++ new /\ hits q u t (memories_table s) items new.
Proof.
  induction items as [|[k vd] items IH]; intros results s out s' Hrun; simpl in Hrun.
  - injection Hrun as <- <-. split; [apply frame_refl|].
    intros rs [= <-]. exists []. split; [now rewrite app_nil_r|constructor].
  - destruct (bool_decide (vd_user_id vd = Some u)) eqn:Hu; simpl in Hrun.
    + apply bool_decide_eq_true in Hu.
      unfold bind at 1, cosine in Hrun.
      destruct (calculate_similarity q (vd_embedding vd)) as [sim|] eqn:Hc;
        simpl in Hrun.
      * destruct (t <=? sim)%float eqn:Ht.
        -- unfold bind at 1 in Hrun.
           destruct (get_memory_by_id_spec k s) as (o & s1 & Hget & Hf & Ho).
           rewrite Hget in Hrun.
           assert (Hskip : forall out s',
                     scan_vectors q u t items results s1 = (out, s') ->
                     frame s s' /\
                     forall rs, out = Return rs ->
                       exists new, rs = results ++ new
                         /\ hits q u t (memories_table s) ((k, vd) :: items) new).
           { intros out0 s0 H0. apply IH in H0 as [Hf0 H0].
             split; [eapply frame_trans; eassumption|].
             intros rs Hrs. destruct (H0 rs Hrs) as (new & -> & Hh).
             exists new. split; [reflexivity|]. apply hits_skip.
             destruct Hf as (_ & <- & _). exact Hh. }
           destruct o as [m|]; [|now apply Hskip].
           destruct (bool_decide (md_user_id m = Some u)) eqn:Hown; [|now apply Hskip].
           apply bool_decide_eq_true in Hown.
           destruct Ho as [Ho|Ho]; [discriminate|].
           apply IH in Hrun as [Hf0 H0].
           split; [eapply frame_trans; eassumption|].
           intros rs Hrs. destruct (H0 rs Hrs) as (new & -> & Hh).
           eexists (_ :: new). split; [now rewrite <- app_assoc|].
           destruct Hf as (_ & Hm & _). rewrite Hm in Hh.
           apply hits_take; auto.
        -- apply IH in Hrun as [Hf0 H0]. split; [assumption|].
           intros rs Hrs. destruct (H0 rs Hrs) as (new & -> & Hh).
           exists new. split; [reflexivity|]. now apply hits_skip.
      * unfold raise in Hrun. injection Hrun as <- <-.
        split; [apply frame_refl|]. discriminate.
    + apply IH in Hrun as [Hf0 H0]. split; [assumption|].
      intros rs Hrs. destruct (H0 rs Hrs) as (new & -> & Hh).
      exists new. split; [reflexivity|]. now apply hits_skip.
Qed.

(** *** The sort and the cut *)

(** Descending by similarity score. *)
Definition desc (a b : SearchResult) : Prop :=
  (similarity_score b <=? similarity_score a)%float = true.

(** The results that tie with the score [k]. *)
Definition tied (k : float) (r : SearchResult) : bool :=
  (similarity_score r =? k)%float.

Definition scored (r : SearchResult) : Prop := is_nan (similarity_score r) = false.

Lemma insert_desc_perm x l : Permutation (insert_desc x l) (x :: l).
Proof.
  induction l as [|y l IH]; simpl; [reflexivity|].
  destruct (similarity_score y <? similarity_score x)%float; [reflexivity|].
  rewrite IH. apply perm_swap.
Qed.

Lemma sort_desc_from_perm l acc :
  Permutation (fold_left (fun acc x => insert_desc x acc) l acc) (acc ++ l).
Proof.
  revert acc. induction l as [|x l IH]; intros acc; simpl.
  - now rewrite app_nil_r.
  - rewrite IH, insert_desc_perm. apply Permutation_middle.
Qed.

Lemma sort_desc_perm l : Permutation (sort_desc l) l.
Proof. apply (sort_desc_from_perm l []). Qed.

Lemma insert_desc_sorted x l :
  scored x -> Forall scored l ->
  StronglySorted desc l -> StronglySorted desc (insert_desc x l).
Proof.
  intros Hx Hl Hs. induction Hs as [|y l Hs IH Hy]; simpl.
  - repeat constructor.
  - inversion Hl as [|? ? Hsy Hsl]; subst.
    destruct (similarity_score y <? similarity_score x)%float eqn:Hlt.
    + constructor; [now constructor|].
      apply ltb_leb in Hlt. constructor; [exact Hlt|].
      eapply Forall_impl; [exact Hy|]. intros z Hz.
      unfold desc in *. eapply leb_trans; eassumption.
    + constructor; [now apply IH|].
      apply (Permutation_Forall (Permutation_sym (insert_desc_perm x l))).
      constructor; [|assumption].
      unfold desc. now apply ltb_false_leb.
Qed.

Lemma sort_desc_from_sorted l acc :
  Forall scored l -> Forall scored acc -> StronglySorted desc acc ->
  StronglySorted desc (fold_left (fun acc x => insert_desc x acc) l acc).
Proof.
  revert acc. induction l as [|x l IH]; intros acc Hl Hacc Hs; simpl; [assumption|].
  inversion Hl as [|? ? Hx Hl']; subst. apply IH; [assumption| |].
  - apply (Permutation_Forall (Permutation_sym (insert_desc_perm x acc))).
    now constructor.
  - now apply insert_desc_sorted.
Qed.

Lemma sort_desc_sorted l : Forall scored l -> StronglySorted desc (sort_desc l).
Proof. intros Hl. apply sort_desc_from_sorted; auto; constructor. Qed.

(** The sort is stable: the results that tie keep the order they had. *)
Lemma insert_desc_tied k x l :
  scored x -> Forall scored l -> StronglySorted desc l ->
  List.filter (tied k) (insert_desc x l) = List.filter (tied k) l ++ List.filter (tied k) [x].
Proof.
  intros Hx Hl Hs. induction Hs as [|y l Hs IH Hy]; [reflexivity|].
  inversion Hl as [|? ? Hsy Hsl]; subst. cbn [insert_desc].
  destruct (similarity_score y <? similarity_score x)%float eqn:Hlt.
  - change (x :: y :: l) with ([x] ++ y :: l). rewrite List.filter_app.
    destruct (tied k x) eqn:Hk;
      [|replace (List.filter (tied k) [x]) with (@nil SearchResult)
          by (simpl; now rewrite Hk);
        now rewrite app_nil_r].
    assert (Hnone : List.filter (tied k) (y :: l) = []).
    { assert (Hall : Forall (fun z => tied k z = false) (y :: l)).
      { assert (Hbelow : forall z, desc y z -> tied k z = false).
        { intros z Hz. unfold tied in *. destruct (similarity_score z =? k)%float eqn:Hzk;
            [|reflexivity].
          exfalso. unfold desc in Hz.
          apply eqb_true in Hk as (_ & _ & Hk), Hzk as (_ & _ & Hzk).
          apply ltb_true in Hlt as (_ & _ & Hlt).
          apply leb_true in Hz as (_ & _ & Hz).
          rewrite Hk, <- Hzk in Hlt.
          destruct Hz as [Hz|Hz].
          - eapply before_irrefl, before_trans; eassumption.
          - rewrite Hz in Hlt. now apply before_irrefl in Hlt. }
        constructor.
        - apply Hbelow. unfold desc. apply eqb_leb, eqb_true.
          apply is_nan_false in Hsy. auto.
        - eapply Forall_impl; [exact Hy|]. intros z Hz. apply Hbelow.
          unfold desc in *. eapply leb_trans; [exact Hz|].
          apply eqb_leb, eqb_true. apply is_nan_false in Hsy. auto. }
      clear -Hall. induction Hall as [|z l' Hz _ IH']; [reflexivity|].
      simpl. now rewrite Hz. }
    rewrite Hnone. now rewrite app_nil_r.
  - cbn [List.filter]. rewrite (IH Hsl).
    destruct (tied k y); reflexivity.
Qed.

Lemma sort_desc_from_tied k l acc :
  Forall scored l -> Forall scored acc -> StronglySorted desc acc ->
  List.filter (tied k) (fold_left (fun acc x => insert_desc x acc) l acc)
  = List.filter (tied k) acc ++ List.filter (tied k) l.
Proof.
  revert acc. induction l as [|x l IH]; intros acc Hl Hacc Hs; simpl fold_left.
  - now rewrite app_nil_r.
  - inversion Hl as [|? ? Hx Hl']; subst. rewrite IH.
    + rewrite insert_desc_tied by assumption.
      rewrite <- app_assoc. f_equal. simpl. now destruct (tied k x).
    + assumption.
    + apply (Permutation_Forall (Permutation_sym (insert_desc_perm x acc))).
      now constructor.
    + now apply insert_desc_sorted.
Qed.

Lemma sort_desc_tied k l :
  Forall scored l -> List.filter (tied k) (sort_desc l) = List.filter (tied k) l.
Proof.
  intros Hl. unfold sort_desc. rewrite sort_desc_from_tied; auto; constructor.
Qed.

Lemma slice_to_take {A} (l : list A) limit : exists n, slice_to l limit = take n l.
Proof. unfold slice_to. destruct (0 <=? limit); eauto. Qed.

Lemma In_slice_to {A} (l : list A) limit x : In x (slice_to l limit) -> In x l.
Proof.
  destruct (slice_to_take l limit) as [n ->].
  rewrite <- (take_drop n l) at 2. intros H. apply in_or_app. now left.
Qed.

Lemma length_slice_to {A} (l : list A) limit :
  0 <= limit -> Z.of_nat (length (slice_to l limit)) <= limit.
Proof.
  intros H. unfold slice_to. apply Z.leb_le in H as Hb. rewrite Hb.
  rewrite length_take. lia.
Qed.

Lemma slice_to_all {A} (l : list A) limit :
  Z.of_nat (length l) <= limit -> slice_to l limit = l.
Proof.
  intros H. unfold slice_to.
  assert (Hb : (0 <=? limit) = true) by (apply Z.leb_le; lia).
  rewrite Hb. apply take_ge. lia.
Qed.

Lemma StronglySorted_take {A} (R : A -> A -> Prop) n l :
  StronglySorted R l -> StronglySorted R (take n l).
Proof.
  intros Hs. revert n. induction Hs as [|x l Hs IH Hx]; intros [|n]; simpl;
    try constructor; [apply IH|].
  rewrite List.Forall_forall in *. intros y Hy. apply Hx.
  rewrite <- (take_drop n l). apply in_or_app. now left.
Qed.

(** *** semantic_search, whole *)

Lemma semantic_search_spec q u limit t s out s' :
  semantic_search q u limit t s = (out, s') ->
  frame s s'
  /\ forall rs, out = Return rs ->
       exists all,
         hits q u t (memories_table s) (vector_store s) all
         /\ rs = slice_to (sort_desc all) limit.
Proof.
  unfold semantic_search, bind at 1, gets. unfold bind.
  destruct (scan_vectors q u t (vector_store s) [] s) as [[all|e] s1] eqn:Hscan;
    intros [= <- <-]; apply scan_vectors_spec in Hscan as [Hf Hall].
  - split; [assumption|]. intros rs [= <-].
    destruct (Hall all eq_refl) as (new & Hnew & Hh). simpl in Hnew. subst new.
    now exists all.
  - split; [assumption|]. discriminate.
Qed.

Lemma hits_scored q u t table items all :
  hits q u t table items all -> Forall scored all.
Proof.
  intros H. apply hits_threshold in H.
  eapply Forall_impl; [exact H|]. intros r Hr. eapply leb_ordered_r, Hr.
Qed.

Lemma In_sorted_slice all limit r :
  In r (slice_to (sort_desc all) limit) -> In r all.
Proof.
  intros H. apply In_slice_to in H.
  eapply Permutation_in; [apply sort_desc_perm|exact H].
Qed.

(** *** When a search raises *)

Lemma calculate_similarity_None a b :
  calculate_similarity a b = None -> length a <> length b.
Proof.
  unfold calculate_similarity, dot.
  destruct (length a =? length b)%nat eqn:H; [discriminate|].
  intros _. now apply Nat.eqb_neq.
Qed.

Lemma calculate_similarity_Some a b sim :
  calculate_similarity a b = Some sim -> length a = length b.
Proof.
  unfold calculate_similarity, dot.
  destruct (length a =? length b)%nat eqn:H; [|discriminate].
  intros _. now apply Nat.eqb_eq.
Qed.

(** The one exception a scan raises is the [ValueError] of [np.dot], on
    an entry of the tenant whose embedding has another length than the
    query. *)
Lemma scan_vectors_raise q u t items :
  forall results s e s',
    scan_vectors q u t items results s = (Raise e, s') ->
    e = ValueError
    /\ exists k vd, In (k, vd) items /\ vd_user_id vd = Some u
                   /\ length q <> length (vd_embedding vd).
Proof.
  induction items as [|[k vd] items IH]; intros results s e s' Hrun; simpl in Hrun.
  - discriminate.
  - assert (Hrest : forall results s,
              scan_vectors q u t items results s = (Raise e, s') ->
              e = ValueError
              /\ exists k0 vd0, In (k0, vd0) ((k, vd) :: items)
                   /\ vd_user_id vd0 = Some u
                   /\ length q <> length (vd_embedding vd0)).
    { intros results0 s0 H0. apply IH in H0 as (He & k0 & vd0 & Hin & Hrest).
      split; [assumption|]. exists k0, vd0. split; [now right|assumption]. }
    destruct (bool_decide (vd_user_id vd = Some u)) eqn:Hu; simpl in Hrun;
      [|now apply Hrest in Hrun].
    apply bool_decide_eq_true in Hu.
    unfold bind at 1, cosine in Hrun.
    destruct (calculate_similarity q (vd_embedding vd)) as [sim|] eqn:Hc;
      simpl in Hrun.
    + destruct (t <=? sim)%float; [|now apply Hrest in Hrun].
      unfold bind at 1 in Hrun.
      destruct (get_memory_by_id_spec k s) as (o & s1 & Hget & _ & _).
      rewrite Hget in Hrun.
      destruct o as [m|]; [|now apply Hrest in Hrun].
      destruct (bool_decide (md_user_id m = Some u)); now apply Hrest in Hrun.
    + unfold raise in Hrun. injection Hrun as <- <-. split; [reflexivity|].
      exists k, vd. split; [now left|]. split; [assumption|].
      now apply calculate_similarity_None.
Qed.

(** *** When DynamoDB answers every request *)

Definition fault_free (s : State) : Prop := Forall (fun b => b = false) (faults s).

Lemma get_memory_by_id_fault_free memory_id s :
  dynamodb_disabled s = false -> fault_free s ->
  exists s1,
    get_memory_by_id memory_id s
    = (Return (get_item md_id memory_id (memories_table s)), s1)
    /\ frame s s1 /\ fault_free s1.
Proof.
  intros Hd Hff.
  unfold get_memory_by_id, bind, gets, try_except, Table, memories_get_item,
    bind, gets, request, ret, raise.
  rewrite Hd. simpl. rewrite Hd. unfold fault_free in Hff.
  destruct (faults s) as [|b fs] eqn:Hfs; simpl.
  - eexists. split; [reflexivity|]. split; [apply frame_refl|].
    unfold fault_free. now rewrite Hfs.
  - inversion Hff as [|? ? Hb Hrest]; subst. simpl.
    eexists. split; [reflexivity|]. split; [now repeat split|exact Hrest].
Qed.

(** Then an entry of the tenant at or over the threshold, whose record is
    in the memories table and owned by the tenant, is among the results
    of a scan that returns. *)
Lemma scan_vectors_complete q u t items :
  forall results s rs s',
    dynamodb_disabled s = false -> fault_free s ->
    scan_vectors q u t items results s = (Return rs, s') ->
    (forall r, In r results -> In r rs)
    /\ forall k vd sim m,
         In (k, vd) items ->
         vd_user_id vd = Some u ->
         calculate_similarity q (vd_embedding vd) = Some sim ->
         (t <=? sim)%float = true ->
         get_item md_id k (memories_table s) = Some m ->
         md_user_id m = Some u ->
         In {| memory := m; similarity_score := sim |} rs.
Proof.
  induction items as [|[k vd] items IH]; intros results s rs s' Hd Hff Hrun;
    simpl in Hrun.
  - injection Hrun as <- <-. split; [auto|]. intros ? ? ? ? [].
  - assert (Hskip : forall s1,
              frame s s1 -> fault_free s1 ->
              scan_vectors q u t items results s1 = (Return rs, s') ->
              (forall k0 vd0 sim m, (k0, vd0) = (k, vd) ->
                 vd_user_id vd0 = Some u ->
                 calculate_similarity q (vd_embedding vd0) = Some sim ->
                 (t <=? sim)%float = true ->
                 get_item md_id k0 (memories_table s) = Some m ->
                 md_user_id m = Some u -> False) ->
              (forall r, In r results -> In r rs)
              /\ forall k0 vd0 sim m,
                   In (k0, vd0) ((k, vd) :: items) ->
                   vd_user_id vd0 = Some u ->
                   calculate_similarity q (vd_embedding vd0) = Some sim ->
                   (t <=? sim)%float = true ->
                   get_item md_id k0 (memories_table s) = Some m ->
                   md_user_id m = Some u ->
                   In {| memory := m; similarity_score := sim |} rs).
    { intros s1 (Hd1 & Hm1 & _) Hff1 H1 Hnot.
      apply IH in H1 as [Hmono Hin]; [|congruence|assumption].
      split; [assumption|].
      intros k0 vd0 sim m [Heq|Hin0] Hu0 Hc0 Ht0 Hg0 Ho0.
      - exfalso. symmetry in Heq. eapply Hnot; eauto.
      - rewrite <- Hm1 in Hg0. eauto. }
    destruct (bool_decide (vd_user_id vd = Some u)) eqn:Hu; simpl in Hrun.
    + unfold bind at 1, cosine in Hrun.
      destruct (calculate_similarity q (vd_embedding vd)) as [sim|] eqn:Hc;
        simpl in Hrun; [|discriminate].
      destruct (t <=? sim)%float eqn:Ht.
      * unfold bind at 1 in Hrun.
        destruct (get_memory_by_id_fault_free k s Hd Hff) as (s1 & Hget & Hf & Hff1).
        rewrite Hget in Hrun.
        destruct (get_item md_id k (memories_table s)) as [m|] eqn:Hg.
        -- destruct (bool_decide (md_user_id m = Some u)) eqn:Hown.
           ++ destruct Hf as (Hd1 & Hm1 & _).
              apply IH in Hrun as [Hmono Hin]; [|congruence|assumption].
              split.
              ** intros r Hr. apply Hmono, in_or_app. now left.
              ** intros k0 vd0 sim0 m0 [Heq|Hin0] Hu0 Hc0 Ht0 Hg0 Ho0.
                 --- injection Heq as <- <-.
                     assert (sim0 = sim) by congruence.
                     assert (m0 = m) by congruence. subst.
                     apply Hmono, in_or_app. right. now left.
                 --- rewrite <- Hm1 in Hg0. eauto.
           ++ apply Hskip in Hrun; auto.
              intros k0 vd0 sim0 m0 [= -> ->] _ _ _ Hg0 Ho0.
              apply bool_decide_eq_false in Hown. congruence.
        -- apply Hskip in Hrun; auto.
           intros k0 vd0 sim0 m0 [= -> ->] _ _ _ Hg0 _. congruence.
      * apply Hskip in Hrun; auto using frame_refl.
        intros k0 vd0 sim0 m0 [= -> ->] _ Hc0 Ht0 _ _. congruence.
    + apply Hskip in Hrun; auto using frame_refl.
      intros k0 vd0 sim0 m0 [= -> ->] Hu0 _ _ _ _.
      apply bool_decide_eq_false in Hu. simpl in Hu. congruence.
Qed.

End SearchFacts.

(** ** States used as examples *)

Module Fixtures.
Import Numpy PyDict DatabaseService.
Local Open Scope string_scope.

(** A text memory [memory_id] of [user_id]. *)
Definition record (memory_id user_id : string) : MemoryData :=
  {| md_id := memory_id;
     md_user_id := Some user_id;
     md_content := "Meeting notes: discuss Q3 roadmap";
     md_memory_type := "text";
     md_metadata := [];
     md_created_at := "2025-01-01T00:00:00";
     md_updated_at := "2025-01-01T00:00:00";
     md_source := None;
     md_summary := None;
     md_tags := [] |}.

Definition entry (memory_id user_id : string) (embedding : ndarray)
  : string * VectorData :=
  (memory_id,
   {| vd_embedding := embedding; vd_memory_id := memory_id; vd_user_id := Some user_id |}).

Definition stored (memory_id user_id : string) (embedding : list attr) : VectorItem :=
  {| vi_id := memory_id;
     vi_user_id := Some user_id;
     vi_embedding := Some embedding;
     vi_memory_id := memory_id;
     vi_created_at := "2025-01-01T00:00:00" |}.

Definition e1 : ndarray := [1; 0; 0]%float.

(** A running service with the given index, tables and coming faults;
    its tables are small, so that a page holds all there is. *)
Definition service (memories : list MemoryData) (embeddings : list VectorItem)
    (fs : list bool) (index : dict VectorData) : State :=
  {| dynamodb_disabled := false;
     memories_table := memories;
     embeddings_table := embeddings;
     faults := fs;
     vector_store := index;
     memories_page := @length MemoryData;
     embeddings_page := @length VectorItem |}.

(** Two memories of [u1] and one of [u2], all with the embedding [e1]. *)
Definition two_tenants : State :=
  service [record "m1" "u1"; record "m2" "u1"; record "m3" "u2"]
          [stored "m1" "u1" (List.map Number e1); stored "m2" "u1" (List.map Number e1);
           stored "m3" "u2" (List.map Number e1)]
          []
          [entry "m1" "u1" e1; entry "m2" "u1" e1; entry "m3" "u2" e1].

(** The tables of [two_tenants] when a page holds two items; the index
    is empty, as at a start. *)
Definition short_page : State :=
  {| dynamodb_disabled := false;
     memories_table := memories_table two_tenants;
     embeddings_table := embeddings_table two_tenants;
     faults := [];
     vector_store := [];
     memories_page := fun _ => 2%nat;
     embeddings_page := fun _ => 2%nat |}.

(** The same memories of [u1], indexed in the two possible orders. *)
Definition index_m1_m2 : State :=
  service [record "m1" "u1"; record "m2" "u1"] [] []
          [entry "m1" "u1" e1; entry "m2" "u1" e1].

Definition index_m2_m1 : State :=
  service [record "m1" "u1"; record "m2" "u1"] [] []
          [entry "m2" "u1" e1; entry "m1" "u1" e1].

(** [u1] has [m1] and a memory [m0] whose stored embedding is zero. *)
Definition with_zero_entry : State :=
  service [record "m0" "u1"; record "m1" "u1"] [] []
          [entry "m0" "u1" [0; 0; 0]%float; entry "m1" "u1" e1].

(** One memory; of the requests to come the first succeeds and the
    second fails. *)
Definition second_request_fails : State :=
  service [record "m1" "u1"] [stored "m1" "u1" (List.map Number e1)]
          [false; true]
          [entry "m1" "u1" e1].

Definition hit (memory_id user_id : string) (score : float) : SearchResult :=
  {| memory := record memory_id user_id; similarity_score := score |}.

End Fixtures.

(** ** Claims on semantic_search *)

Module SearchClaims.
Import Numpy MemoryUtils PyDict DatabaseService FloatFacts ZeroVectorFacts SearchFacts Fixtures.
Local Open Scope string_scope.

(** C1: every result of a search is a record of the querying tenant; a
    record of tenant [a] is in no result list of a search issued for
    another tenant [u], whatever the query vector, limit and threshold. *)
Theorem search_tenant_isolation q u limit t s rs s' :
  semantic_search q u limit t s = (Return rs, s') ->
  (forall r, In r rs -> md_user_id (memory r) = Some u)
  /\ (forall a m, a <> u -> md_user_id m = Some a -> ~ In m (List.map memory rs)).
Proof.
  intros Hrun. apply semantic_search_spec in Hrun as [_ Hrs].
  destruct (Hrs rs eq_refl) as (all & Hh & ->).
  assert (Hown : forall r, In r (slice_to (sort_desc all) limit) ->
                           md_user_id (memory r) = Some u).
  { intros r Hr. apply In_sorted_slice in Hr.
    apply hits_owned in Hh. rewrite List.Forall_forall in Hh. now apply Hh. }
  split; [exact Hown|].
  intros a m Ha Hm Hin. apply in_map_iff in Hin as (r & <- & Hr).
  apply Hown in Hr. congruence.
Qed.

Lemma search_tenant_isolation_witness :
  (semantic_search e1 "u2" 10 0.5 two_tenants).1 = Return [hit "m3" "u2" 1]
  /\ ~ In (record "m1" "u1") (List.map memory [hit "m3" "u2" 1]).
Proof.
  split; [vm_compute; reflexivity|].
  refine (proj2 (search_tenant_isolation e1 "u2" 10 0.5%float two_tenants
                   [hit "m3" "u2" 1] _ _) "u1" (record "m1" "u1") _ _).
  - vm_compute. reflexivity.
  - discriminate.
  - reflexivity.
Defined.

(** C10: a search leaves the in-memory index as it was, whether it
    returns or raises; the two tables are not written either. *)
Theorem search_leaves_index q u limit t s :
  vector_store (semantic_search q u limit t s).2 = vector_store s
  /\ memories_table (semantic_search q u limit t s).2 = memories_table s
  /\ embeddings_table (semantic_search q u limit t s).2 = embeddings_table s.
Proof.
  destruct (semantic_search q u limit t s) as [out s'] eqn:Hrun.
  apply semantic_search_spec in Hrun as [(_ & Hm & He & Hv) _]. auto.
Qed.

(** C6, as stated, fails: with the same two memories in the index, equal
    in similarity, the order in which they were put there decides the
    order of the results, and under [limit = 1] which one is returned.
    A negative limit counts from the end of the list: [limit = -1]
    returns one element, more than the limit. *)
Lemma search_tie_follows_index_order :
  Permutation (vector_store index_m1_m2) (vector_store index_m2_m1)
  /\ memories_table index_m1_m2 = memories_table index_m2_m1
  /\ (semantic_search e1 "u1" 10 0.5 index_m1_m2).1
     = Return [hit "m1" "u1" 1; hit "m2" "u1" 1]
  /\ (semantic_search e1 "u1" 10 0.5 index_m2_m1).1
     = Return [hit "m2" "u1" 1; hit "m1" "u1" 1]
  /\ (semantic_search e1 "u1" 1 0.5 index_m1_m2).1 = Return [hit "m1" "u1" 1]
  /\ (semantic_search e1 "u1" 1 0.5 index_m2_m1).1 = Return [hit "m2" "u1" 1]
  /\ (semantic_search e1 "u1" (-1) 0.5 index_m1_m2).1 = Return [hit "m1" "u1" 1].
Proof.
  split; [apply perm_swap|].
  repeat split; vm_compute; reflexivity.
Qed.

(** C6, amended: the list a search returns is sorted by similarity,
    descending; under a limit that is not negative it has at most [limit]
    elements; it is the front of the sorted list of all qualifying
    results, and the sort is stable: results that tie keep the order in
    which the scan met them, which is the iteration order of the index.
    There is no other tie-break. *)
Theorem search_sorted_stable q u limit t s rs s' :
  semantic_search q u limit t s = (Return rs, s') ->
  StronglySorted desc rs
  /\ (0 <= limit -> Z.of_nat (length rs) <= limit)
  /\ exists all,
       rs = slice_to (sort_desc all) limit
       /\ Permutation (sort_desc all) all
       /\ sublist (List.map (fun r => md_id (memory r)) all)
                  (List.map fst (vector_store s))
       /\ forall k, List.filter (tied k) (sort_desc all) = List.filter (tied k) all.
Proof.
  intros Hrun. apply semantic_search_spec in Hrun as [_ Hrs].
  destruct (Hrs rs eq_refl) as (all & Hh & ->).
  pose proof (hits_scored _ _ _ _ _ _ Hh) as Hsc.
  split; [|split].
  - destruct (slice_to_take (sort_desc all) limit) as [n ->].
    now apply StronglySorted_take, sort_desc_sorted.
  - apply length_slice_to.
  - exists all. split; [reflexivity|]. split; [apply sort_desc_perm|].
    split; [eapply hits_sublist; eassumption|].
    intros k. now apply sort_desc_tied.
Qed.

Lemma search_sorted_stable_witness :
  (semantic_search e1 "u1" 1 0.5 index_m2_m1).1 = Return [hit "m2" "u1" 1]
  /\ StronglySorted desc [hit "m2" "u1" 1]
  /\ (0 <= 1 -> Z.of_nat (length [hit "m2" "u1" 1]) <= 1).
Proof.
  split; [vm_compute; reflexivity|].
  refine (let H := search_sorted_stable e1 "u1" 1 0.5%float index_m2_m1
                     [hit "m2" "u1" 1] _ _ in conj (proj1 H) (proj1 (proj2 H))).
  vm_compute. reflexivity.
Defined.

(** C4, as stated, fails: a search with the zero query returns the empty
    list, no error; a stored zero embedding is passed over and the search
    returns the other memory; and [calculate_similarity] hands NaN to its
    caller. *)
Lemma search_zero_norm_not_rejected :
  (semantic_search [0; 0; 0]%float "u1" 10 0.5 two_tenants).1 = Return []
  /\ (semantic_search e1 "u1" 10 0.5 with_zero_entry).1 = Return [hit "m1" "u1" 1]
  /\ option_map is_nan (calculate_similarity [0; 0; 0]%float e1) = Some true.
Proof. repeat split; vm_compute; reflexivity. Qed.

(** C4, amended: a zero query or stored embedding is not rejected.  The
    one error a search raises is the [ValueError] of misaligned shapes,
    on an entry of the tenant whose length differs from the query's.  A
    search that returns has no NaN score in its results: each result
    stems from an entry whose embedding is not a zero vector, and the
    zero query has no results at all, as the similarity with a zero
    vector is NaN and fails the threshold comparison. *)
Theorem search_zero_vector_skipped q u limit t s out s' :
  semantic_search q u limit t s = (out, s') ->
  (forall e, out = Raise e ->
     e = ValueError
     /\ exists k vd, In (k, vd) (vector_store s) /\ vd_user_id vd = Some u
                    /\ length q <> length (vd_embedding vd))
  /\ (forall rs, out = Return rs ->
       (zero_vector q = true -> rs = [])
       /\ forall r, In r rs ->
            is_nan (similarity_score r) = false
            /\ exists vd, In (md_id (memory r), vd) (vector_store s)
                 /\ calculate_similarity q (vd_embedding vd) = Some (similarity_score r)
                 /\ zero_vector (vd_embedding vd) = false).
Proof.
  intros Hrun. split.
  - intros e ->. revert Hrun.
    unfold semantic_search, bind at 1, gets. unfold bind.
    destruct (scan_vectors q u t (vector_store s) [] s) as [[all|e'] s1] eqn:Hscan;
      [discriminate|].
    intros [= <- <-]. eapply scan_vectors_raise, Hscan.
  - intros rs ->. apply semantic_search_spec in Hrun as [_ Hrs].
    destruct (Hrs rs eq_refl) as (all & Hh & ->).
    assert (Hall : forall r, In r all ->
              is_nan (similarity_score r) = false
              /\ exists vd, In (md_id (memory r), vd) (vector_store s)
                   /\ calculate_similarity q (vd_embedding vd) = Some (similarity_score r)
                   /\ zero_vector (vd_embedding vd) = false
                   /\ zero_vector q = false).
    { intros r Hr.
      pose proof (hits_scored _ _ _ _ _ _ Hh) as Hsc.
      pose proof (hits_source _ _ _ _ _ _ Hh) as Hsrc.
      rewrite List.Forall_forall in Hsc, Hsrc.
      specialize (Hsc r Hr). destruct (Hsrc r Hr) as (vd & Hin & _ & Hc & _).
      split; [exact Hsc|]. exists vd. split; [assumption|]. split; [assumption|].
      pose proof (calculate_similarity_Some _ _ _ Hc) as Hlen.
      split.
      - destruct (zero_vector (vd_embedding vd)) eqn:Hz; [|reflexivity].
        destruct (zero_vector_similarity q (vd_embedding vd) (or_intror Hz) Hlen)
          as (sim & Hc' & Hnan).
        unfold scored in Hsc. congruence.
      - destruct (zero_vector q) eqn:Hz; [|reflexivity].
        destruct (zero_vector_similarity q (vd_embedding vd) (or_introl Hz) Hlen)
          as (sim & Hc' & Hnan).
        unfold scored in Hsc. congruence. }
    split.
    + intros Hz. destruct (slice_to (sort_desc all) limit) as [|r rs] eqn:Hcut;
        [reflexivity|].
      assert (Hr : In r all) by (apply (In_sorted_slice all limit); rewrite Hcut; now left).
      destruct (Hall r Hr) as (_ & vd & _ & _ & _ & Hq). congruence.
    + intros r Hr. apply In_sorted_slice in Hr.
      destruct (Hall r Hr) as (Hnan & vd & Hin & Hc & Hz & _).
      split; [assumption|]. now exists vd.
Qed.

Lemma search_zero_vector_skipped_witness :
  (semantic_search e1 "u1" 10 0.5 with_zero_entry).1 = Return [hit "m1" "u1" 1]
  /\ is_nan (similarity_score (hit "m1" "u1" 1)) = false
  /\ exists vd, In ("m1", vd) (vector_store with_zero_entry)
       /\ calculate_similarity e1 (vd_embedding vd) = Some 1%float
       /\ zero_vector (vd_embedding vd) = false.
Proof.
  split; [vm_compute; reflexivity|].
  refine (proj2 (proj2 (search_zero_vector_skipped e1 "u1" 10 0.5%float
                          with_zero_entry (Return [hit "m1" "u1" 1]) _ _)
                   [hit "m1" "u1" 1] eq_refl) (hit "m1" "u1" 1) _).
  - vm_compute. reflexivity.
  - now left.
Defined.

(** *** The threshold *)

(** The state left by a delete whose second request fails: the record of
    [m1] is gone from the memories table, its index entry is still there. *)
Definition stale_index : State :=
  (DatabaseService.delete_memory "m1" second_request_fails).2.

(** C7, as stated, fails: the index entry [m1] of tenant [u1] has
    similarity 1 to the query, equal to the threshold 1, and the search
    returns nothing, as the record of [m1] is not in the memories table. *)
Lemma search_at_threshold_not_hydrated :
  (DatabaseService.delete_memory "m1" second_request_fails).1 = Return false
  /\ vector_store stale_index = [entry "m1" "u1" e1]
  /\ memories_table stale_index = []
  /\ calculate_similarity e1 e1 = Some 1%float
  /\ (1 =? 1)%float = true
  /\ (semantic_search e1 "u1" 10 1 stale_index).1 = Return [].
Proof. repeat split; vm_compute; reflexivity. Qed.

Lemma semantic_search_complete q u limit t s rs s' :
  dynamodb_disabled s = false -> fault_free s ->
  semantic_search q u limit t s = (Return rs, s') ->
  exists all,
    rs = slice_to (sort_desc all) limit
    /\ hits q u t (memories_table s) (vector_store s) all
    /\ forall k vd sim m,
         In (k, vd) (vector_store s) ->
         vd_user_id vd = Some u ->
         calculate_similarity q (vd_embedding vd) = Some sim ->
         (t <=? sim)%float = true ->
         get_item md_id k (memories_table s) = Some m ->
         md_user_id m = Some u ->
         In {| memory := m; similarity_score := sim |} all.
Proof.
  intros Hd Hff Hrun. revert Hrun.
  unfold semantic_search, bind at 1, gets. unfold bind.
  destruct (scan_vectors q u t (vector_store s) [] s) as [[all|e'] s1] eqn:Hscan;
    [|discriminate].
  intros [= <- <-]. exists all. split; [reflexivity|].
  pose proof (scan_vectors_spec _ _ _ _ _ _ _ _ Hscan) as [_ Hall].
  destruct (Hall all eq_refl) as (new & Hnew & Hh). simpl in Hnew. subst new.
  split; [assumption|].
  now apply (scan_vectors_complete _ _ _ _ _ _ _ _ Hd Hff Hscan).
Qed.

(** C7, amended: the comparison with the threshold is inclusive.  In a
    search that returns while DynamoDB answers every request, an entry of
    the tenant whose similarity equals the threshold, and whose record is
    fetched from the memories table and is owned by the tenant, is among
    the qualifying results, of which the sorted front of length [limit]
    is returned (all of them when the limit is not smaller than their
    number); every qualifying result is at or over the threshold, none is
    strictly below it. *)
Theorem search_threshold_inclusive q u limit t s rs s' :
  dynamodb_disabled s = false -> fault_free s ->
  semantic_search q u limit t s = (Return rs, s') ->
  exists all,
    rs = slice_to (sort_desc all) limit
    /\ (Z.of_nat (length all) <= limit -> Permutation rs all)
    /\ (forall k vd sim m,
          In (k, vd) (vector_store s) ->
          vd_user_id vd = Some u ->
          calculate_similarity q (vd_embedding vd) = Some sim ->
          (sim =? t)%float = true ->
          get_item md_id k (memories_table s) = Some m ->
          md_user_id m = Some u ->
          In {| memory := m; similarity_score := sim |} all)
    /\ (forall r, In r all ->
          (t <=? similarity_score r)%float = true
          /\ (similarity_score r <? t)%float = false).
Proof.
  intros Hd Hff Hrun.
  destruct (semantic_search_complete _ _ _ _ _ _ _ Hd Hff Hrun) as (all & -> & Hh & Hin).
  exists all. split; [reflexivity|]. split; [|split].
  - intros Hlen. rewrite slice_to_all.
    + apply sort_desc_perm.
    + now rewrite (Permutation_length (sort_desc_perm all)).
  - intros k vd sim m Hk Hu Hc Heq Hg Ho.
    eapply Hin; eauto. now apply eqb_leb.
  - intros r Hr. apply hits_threshold in Hh. rewrite List.Forall_forall in Hh.
    specialize (Hh r Hr). split; [assumption|].
    destruct (similarity_score r <? t)%float eqn:Hlt; [|reflexivity].
    apply ltb_not_leb in Hlt. congruence.
Qed.

Lemma search_threshold_inclusive_witness :
  dynamodb_disabled two_tenants = false
  /\ fault_free two_tenants
  /\ (semantic_search e1 "u1" 10 1 two_tenants).1
     = Return [hit "m1" "u1" 1; hit "m2" "u1" 1]
  /\ exists all,
       [hit "m1" "u1" 1; hit "m2" "u1" 1] = slice_to (sort_desc all) 10
       /\ In (hit "m2" "u1" 1) all.
Proof.
  assert (Hd : dynamodb_disabled two_tenants = false) by reflexivity.
  assert (Hff : fault_free two_tenants) by constructor.
  split; [exact Hd|]. split; [exact Hff|]. split; [vm_compute; reflexivity|].
  destruct (search_threshold_inclusive e1 "u1" 10 1%float two_tenants
              [hit "m1" "u1" 1; hit "m2" "u1" 1]
              (semantic_search e1 "u1" 10 1 two_tenants).2 Hd Hff)
    as (all & Hrs & _ & Hin & _).
  - vm_compute. reflexivity.
  - exists all. split; [exact Hrs|].
    apply (Hin "m2" (entry "m2" "u1" e1).2 1%float (record "m2" "u1")).
    + right. now left.
    + reflexivity.
    + vm_compute. reflexivity.
    + vm_compute. reflexivity.
    + reflexivity.
    + reflexivity.
Defined.

End SearchClaims.

(** ** Claims on create, delete and recovery *)

Module LifecycleFacts.
Import Numpy MemoryUtils PyDict DatabaseService SearchFacts.

(** Whether the first, and the second, of the coming requests fails. *)
Definition first_fails (s : State) : bool := nth 0 (faults s) false.
Definition second_fails (s : State) : bool := nth 1 (faults s) false.

Lemma dict_get_None_keys {V} k (d : dict V) :
  dict_get k d = None -> ~ In k (List.map fst d).
Proof.
  induction d as [|[k' v] d IH]; simpl; [tauto|].
  destruct (String.eqb k k') eqn:Hk; [discriminate|].
  apply String.eqb_neq in Hk. intros Hd [Heq|Hin]; [congruence|]. now apply IH.
Qed.

Lemma dict_get_del {V} k (d : dict V) : dict_get k (dict_del k d) = None.
Proof.
  induction d as [|[k' v] d IH]; simpl; [reflexivity|].
  destruct (String.eqb k k') eqn:Hk; simpl; [assumption|]. now rewrite Hk.
Qed.

Lemma dict_get_set {V} k v (d : dict V) : dict_get k (dict_set k v d) = Some v.
Proof.
  induction d as [|[k' v'] d IH]; simpl.
  - now rewrite String.eqb_refl.
  - destruct (String.eqb k k') eqn:Hk; simpl; now rewrite Hk.
Qed.

Lemma get_item_delete {I} (key : I -> string) k t :
  get_item key k (delete_item key k t) = None.
Proof.
  unfold get_item, delete_item. induction t as [|i t IH]; simpl; [reflexivity|].
  destruct (String.eqb (key i) k) eqn:Hk; simpl; [assumption|]. now rewrite Hk.
Qed.

Lemma get_item_app_None {I} (key : I -> string) k t1 t2 :
  get_item key k t1 = None -> get_item key k (t1 ++ t2) = get_item key k t2.
Proof.
  unfold get_item. induction t1 as [|i t1 IH]; simpl; [reflexivity|].
  destruct (String.eqb (key i) k); [discriminate|assumption].
Qed.

Lemma get_item_put {I} (key : I -> string) i t :
  get_item key (key i) (put_item key i t) = Some i.
Proof.
  unfold put_item. rewrite get_item_app_None by apply get_item_delete.
  unfold get_item. simpl. now rewrite String.eqb_refl.
Qed.

(** The results of a search come from the keys of the index. *)
Lemma search_results_indexed q u limit t s rs s' :
  semantic_search q u limit t s = (Return rs, s') ->
  forall r, In r rs -> In (md_id (memory r)) (List.map fst (vector_store s)).
Proof.
  intros Hrun r Hr. apply semantic_search_spec in Hrun as [_ Hrs].
  destruct (Hrs rs eq_refl) as (all & Hh & ->).
  apply In_sorted_slice in Hr.
  apply hits_source in Hh. rewrite List.Forall_forall in Hh.
  destruct (Hh r Hr) as (vd & Hin & _).
  apply in_map_iff. now exists (md_id (memory r), vd).
Qed.

(** *** create_memory *)

(** Whether every component of an embedding is a number DynamoDB holds. *)
Definition storable (embedding : list float) : bool := forallb in_range embedding.

Section Create.
Variables (content memory_type : string) (embedding : list float) (user_id : string)
  (metadata : option (list (string * string))) (source summary : option string)
  (tags : option (list string)) (memory_id now : string).

Local Abbreviation create :=
  (create_memory content memory_type embedding user_id metadata source summary
     tags memory_id now).

(** The record of the new memory and the entry of its vector. *)
Definition written (m : MemoryData) : Prop :=
  md_id m = memory_id /\ md_user_id m = Some user_id /\ md_content m = content.

Definition indexed (v : VectorData) : Prop :=
  vd_embedding v = embedding /\ vd_memory_id v = memory_id
  /\ vd_user_id v = Some user_id.

Lemma serialize_storable fs s :
  storable fs = true -> serialize (List.map Number fs) s = (Return tt, s).
Proof.
  unfold storable. induction fs as [|x fs IH]; simpl; [reflexivity|].
  intros [Hx Hfs]%andb_prop. unfold number_error. rewrite Hx. now apply IH.
Qed.

Lemma serialize_refused fs :
  storable fs = false ->
  exists e, forall s, serialize (List.map Number fs) s = (Raise e, s).
Proof.
  unfold storable. induction fs as [|x fs IH]; simpl; [discriminate|].
  unfold number_error. destruct (in_range x); simpl.
  - intros H. destruct (IH H) as (e & He). now exists e.
  - intros _. destruct (PrimFloat.is_nan x || PrimFloat.is_infinity x);
      eexists; reflexivity.
Qed.

(** With DynamoDB disabled the call returns [None] and does nothing. *)
Lemma create_memory_disabled s :
  dynamodb_disabled s = true -> create s = (Return None, s).
Proof. intros Hd. unfold create, create_memory, bind, gets. now rewrite Hd. Qed.

(** The three ways the call ends while DynamoDB is enabled: the first
    write fails; the first succeeds and the second fails, at the
    serializer or at the request; both succeed. *)
Lemma create_memory_steps s :
  dynamodb_disabled s = false ->
  (first_fails s = true ->
     (create s).1 = Raise ClientError
     /\ memories_table (create s).2 = memories_table s
     /\ embeddings_table (create s).2 = embeddings_table s
     /\ vector_store (create s).2 = vector_store s)
  /\ (first_fails s = false ->
      storable embedding = false \/ second_fails s = true ->
     (exists e, (create s).1 = Raise e
                /\ (storable embedding = true -> e = ClientError))
     /\ (exists m, written m
           /\ memories_table (create s).2 = put_item md_id m (memories_table s))
     /\ embeddings_table (create s).2 = embeddings_table s
     /\ vector_store (create s).2 = vector_store s)
  /\ (first_fails s = false -> storable embedding = true -> second_fails s = false ->
     (create s).1 = Return (Some memory_id)
     /\ (exists m, written m
           /\ memories_table (create s).2 = put_item md_id m (memories_table s))
     /\ (exists i, vi_id i = memory_id /\ vi_user_id i = Some user_id
           /\ vi_embedding i = Some (List.map Number embedding)
           /\ embeddings_table (create s).2 = put_item vi_id i (embeddings_table s))
     /\ (exists v, indexed v
           /\ vector_store (create s).2 = dict_set memory_id v (vector_store s))).
Proof.
  intros Hd. unfold first_fails, second_fails, create, create_memory.
  unfold bind, gets, try_except, Table, memories_put_item, embeddings_put_item,
    bind, gets, request, modify, ret, raise.
  rewrite Hd. simpl. rewrite Hd.
  destruct (storable embedding) eqn:Hst.
  - destruct (faults s) as [|[] [|[] fs]] eqn:Hfs; simpl;
      repeat (progress (rewrite ?Hd, ?Hfs, ?(serialize_storable _ _ Hst); simpl));
      (split; [|split]); try discriminate; intros; unfold written, indexed;
      try match goal with H : _ \/ _ |- _ => destruct H; try discriminate end;
      repeat split; try reflexivity;
      eexists; repeat split; reflexivity.
  - destruct (serialize_refused _ Hst) as (e & He).
    destruct (faults s) as [|[] [|[] fs]] eqn:Hfs; simpl;
      repeat (progress (rewrite ?Hd, ?Hfs, ?He; simpl));
      (split; [|split]); try discriminate; intros; unfold written, indexed;
      repeat split; try reflexivity;
      eexists; repeat split; try reflexivity; discriminate.
Qed.

End Create.

(** *** delete_memory *)

Lemma route_delete_fault_free memory_id s :
  dynamodb_disabled s = false -> fault_free s ->
  exists s1,
    SearchRouter.delete_memory memory_id s = (Return (SearchRouter.Success memory_id), s1)
    /\ dynamodb_disabled s1 = false /\ fault_free s1
    /\ memories_table s1 = delete_item md_id memory_id (memories_table s)
    /\ embeddings_table s1 = delete_item vi_id memory_id (embeddings_table s)
    /\ vector_store s1 = dict_del memory_id (vector_store s).
Proof.
  intros Hd Hff.
  unfold SearchRouter.delete_memory, delete_memory.
  unfold bind, gets, try_except, Table, memories_delete_item, embeddings_delete_item,
    bind, gets, request, modify, ret, raise.
  unfold fault_free in *.
  destruct (faults s) as [|b1 [|b2 fs]] eqn:Hfs.
  - repeat (progress (rewrite ?Hd, ?Hfs; simpl)).
    eexists. split; [reflexivity|]. simpl. rewrite Hfs. repeat split; auto.
  - inversion Hff as [|? ? -> _]; subst.
    repeat (progress (rewrite ?Hd, ?Hfs; simpl)).
    eexists. split; [reflexivity|]. simpl. repeat split; auto.
  - inversion Hff as [|? ? -> Hff']; subst.
    inversion Hff' as [|? ? -> Hff'']; subst.
    repeat (progress (rewrite ?Hd, ?Hfs; simpl)).
    eexists. split; [reflexivity|]. simpl. repeat split; auto.
Qed.

(** The route answers 404 exactly when DynamoDB is disabled or one of the
    two requests of the call fails, whether or not the id is there. *)
Lemma route_delete_not_found memory_id s :
  (SearchRouter.delete_memory memory_id s).1
  = Return (SearchRouter.HTTPException 404 "Memory not found")
  <-> dynamodb_disabled s = true \/ first_fails s = true \/ second_fails s = true.
Proof.
  unfold SearchRouter.delete_memory, delete_memory, first_fails, second_fails.
  unfold bind, gets, try_except, Table, memories_delete_item, embeddings_delete_item,
    bind, gets, request, modify, ret, raise.
  destruct (dynamodb_disabled s) eqn:Hd; simpl.
  - split; auto.
  - destruct (faults s) as [|[] [|[] fs]] eqn:Hfs; simpl;
      repeat (progress (rewrite ?Hd, ?Hfs; simpl));
      split; intros H; try discriminate; auto;
      destruct H as [H|[H|H]]; discriminate.
Qed.

(** *** _load_vectors_to_memory *)

(** An item the loop can convert: it has an embedding and every
    component of it is a number.  Neither the length of the embedding nor
    the tenant is looked at. *)
Definition loadable (item : VectorItem) : bool :=
  match vi_embedding item with
  | Some decimal_embedding =>
      match floats_of_attrs decimal_embedding with
      | Some _ => true
      | None => false
      end
  | None => false
  end.

(** The index after the item is loaded. *)
Definition load_entry (d : dict VectorData) (item : VectorItem) : dict VectorData :=
  match vi_embedding item with
  | Some decimal_embedding =>
      match floats_of_attrs decimal_embedding with
      | Some float_embedding =>
          dict_set (vi_id item)
            {| vd_embedding := float_embedding;
               vd_memory_id := vi_id item;
               vd_user_id := vi_user_id item |} d
      | None => d
      end
  | None => d
  end.

(** [s'] differs from [s] at most in the index. *)
Definition index_only (s s' : State) : Prop :=
  dynamodb_disabled s' = dynamodb_disabled s
  /\ memories_table s' = memories_table s
  /\ embeddings_table s' = embeddings_table s
  /\ faults s' = faults s.

Lemma load_items_spec pre rest :
  Forall (fun i => loadable i = true) pre ->
  (rest = [] \/ exists bad post, rest = bad :: post /\ loadable bad = false) ->
  forall n s,
    exists out s',
      load_items (pre ++ rest) n s = (out, s')
      /\ index_only s s'
      /\ vector_store s' = fold_left load_entry pre (vector_store s)
      /\ (rest = [] -> out = Return (n + length pre)%nat)
      /\ (rest <> [] -> exists e, out = Raise e).
Proof.
  intros Hpre Hrest. induction Hpre as [|item pre Hitem _ IH]; intros n s.
  - simpl. destruct Hrest as [->|(bad & post & -> & Hbad)].
    + simpl. exists (Return n), s. repeat split; auto. congruence.
    + simpl. unfold loadable in Hbad.
      destruct (vi_embedding bad) as [e|].
      * destruct (floats_of_attrs e); [discriminate|].
        exists (Raise TypeError), s. repeat split; eauto. discriminate.
      * exists (Raise KeyError), s. repeat split; eauto. discriminate.
  - simpl. unfold loadable in Hitem. unfold load_entry at 2.
    destruct (vi_embedding item) as [e|]; [|discriminate].
    destruct (floats_of_attrs e) as [fe|]; [|discriminate].
    unfold bind at 1, modify.
    destruct (IH (S n) (set_vector_store (dict_set (vi_id item)
                {| vd_embedding := fe; vd_memory_id := vi_id item;
                   vd_user_id := vi_user_id item |}) s))
      as (out & s' & Hrun & Hio & Hvs & Hok & Hbad).
    exists out, s'. split; [exact Hrun|]. split; [exact Hio|].
    split; [exact Hvs|]. split; [|exact Hbad].
    intros Hnil. rewrite (Hok Hnil). f_equal. lia.
Qed.

Lemma recovery_spec pre rest s :
  dynamodb_disabled s = false -> first_fails s = false ->
  first_page (embeddings_page s) (embeddings_table s) = pre ++ rest ->
  Forall (fun i => loadable i = true) pre ->
  (rest = [] \/ exists bad post, rest = bad :: post /\ loadable bad = false) ->
  exists s',
    _load_vectors_to_memory s = (Return tt, s')
    /\ vector_store s' = fold_left load_entry pre (vector_store s).
Proof.
  intros Hd Hf Htab Hpre Hrest.
  unfold _load_vectors_to_memory, try_except, embeddings_scan, Table,
    bind, gets, ret, raise, request.
  unfold first_fails in Hf.
  destruct (faults s) as [|b fs] eqn:Hfs.
  - repeat (progress (rewrite ?Hd, ?Hfs, ?Htab; simpl)).
    destruct (load_items_spec pre rest Hpre Hrest 0%nat s)
      as (out & s' & Hrun & _ & Hvs & _).
    rewrite Hrun. destruct out; eexists; (split; [reflexivity|assumption]).
  - simpl in Hf. subst b.
    repeat (progress (rewrite ?Hd, ?Hfs, ?Htab; simpl)).
    destruct (load_items_spec pre rest Hpre Hrest 0%nat (set_faults fs s))
      as (out & s' & Hrun & _ & Hvs & _).
    rewrite Hrun. destruct out; eexists; (split; [reflexivity|assumption]).
Qed.

End LifecycleFacts.

Module LifecycleClaims.
Import Numpy MemoryUtils PyDict DatabaseService SearchFacts LifecycleFacts Fixtures.
Local Open Scope string_scope.

Section CreateClaim.
Variables (content memory_type : string) (embedding : list float) (user_id : string)
  (metadata : option (list (string * string))) (source summary : option string)
  (tags : option (list string)) (memory_id now : string).

Local Abbreviation create :=
  (create_memory content memory_type embedding user_id metadata source summary
     tags memory_id now).

(** C5: create persists the record, then the vector, then inserts into
    the index.  When the first write fails the call raises and nothing
    is written; when the second fails, because a component of the
    embedding is no number DynamoDB holds or because the request fails,
    the call raises with the record written and the vector and the index
    untouched; only when both succeed is the index entry inserted and
    the id returned.  With DynamoDB disabled the call returns [None] and
    takes no step.  So a create that does not return the id leaves the
    index as it was, and no later search returns a memory under the new
    id (an id the index did not hold before). *)
Theorem create_memory_all_or_nothing (s : State) :
  (dynamodb_disabled s = true -> create s = (Return None, s))
  /\ (dynamodb_disabled s = false ->
      (first_fails s = true ->
         (create s).1 = Raise ClientError
         /\ memories_table (create s).2 = memories_table s
         /\ embeddings_table (create s).2 = embeddings_table s
         /\ vector_store (create s).2 = vector_store s)
      /\ (first_fails s = false ->
          storable embedding = false \/ second_fails s = true ->
         (exists e, (create s).1 = Raise e
                    /\ (storable embedding = true -> e = ClientError))
         /\ (exists m, written content user_id memory_id m
               /\ memories_table (create s).2 = put_item md_id m (memories_table s))
         /\ embeddings_table (create s).2 = embeddings_table s
         /\ vector_store (create s).2 = vector_store s)
      /\ (first_fails s = false -> storable embedding = true ->
          second_fails s = false ->
         (create s).1 = Return (Some memory_id)
         /\ (exists m, written content user_id memory_id m
               /\ memories_table (create s).2 = put_item md_id m (memories_table s))
         /\ (exists i, vi_id i = memory_id /\ vi_user_id i = Some user_id
               /\ vi_embedding i = Some (List.map Number embedding)
               /\ embeddings_table (create s).2 = put_item vi_id i (embeddings_table s))
         /\ (exists v, indexed embedding user_id memory_id v
               /\ vector_store (create s).2 = dict_set memory_id v (vector_store s))))
  /\ ((create s).1 <> Return (Some memory_id) ->
      vector_store (create s).2 = vector_store s
      /\ (dict_get memory_id (vector_store s) = None ->
          forall q u limit t rs s'',
            semantic_search q u limit t (create s).2 = (Return rs, s'') ->
            forall r, In r rs -> md_id (memory r) <> memory_id)).
Proof.
  pose proof (create_memory_disabled content memory_type embedding user_id metadata
                source summary tags memory_id now s) as H0.
  pose proof (create_memory_steps content memory_type embedding user_id metadata
                source summary tags memory_id now s) as Hsteps.
  split; [exact H0|]. split; [exact Hsteps|].
  intros Hnot.
  assert (Hvs : vector_store (create s).2 = vector_store s).
  { destruct (dynamodb_disabled s) eqn:Hd; [now rewrite (H0 eq_refl)|].
    destruct (Hsteps eq_refl) as (H1 & H2 & H3).
    destruct (first_fails s) eqn:Hf.
    - now destruct (H1 eq_refl) as (_ & _ & _ & ?).
    - destruct (storable embedding) eqn:Hst.
      + destruct (second_fails s) eqn:Hs.
        * now destruct (H2 eq_refl (or_intror eq_refl)) as (_ & _ & _ & ?).
        * destruct (H3 eq_refl eq_refl eq_refl) as (Hret & _). contradiction.
      + now destruct (H2 eq_refl (or_introl eq_refl)) as (_ & _ & _ & ?). }
  split; [exact Hvs|].
  intros Hfresh q u limit t rs s'' Hrun r Hr Hid.
  apply (search_results_indexed _ _ _ _ _ _ _ Hrun) in Hr.
  rewrite Hvs, Hid in Hr. now apply dict_get_None_keys in Hfresh.
Qed.

End CreateClaim.

(** A create whose second request fails, and a create with an embedding
    that has a NaN while DynamoDB answers every request: both raise with
    the record written, the vector not written and the index untouched. *)
Lemma create_memory_all_or_nothing_witness :
  (first_fails second_request_fails = false
   /\ second_fails second_request_fails = true
   /\ (exists e,
         (create_memory "notes" "text" e1 "u1" None None None None "m2" "2025-01-02"
            second_request_fails).1 = Raise e
         /\ (storable e1 = true -> e = ClientError))
   /\ embeddings_table (create_memory "notes" "text" e1 "u1" None None None None
         "m2" "2025-01-02" second_request_fails).2
      = embeddings_table second_request_fails
   /\ vector_store (create_memory "notes" "text" e1 "u1" None None None None
         "m2" "2025-01-02" second_request_fails).2
      = vector_store second_request_fails)
  /\ (fault_free two_tenants
      /\ storable [1; nan; 0]%float = false
      /\ (exists e,
            (create_memory "notes" "text" [1; nan; 0]%float "u1" None None None None
               "m9" "2025-01-02" two_tenants).1 = Raise e
            /\ (storable [1; nan; 0]%float = true -> e = ClientError))
      /\ (exists m, written "notes" "u1" "m9" m
            /\ memories_table (create_memory "notes" "text" [1; nan; 0]%float "u1"
                 None None None None "m9" "2025-01-02" two_tenants).2
               = put_item md_id m (memories_table two_tenants))
      /\ embeddings_table (create_memory "notes" "text" [1; nan; 0]%float "u1"
            None None None None "m9" "2025-01-02" two_tenants).2
         = embeddings_table two_tenants
      /\ vector_store (create_memory "notes" "text" [1; nan; 0]%float "u1"
            None None None None "m9" "2025-01-02" two_tenants).2
         = vector_store two_tenants).
Proof.
  split.
  - split; [reflexivity|]. split; [reflexivity|].
    destruct (proj1 (proj2 (proj1 (proj2 (create_memory_all_or_nothing
                "notes" "text" e1 "u1" None None None None "m2" "2025-01-02"
                second_request_fails)) eq_refl)) eq_refl (or_intror eq_refl))
      as (He & _ & Hemb & Hvs).
    split; [exact He|]. split; [exact Hemb|exact Hvs].
  - split; [constructor|]. split; [reflexivity|].
    exact (proj1 (proj2 (proj1 (proj2 (create_memory_all_or_nothing
             "notes" "text" [1; nan; 0]%float "u1" None None None None "m9"
             "2025-01-02" two_tenants)) eq_refl)) eq_refl (or_introl eq_refl)).
Defined.

(** C2: while DynamoDB answers every request, the delete route answers
    a first and a second delete of the same id alike, with success: the
    second call is not a 404.  The same holds for an id that never
    existed. *)
Theorem delete_twice_succeeds memory_id s :
  dynamodb_disabled s = false -> fault_free s ->
  exists s1 s2,
    SearchRouter.delete_memory memory_id s
    = (Return (SearchRouter.Success memory_id), s1)
    /\ SearchRouter.delete_memory memory_id s1
       = (Return (SearchRouter.Success memory_id), s2).
Proof.
  intros Hd Hff.
  destruct (route_delete_fault_free memory_id s Hd Hff) as (s1 & H1 & Hd1 & Hff1 & _).
  destruct (route_delete_fault_free memory_id s1 Hd1 Hff1) as (s2 & H2 & _).
  now exists s1, s2.
Qed.

Lemma delete_twice_succeeds_witness :
  dynamodb_disabled two_tenants = false
  /\ fault_free two_tenants
  /\ exists s1 s2,
       SearchRouter.delete_memory "m1" two_tenants
       = (Return (SearchRouter.Success "m1"), s1)
       /\ SearchRouter.delete_memory "m1" s1
          = (Return (SearchRouter.Success "m1"), s2).
Proof.
  assert (Hd : dynamodb_disabled two_tenants = false) by reflexivity.
  assert (Hff : fault_free two_tenants) by constructor.
  split; [exact Hd|]. split; [exact Hff|].
  exact (delete_twice_succeeds "m1" two_tenants Hd Hff).
Defined.

(** C3: the delete route takes the id alone.  While DynamoDB answers
    every request, a delete of a memory owned by [owner], asked for by
    anyone else, succeeds and removes the record, the stored vector and
    the index entry. *)
Theorem delete_ignores_owner memory_id s m (owner requester : string) :
  dynamodb_disabled s = false -> fault_free s ->
  get_item md_id memory_id (memories_table s) = Some m ->
  md_user_id m = Some owner ->
  requester <> owner ->
  exists s1,
    SearchRouter.delete_memory memory_id s
    = (Return (SearchRouter.Success memory_id), s1)
    /\ get_item md_id memory_id (memories_table s1) = None
    /\ get_item vi_id memory_id (embeddings_table s1) = None
    /\ dict_get memory_id (vector_store s1) = None.
Proof.
  intros Hd Hff _ _ _.
  destruct (route_delete_fault_free memory_id s Hd Hff)
    as (s1 & H1 & _ & _ & Hm & He & Hv).
  exists s1. split; [exact H1|].
  rewrite Hm, He, Hv.
  split; [apply get_item_delete|]. split; [apply get_item_delete|apply dict_get_del].
Qed.

Lemma delete_ignores_owner_witness :
  get_item md_id "m3" (memories_table two_tenants) = Some (record "m3" "u2")
  /\ dict_get "m3" (vector_store two_tenants) = Some (entry "m3" "u2" e1).2
  /\ exists s1,
       SearchRouter.delete_memory "m3" two_tenants
       = (Return (SearchRouter.Success "m3"), s1)
       /\ get_item md_id "m3" (memories_table s1) = None
       /\ get_item vi_id "m3" (embeddings_table s1) = None
       /\ dict_get "m3" (vector_store s1) = None.
Proof.
  split; [reflexivity|]. split; [reflexivity|].
  refine (delete_ignores_owner "m3" two_tenants (record "m3" "u2") "u2" "u1"
            eq_refl _ eq_refl eq_refl _).
  - constructor.
  - discriminate.
Defined.

(** *** Recovery *)

(** The embeddings table holds an entry with a NULL component, then a
    well-formed one; the index is empty, as at start. *)
Definition unreadable_first : State :=
  service [record "m1" "u1"; record "m2" "u1"]
          [stored "m1" "u1" [Number 1; Null; Number 0]; stored "m2" "u1" (List.map Number e1)]
          [] [].

(** An entry of another dimension and without tenant, then the entry
    with the NULL component, then a well-formed one. *)
Definition odd_then_unreadable : State :=
  service []
          [{| vi_id := "m0"; vi_user_id := None; vi_embedding := Some [Number 1; Number 0];
              vi_memory_id := "m0"; vi_created_at := "2025-01-01T00:00:00" |};
           stored "m1" "u1" [Number 1; Null; Number 0];
           stored "m2" "u1" (List.map Number e1)]
          [] [].

(** C9, as stated, fails: after the entry with a non-numeric component
    the well-formed entry [m2] is not loaded; the rebuild ends there,
    without an error. *)
Lemma recovery_stops_at_bad_entry :
  loadable (stored "m2" "u1" (List.map Number e1)) = true
  /\ (_load_vectors_to_memory unreadable_first).1 = Return tt
  /\ vector_store (_load_vectors_to_memory unreadable_first).2 = []
  /\ dict_get "m2" (vector_store (_load_vectors_to_memory unreadable_first).2) = None.
Proof. repeat split; vm_compute; reflexivity. Qed.

Lemma floats_of_attrs_Number fe : floats_of_attrs (List.map Number fe) = Some fe.
Proof. induction fe as [|f fe IH]; simpl; [reflexivity|]. now rewrite IH. Qed.

(** C9, amended: recovery checks no entry and reads one page.  The
    single [scan()] hands out the first page of the embeddings table,
    and the entries after that page are never loaded.  While the scan
    succeeds, the entries of the page are loaded in scan order up to the
    first one whose embedding is missing or has a non-numeric component;
    there the rebuild ends, the entries after it are not loaded, and the
    call returns without an error.  An entry whose embedding is numeric
    is loaded as it is, whatever its dimension, and with no tenant when
    it has none. *)
Theorem recovery_loads_readable_prefix s pre :
  dynamodb_disabled s = false -> first_fails s = false ->
  Forall (fun i => loadable i = true) pre ->
  (first_page (embeddings_page s) (embeddings_table s) = pre ->
   exists s', _load_vectors_to_memory s = (Return tt, s')
     /\ vector_store s' = fold_left load_entry pre (vector_store s))
  /\ (forall bad post,
       loadable bad = false ->
       first_page (embeddings_page s) (embeddings_table s) = (pre ++ bad :: post)%list ->
       exists s', _load_vectors_to_memory s = (Return tt, s')
         /\ vector_store s' = fold_left load_entry pre (vector_store s))
  /\ (forall item fe,
       vi_embedding item = Some (List.map Number fe) ->
       loadable item = true
       /\ forall d, dict_get (vi_id item) (load_entry d item)
            = Some {| vd_embedding := fe; vd_memory_id := vi_id item;
                      vd_user_id := vi_user_id item |}).
Proof.
  intros Hd Hf Hpre. split; [|split].
  - intros Htab. apply (recovery_spec pre []); auto. now rewrite app_nil_r.
  - intros bad post Hbad Htab. apply (recovery_spec pre (bad :: post)); eauto.
  - intros item fe He. unfold loadable, load_entry.
    rewrite He, floats_of_attrs_Number. split; [reflexivity|].
    intros d. apply dict_get_set.
Qed.

(** The entry before the unreadable one is loaded alone; and of three
    readable entries the two on the page are loaded. *)
Lemma recovery_loads_readable_prefix_witness :
  (exists s',
     _load_vectors_to_memory odd_then_unreadable = (Return tt, s')
     /\ vector_store s'
        = [("m0", {| vd_embedding := [1; 0]%float; vd_memory_id := "m0";
                     vd_user_id := None |})])
  /\ (List.length (embeddings_table short_page) = 3%nat
      /\ exists s',
           _load_vectors_to_memory short_page = (Return tt, s')
           /\ vector_store s' = [entry "m1" "u1" e1; entry "m2" "u1" e1]).
Proof.
  split.
  - refine (proj1 (proj2 (recovery_loads_readable_prefix odd_then_unreadable
              [{| vi_id := "m0"; vi_user_id := None;
                  vi_embedding := Some [Number 1; Number 0];
                  vi_memory_id := "m0"; vi_created_at := "2025-01-01T00:00:00" |}]
              eq_refl eq_refl _))
            (stored "m1" "u1" [Number 1; Null; Number 0])
            [stored "m2" "u1" (List.map Number e1)] eq_refl eq_refl).
    repeat constructor.
  - split; [reflexivity|].
    refine (proj1 (recovery_loads_readable_prefix short_page
              [stored "m1" "u1" (List.map Number e1);
               stored "m2" "u1" (List.map Number e1)]
              eq_refl eq_refl _) eq_refl).
    repeat constructor.
Defined.

End LifecycleClaims.

(** ** Related memories *)

Module RelatedFacts.
Import Numpy MemoryUtils PyDict DatabaseService FloatFacts SearchFacts Fixtures.
Local Open Scope string_scope.

(** The results that are not the memory itself. *)
Definition others (memory_id : string) (results : list SearchResult) : list SearchResult :=
  List.filter (fun r => negb (String.eqb (md_id (memory r)) memory_id)) results.

Lemma StronglySorted_filter {A} (R : A -> A -> Prop) (f : A -> bool) l :
  StronglySorted R l -> StronglySorted R (List.filter f l).
Proof.
  induction 1 as [|x l Hs IH Hx]; simpl; [constructor|].
  destruct (f x); [|assumption]. constructor; [assumption|].
  rewrite List.Forall_forall in *. intros y Hy. apply Hx.
  now apply filter_In in Hy.
Qed.

(** What [get_related_memories] does, case by case. *)
Lemma get_related_memories_eq memory_id u limit s :
  get_related_memories memory_id u limit s
  = match dict_get memory_id (vector_store s) with
    | None => (Return [], s)
    | Some vd =>
        if bool_decide (vd_user_id vd = Some u)
        then
          (Return match (semantic_search (vd_embedding vd) u (limit + 1) 0.5 s).1 with
                  | Return results => slice_to (others memory_id results) limit
                  | Raise _ => []
                  end,
           (semantic_search (vd_embedding vd) u (limit + 1) 0.5 s).2)
        else (Return [], s)
    end.
Proof.
  unfold get_related_memories, try_except, bind, gets, ret. cbv beta iota.
  destruct (dict_get memory_id (vector_store s)) as [vd|]; [|reflexivity].
  destruct (bool_decide (vd_user_id vd = Some u)); cbn [negb]; [|reflexivity].
  now destruct (semantic_search (vd_embedding vd) u (limit + 1) 0.5 s) as [[results|e] s1].
Qed.

Lemma get_related_memories_cases memory_id u limit s :
  (dict_get memory_id (vector_store s) = None
   /\ get_related_memories memory_id u limit s = (Return [], s))
  \/ (exists vd, dict_get memory_id (vector_store s) = Some vd
        /\ vd_user_id vd <> Some u
        /\ get_related_memories memory_id u limit s = (Return [], s))
  \/ (exists vd out s1,
        dict_get memory_id (vector_store s) = Some vd
        /\ vd_user_id vd = Some u
        /\ semantic_search (vd_embedding vd) u (limit + 1) 0.5 s = (out, s1)
        /\ get_related_memories memory_id u limit s
           = (Return match out with
                     | Return results => slice_to (others memory_id results) limit
                     | Raise _ => []
                     end, s1)).
Proof.
  rewrite get_related_memories_eq.
  destruct (dict_get memory_id (vector_store s)) as [vd|] eqn:Hget;
    [|left; split; reflexivity].
  destruct (bool_decide (vd_user_id vd = Some u)) eqn:Hu.
  - apply bool_decide_eq_true in Hu. right. right.
    exists vd. eexists _, _. split; [reflexivity|]. split; [assumption|].
    split; [apply surjective_pairing|reflexivity].
  - apply bool_decide_eq_false in Hu. right. left. exists vd.
    split; [reflexivity|]. split; [assumption|reflexivity].
Qed.

(** X1: [get_related_memories] never raises, whatever the index holds: an
    id that is not in the index, and a memory indexed for another
    tenant, both give the empty list, and so does a search that raises
    (an embedding of another length among the tenant's entries). *)
Theorem related_never_raises memory_id u limit s :
  exists rs,
    (get_related_memories memory_id u limit s).1 = Return rs
    /\ (dict_get memory_id (vector_store s) = None -> rs = [])
    /\ (forall vd, dict_get memory_id (vector_store s) = Some vd ->
                   vd_user_id vd <> Some u -> rs = [])
    /\ (forall vd e,
          dict_get memory_id (vector_store s) = Some vd ->
          vd_user_id vd = Some u ->
          (semantic_search (vd_embedding vd) u (limit + 1) 0.5 s).1 = Raise e ->
          rs = []).
Proof.
  destruct (get_related_memories_cases memory_id u limit s)
    as [(Hget & ->)|[(vd & Hget & Hu & ->)|(vd & out & s1 & Hget & Hu & Hrun & ->)]].
  - exists []. repeat split; auto.
  - exists []. repeat split; auto.
  - eexists. split; [reflexivity|]. split; [congruence|]. split.
    + intros vd' Hget' Hu'. congruence.
    + intros vd' e Hget' _ He. assert (vd' = vd) by congruence. subst vd'.
      rewrite Hrun in He. simpl in He. now subst out.
Qed.

(** X2: every memory [get_related_memories] returns is owned by the
    asking tenant, is another memory than the one asked about, and has a
    similarity of at least 0.5; the list is sorted by similarity,
    descending, and for a limit that is not negative it has at most
    [limit] elements. *)
Theorem related_results memory_id u limit s rs :
  (get_related_memories memory_id u limit s).1 = Return rs ->
  (forall r, In r rs ->
     md_user_id (memory r) = Some u
     /\ md_id (memory r) <> memory_id
     /\ (0.5 <=? similarity_score r)%float = true)
  /\ StronglySorted desc rs
  /\ (0 <= limit -> Z.of_nat (length rs) <= limit).
Proof.
  intros Hrs.
  destruct (get_related_memories_cases memory_id u limit s)
    as [(Hget & H)|[(vd & Hget & Hu & H)|(vd & out & s1 & Hget & Hu & Hrun & H)]];
    rewrite H in Hrs; simpl in Hrs; injection Hrs as <-.
  - split; [intros r []|]. split; [constructor|]. simpl. lia.
  - split; [intros r []|]. split; [constructor|]. simpl. lia.
  - destruct out as [results|e];
      [|split; [intros r []|]; split; [constructor|]; simpl; lia].
    pose proof (semantic_search_spec _ _ _ _ _ _ _ Hrun) as [_ Hspec].
    destruct (Hspec results eq_refl) as (all & Hh & Hres).
    split; [|split].
    + intros r Hr. apply In_slice_to in Hr. unfold others in Hr.
      apply filter_In in Hr as [Hr Hne].
      rewrite Hres in Hr. apply In_sorted_slice in Hr.
      pose proof (hits_owned _ _ _ _ _ _ Hh) as Ho.
      pose proof (hits_threshold _ _ _ _ _ _ Hh) as Ht.
      rewrite List.Forall_forall in Ho, Ht.
      split; [now apply Ho|]. split; [|now apply Ht].
      apply negb_true_iff in Hne. now apply String.eqb_neq in Hne.
    + destruct (slice_to_take (others memory_id results) limit) as [n ->].
      apply StronglySorted_take, StronglySorted_filter.
      rewrite Hres. destruct (slice_to_take (sort_desc all) (limit + 1)) as [k ->].
      apply StronglySorted_take, sort_desc_sorted.
      eapply hits_scored, Hh.
    + apply length_slice_to.
Qed.

Lemma related_results_witness :
  (get_related_memories "m1" "u1" 5 two_tenants).1 = Return [hit "m2" "u1" 1]
  /\ md_user_id (memory (hit "m2" "u1" 1)) = Some "u1"
  /\ md_id (memory (hit "m2" "u1" 1)) <> "m1"
  /\ (0.5 <=? similarity_score (hit "m2" "u1" 1))%float = true.
Proof.
  assert (H : (get_related_memories "m1" "u1" 5 two_tenants).1
              = Return [hit "m2" "u1" 1]) by (vm_compute; reflexivity).
  split; [exact H|].
  apply (proj1 (related_results "m1" "u1" 5 two_tenants [hit "m2" "u1" 1] H)).
  now left.
Defined.

(** X3: [get_related_memories] reads only: the index and the two tables
    are after the call what they were before it. *)
Theorem related_leaves_index memory_id u limit s :
  vector_store (get_related_memories memory_id u limit s).2 = vector_store s
  /\ memories_table (get_related_memories memory_id u limit s).2 = memories_table s
  /\ embeddings_table (get_related_memories memory_id u limit s).2 = embeddings_table s.
Proof.
  destruct (get_related_memories_cases memory_id u limit s)
    as [(Hget & ->)|[(vd & Hget & Hu & ->)|(vd & out & s1 & Hget & Hu & Hrun & ->)]];
    simpl; auto.
  apply semantic_search_spec in Hrun as [(_ & Hm & He & Hv) _]. auto.
Qed.

End RelatedFacts.

(** ** How create, read, search, delete and recovery compose *)

Module CompositionFacts.
Import Numpy MemoryUtils PyDict DatabaseService FloatFacts SearchFacts LifecycleFacts
  Fixtures.
Local Open Scope string_scope.

(** *** delete_memory, step by step *)

Lemma delete_memory_steps memory_id s :
  (dynamodb_disabled s = true -> delete_memory memory_id s = (Return false, s))
  /\ (dynamodb_disabled s = false -> first_fails s = true ->
      (delete_memory memory_id s).1 = Return false
      /\ memories_table (delete_memory memory_id s).2 = memories_table s
      /\ embeddings_table (delete_memory memory_id s).2 = embeddings_table s
      /\ vector_store (delete_memory memory_id s).2 = vector_store s)
  /\ (dynamodb_disabled s = false -> first_fails s = false -> second_fails s = true ->
      (delete_memory memory_id s).1 = Return false
      /\ memories_table (delete_memory memory_id s).2
         = delete_item md_id memory_id (memories_table s)
      /\ embeddings_table (delete_memory memory_id s).2 = embeddings_table s
      /\ vector_store (delete_memory memory_id s).2 = vector_store s)
  /\ (dynamodb_disabled s = false -> first_fails s = false -> second_fails s = false ->
      (delete_memory memory_id s).1 = Return true
      /\ memories_table (delete_memory memory_id s).2
         = delete_item md_id memory_id (memories_table s)
      /\ embeddings_table (delete_memory memory_id s).2
         = delete_item vi_id memory_id (embeddings_table s)
      /\ vector_store (delete_memory memory_id s).2
         = dict_del memory_id (vector_store s)).
Proof.
  unfold delete_memory, first_fails, second_fails.
  unfold bind, gets, try_except, Table, memories_delete_item, embeddings_delete_item,
    bind, gets, request, modify, ret, raise.
  destruct (dynamodb_disabled s) eqn:Hd; simpl.
  - repeat split; intros; try discriminate; reflexivity.
  - split; [discriminate|].
    destruct (faults s) as [|[] [|[] fs]] eqn:Hfs; simpl;
      repeat (progress (rewrite ?Hd, ?Hfs; simpl));
      repeat split; intros; try discriminate; reflexivity.
Qed.

(** X4: [delete_memory] never raises.  It returns [True] exactly when
    DynamoDB is enabled and both of its requests succeed.  When the
    second request fails it returns [False] with the record already
    deleted from the memories table, and the stored vector and the index
    entry still in place; when it returns [False] before that, nothing
    has changed. *)
Theorem delete_memory_partial memory_id s :
  exists b,
    (delete_memory memory_id s).1 = Return b
    /\ (b = true <->
        dynamodb_disabled s = false /\ first_fails s = false /\ second_fails s = false)
    /\ (dynamodb_disabled s = false -> first_fails s = false -> second_fails s = true ->
        get_item md_id memory_id (memories_table (delete_memory memory_id s).2) = None
        /\ embeddings_table (delete_memory memory_id s).2 = embeddings_table s
        /\ vector_store (delete_memory memory_id s).2 = vector_store s)
    /\ (dynamodb_disabled s = true \/ first_fails s = true ->
        memories_table (delete_memory memory_id s).2 = memories_table s
        /\ embeddings_table (delete_memory memory_id s).2 = embeddings_table s
        /\ vector_store (delete_memory memory_id s).2 = vector_store s).
Proof.
  destruct (delete_memory_steps memory_id s) as (H0 & H1 & H2 & H3).
  destruct (dynamodb_disabled s) eqn:Hd.
  - exists false. rewrite (H0 eq_refl). simpl.
    split; [reflexivity|]. split; [split; [discriminate|intros (? & _); discriminate]|].
    split; [discriminate|auto].
  - destruct (first_fails s) eqn:Hf.
    + destruct (H1 eq_refl eq_refl) as (Hr & Hm & He & Hv).
      exists false. split; [assumption|].
      split; [split; [discriminate|intros (_ & ? & _); discriminate]|].
      split; [discriminate|auto].
    + destruct (second_fails s) eqn:Hs.
      * destruct (H2 eq_refl eq_refl eq_refl) as (Hr & Hm & He & Hv).
        exists false. split; [assumption|].
        split; [split; [discriminate|intros (_ & _ & ?); discriminate]|].
        split; [|intros [?|?]; discriminate].
        intros _ _ _. rewrite Hm. split; [apply get_item_delete|auto].
      * destruct (H3 eq_refl eq_refl eq_refl) as (Hr & Hm & He & Hv).
        exists true. split; [assumption|]. split; [tauto|].
        split; [discriminate|intros [?|?]; discriminate].
Qed.

Lemma delete_memory_partial_witness :
  (delete_memory "m1" second_request_fails).1 = Return false
  /\ get_item md_id "m1"
       (memories_table (delete_memory "m1" second_request_fails).2) = None
  /\ embeddings_table (delete_memory "m1" second_request_fails).2
     = embeddings_table second_request_fails
  /\ vector_store (delete_memory "m1" second_request_fails).2
     = vector_store second_request_fails.
Proof.
  split; [vm_compute; reflexivity|].
  destruct (delete_memory_partial "m1" second_request_fails) as (b & _ & _ & H & _).
  exact (H eq_refl eq_refl eq_refl).
Defined.

(** X5: once the first request of a delete has succeeded, no later
    search returns the memory, whether the delete went on to return
    [True] or failed at its second request and left the index entry
    behind: the record is gone, and a search returns only memories whose
    record it fetches. *)
Theorem deleted_memory_not_searchable memory_id s q u limit t rs s' :
  dynamodb_disabled s = false -> first_fails s = false ->
  semantic_search q u limit t (delete_memory memory_id s).2 = (Return rs, s') ->
  forall r, In r rs -> md_id (memory r) <> memory_id.
Proof.
  intros Hd Hf Hrun r Hr Hid.
  assert (Hm : memories_table (delete_memory memory_id s).2
               = delete_item md_id memory_id (memories_table s)).
  { destruct (delete_memory_steps memory_id s) as (_ & _ & H2 & H3).
    destruct (second_fails s) eqn:Hs.
    - now destruct (H2 Hd Hf eq_refl) as (_ & ? & _).
    - now destruct (H3 Hd Hf eq_refl) as (_ & ? & _). }
  apply semantic_search_spec in Hrun as [_ Hspec].
  destruct (Hspec rs eq_refl) as (all & Hh & ->).
  apply In_sorted_slice in Hr.
  apply hits_source in Hh. rewrite List.Forall_forall in Hh.
  destruct (Hh r Hr) as (vd & _ & _ & _ & Hget).
  rewrite Hm, Hid, get_item_delete in Hget. discriminate.
Qed.

Lemma deleted_memory_not_searchable_witness :
  vector_store (delete_memory "m1" second_request_fails).2 = [entry "m1" "u1" e1]
  /\ (semantic_search e1 "u1" 10 0.5 (delete_memory "m1" second_request_fails).2).1
     = Return []
  /\ forall r, In r (@nil SearchResult) -> md_id (memory r) <> "m1".
Proof.
  split; [vm_compute; reflexivity|]. split; [vm_compute; reflexivity|].
  refine (deleted_memory_not_searchable "m1" second_request_fails e1 "u1" 10 0.5%float
            [] _ eq_refl eq_refl _).
  vm_compute. reflexivity.
Defined.

(** *** create_memory while DynamoDB answers *)

Section Created.
Variables (content memory_type : string) (embedding : list float) (user_id : string)
  (metadata : option (list (string * string))) (source summary : option string)
  (tags : option (list string)) (memory_id now : string).

Local Abbreviation create :=
  (create_memory content memory_type embedding user_id metadata source summary
     tags memory_id now).

(** The record, the stored vector and the index entry of the call. *)
Definition memory_data : MemoryData :=
  {| md_id := memory_id;
     md_user_id := Some user_id;
     md_content := content;
     md_memory_type := memory_type;
     md_metadata := default [] metadata;
     md_created_at := now;
     md_updated_at := now;
     md_source := source;
     md_summary := summary;
     md_tags := default [] tags |}.

Definition vector_item : VectorItem :=
  {| vi_id := memory_id;
     vi_user_id := Some user_id;
     vi_embedding := Some (List.map Number embedding);
     vi_memory_id := memory_id;
     vi_created_at := now |}.

Definition index_entry : VectorData :=
  {| vd_embedding := embedding;
     vd_memory_id := memory_id;
     vd_user_id := Some user_id |}.

Lemma create_memory_fault_free s :
  dynamodb_disabled s = false -> fault_free s -> storable embedding = true ->
  exists s1,
    create s = (Return (Some memory_id), s1)
    /\ dynamodb_disabled s1 = false /\ fault_free s1
    /\ memories_table s1 = put_item md_id memory_data (memories_table s)
    /\ embeddings_table s1 = put_item vi_id vector_item (embeddings_table s)
    /\ vector_store s1 = dict_set memory_id index_entry (vector_store s).
Proof.
  intros Hd Hff Hst. unfold create_memory.
  unfold bind, gets, try_except, Table, memories_put_item, embeddings_put_item,
    bind, gets, request, modify, ret, raise.
  unfold fault_free in *.
  destruct (faults s) as [|b1 [|b2 fs]] eqn:Hfs.
  - repeat (progress (rewrite ?Hd, ?Hfs, ?(serialize_storable _ _ Hst); simpl)).
    eexists. split; [reflexivity|]. simpl. rewrite Hfs. repeat split; auto.
  - inversion Hff as [|? ? -> _]; subst.
    repeat (progress (rewrite ?Hd, ?Hfs, ?(serialize_storable _ _ Hst); simpl)).
    eexists. split; [reflexivity|]. simpl. repeat split; auto.
  - inversion Hff as [|? ? -> Hff']; subst.
    inversion Hff' as [|? ? -> Hff'']; subst.
    repeat (progress (rewrite ?Hd, ?Hfs, ?(serialize_storable _ _ Hst); simpl)).
    eexists. split; [reflexivity|]. simpl. repeat split; auto.
Qed.

(** A page that holds the last item of a table holds the table. *)
Lemma first_page_last {I} (x : I) l n :
  ~ In x l -> In x (take n (l ++ [x])%list) -> take n (l ++ [x])%list = (l ++ [x])%list.
Proof.
  intros Hnot Hin. destruct (le_lt_dec n (List.length l)) as [Hle|Hlt].
  - rewrite take_app_le in Hin by exact Hle.
    exfalso. apply Hnot. clear Hnot.
    revert n Hle Hin. induction l as [|y l IH]; intros [|n] Hle; simpl; try tauto.
    intros [->|Hin]; [now left|right]. apply (IH n); [simpl in Hle; lia|exact Hin].
  - apply take_ge. rewrite length_app. simpl. lia.
Qed.

Lemma In_dict_set {V} k (v : V) d : In (k, v) (dict_set k v d).
Proof.
  induction d as [|[k' v'] d IH]; simpl; [now left|].
  destruct (String.eqb k k') eqn:Hk.
  - apply String.eqb_eq in Hk. subst. now left.
  - now right.
Qed.

(** X6: a create that succeeds can be read back: while DynamoDB answers
    every request and every component of the embedding is a number it
    holds, [create_memory] returns the new id and [get_memory_by_id] on
    that id then returns the record just written, with the tenant,
    content, type, source, summary and tags of the call. *)
Theorem created_memory_readable s :
  dynamodb_disabled s = false -> fault_free s -> storable embedding = true ->
  (create s).1 = Return (Some memory_id)
  /\ (get_memory_by_id memory_id (create s).2).1 = Return (Some memory_data).
Proof.
  intros Hd Hff Hst.
  destruct (create_memory_fault_free s Hd Hff Hst) as (s1 & Hc & Hd1 & Hff1 & Hm & _).
  rewrite Hc. simpl. split; [reflexivity|].
  destruct (get_memory_by_id_fault_free memory_id s1 Hd1 Hff1) as (s2 & Hg & _).
  rewrite Hg, Hm. simpl. f_equal.
  apply (get_item_put md_id memory_data).
Qed.

(** X7: a create that succeeds is seen by the next search of the same
    tenant: while DynamoDB answers every request and every component of
    the embedding is a number it holds, a search that returns has the
    new memory among its qualifying results whenever the similarity of
    the query to the new embedding is at or over the threshold, and
    returns it when the limit is not below the number of qualifying
    results. *)
Theorem created_memory_searchable s q limit t sim rs s2 :
  dynamodb_disabled s = false -> fault_free s -> storable embedding = true ->
  calculate_similarity q embedding = Some sim ->
  (t <=? sim)%float = true ->
  semantic_search q user_id limit t (create s).2 = (Return rs, s2) ->
  exists all,
    rs = slice_to (sort_desc all) limit
    /\ In {| memory := memory_data; similarity_score := sim |} all
    /\ (Z.of_nat (length all) <= limit ->
        In {| memory := memory_data; similarity_score := sim |} rs).
Proof.
  intros Hd Hff Hst Hsim Ht Hrun.
  destruct (create_memory_fault_free s Hd Hff Hst)
    as (s1 & Hc & Hd1 & Hff1 & Hm & _ & Hv).
  rewrite Hc in Hrun. simpl in Hrun.
  destruct (SearchClaims.semantic_search_complete _ _ _ _ _ _ _ Hd1 Hff1 Hrun)
    as (all & -> & _ & Hin).
  exists all. split; [reflexivity|].
  assert (Hall : In {| memory := memory_data; similarity_score := sim |} all).
  { apply (Hin memory_id index_entry); auto.
    - rewrite Hv. apply In_dict_set.
    - rewrite Hm. apply (get_item_put md_id memory_data). }
  split; [exact Hall|].
  intros Hlen. rewrite slice_to_all.
  - eapply Permutation_in; [symmetry; apply sort_desc_perm|exact Hall].
  - now rewrite (Permutation_length (sort_desc_perm all)).
Qed.

(** X8: a create that succeeds survives a restart that reads it: when
    the index is emptied and rebuilt from the embeddings table (every
    entry of which has a numeric embedding) and the new item is on the
    one page the rebuild scans, the entry found under the new id is the
    one the create had put in the index, the number-to-Decimal-to-number
    way round included. *)
Theorem created_memory_survives_restart s :
  dynamodb_disabled s = false -> fault_free s -> storable embedding = true ->
  Forall (fun i => loadable i = true) (embeddings_table s) ->
  In vector_item
     (first_page (embeddings_page (create s).2) (embeddings_table (create s).2)) ->
  dict_get memory_id (vector_store (create s).2) = Some index_entry
  /\ (rebuild_index (create s).2).1 = Return tt
  /\ dict_get memory_id (vector_store (rebuild_index (create s).2).2)
     = Some index_entry.
Proof.
  intros Hd Hff Hst Hload.
  destruct (create_memory_fault_free s Hd Hff Hst)
    as (s1 & Hc & Hd1 & Hff1 & _ & He & Hv).
  rewrite Hc. simpl. intros Hpage.
  split; [rewrite Hv; apply dict_get_set|].
  unfold rebuild_index, bind, modify.
  assert (Hpre : Forall (fun i => loadable i = true)
                   (delete_item vi_id memory_id (embeddings_table s) ++ [vector_item])).
  { apply Forall_app. split.
    - unfold delete_item. rewrite List.Forall_forall in *.
      intros i Hi. apply filter_In in Hi as [Hi _]. now apply Hload.
    - constructor; [|constructor]. unfold loadable, vector_item. simpl.
      now rewrite LifecycleClaims.floats_of_attrs_Number. }
  assert (Hall : first_page (embeddings_page s1) (embeddings_table s1)
                 = (delete_item vi_id memory_id (embeddings_table s)
                    ++ [vector_item])%list).
  { unfold first_page in *. rewrite He in *. unfold put_item in *. simpl vi_id in *.
    apply first_page_last; [|exact Hpage].
    unfold delete_item. intros Hin. apply filter_In in Hin as [_ Hin].
    simpl in Hin. now rewrite String.eqb_refl in Hin. }
  destruct (recovery_spec
              (delete_item vi_id memory_id (embeddings_table s) ++ [vector_item]) []
              (set_vector_store (fun _ => []) s1))
    as (s2 & Hrun & Hvs); auto.
  - unfold first_fails. simpl. unfold fault_free in Hff1.
    destruct (faults s1) as [|b fs]; [reflexivity|].
    now inversion Hff1.
  - simpl. rewrite Hall, app_nil_r. reflexivity.
  - rewrite Hrun. simpl. split; [reflexivity|].
    rewrite Hvs, fold_left_app. simpl.
    unfold load_entry at 1. simpl.
    rewrite LifecycleClaims.floats_of_attrs_Number. apply dict_get_set.
Qed.

End Created.

Lemma created_memory_readable_witness :
  (create_memory "notes" "text" e1 "u1" None None None None "m9" "2025-01-02"
     two_tenants).1 = Return (Some "m9")
  /\ (get_memory_by_id "m9"
        (create_memory "notes" "text" e1 "u1" None None None None "m9" "2025-01-02"
           two_tenants).2).1
     = Return (Some (memory_data "notes" "text" "u1" None None None None "m9"
                       "2025-01-02")).
Proof.
  refine (created_memory_readable "notes" "text" e1 "u1" None None None None "m9"
            "2025-01-02" two_tenants eq_refl _ eq_refl).
  constructor.
Defined.

Lemma created_memory_searchable_witness :
  exists all,
    [hit "m1" "u1" 1; hit "m2" "u1" 1;
     {| memory := memory_data "notes" "text" "u1" None None None None "m9"
                    "2025-01-02";
        similarity_score := 1 |}]
    = slice_to (sort_desc all) 10
    /\ In {| memory := memory_data "notes" "text" "u1" None None None None "m9"
                         "2025-01-02";
             similarity_score := 1 |} all.
Proof.
  destruct (created_memory_searchable "notes" "text" e1 "u1" None None None None "m9"
              "2025-01-02" two_tenants e1 10 0.5%float 1%float
              [hit "m1" "u1" 1; hit "m2" "u1" 1;
               {| memory := memory_data "notes" "text" "u1" None None None None "m9"
                              "2025-01-02";
                  similarity_score := 1 |}]
              (semantic_search e1 "u1" 10 0.5
                 (create_memory "notes" "text" e1 "u1" None None None None "m9"
                    "2025-01-02" two_tenants).2).2)
    as (all & Hrs & Hin & _).
  - reflexivity.
  - constructor.
  - reflexivity.
  - vm_compute. reflexivity.
  - vm_compute. reflexivity.
  - vm_compute. reflexivity.
  - exists all. split; [exact Hrs|exact Hin].
Defined.

Lemma created_memory_survives_restart_witness :
  dict_get "m9"
    (vector_store
       (rebuild_index
          (create_memory "notes" "text" e1 "u1" None None None None "m9" "2025-01-02"
             two_tenants).2).2)
  = Some (index_entry e1 "u1" "m9").
Proof.
  refine (proj2 (proj2 (created_memory_survives_restart "notes" "text" e1 "u1" None
            None None None "m9" "2025-01-02" two_tenants eq_refl _ eq_refl _ _))).
  - constructor.
  - repeat constructor.
  - vm_compute. auto.
Defined.

End CompositionFacts.

(** ** More on recovery and on searches without matches *)

Module RecoveryFacts.
Import Numpy MemoryUtils PyDict DatabaseService SearchFacts LifecycleFacts Fixtures.
Local Open Scope string_scope.

(** The index entry the loop makes of an item, when it can convert it. *)
Definition loaded (item : VectorItem) : option VectorData :=
  match vi_embedding item with
  | Some decimal_embedding =>
      match floats_of_attrs decimal_embedding with
      | Some float_embedding =>
          Some {| vd_embedding := float_embedding;
                  vd_memory_id := vi_id item;
                  vd_user_id := vi_user_id item |}
      | None => None
      end
  | None => None
  end.

Lemma dict_get_set_ne {V} k k' (v : V) d :
  k <> k' -> dict_get k (dict_set k' v d) = dict_get k d.
Proof.
  intros Hne. induction d as [|[k0 v0] d IH]; simpl.
  - destruct (String.eqb k k') eqn:Hk; [|reflexivity].
    apply String.eqb_eq in Hk. contradiction.
  - destruct (String.eqb k' k0) eqn:Hk0; simpl.
    + apply String.eqb_eq in Hk0. subst k0.
      destruct (String.eqb k k') eqn:Hk; [|reflexivity].
      apply String.eqb_eq in Hk. contradiction.
    + now rewrite IH.
Qed.

Lemma get_item_not_key {I} (key : I -> string) k t :
  ~ In k (List.map key t) -> get_item key k t = None.
Proof.
  unfold get_item. induction t as [|i t IH]; simpl; [reflexivity|].
  intros Hnot. destruct (String.eqb (key i) k) eqn:Hk.
  - apply String.eqb_eq in Hk. tauto.
  - apply IH. tauto.
Qed.

Lemma load_entry_loaded d item :
  load_entry d item
  = match loaded item with
    | Some v => dict_set (vi_id item) v d
    | None => d
    end.
Proof.
  unfold load_entry, loaded. destruct (vi_embedding item) as [e|]; [|reflexivity].
  now destruct (floats_of_attrs e).
Qed.

Lemma fold_load_entry_lookup items :
  Forall (fun i => loadable i = true) items ->
  List.NoDup (List.map vi_id items) ->
  forall d k,
    dict_get k (fold_left load_entry items d)
    = match get_item vi_id k items with
      | Some item => loaded item
      | None => dict_get k d
      end.
Proof.
  induction 1 as [|item items Hitem _ IH]; intros Hnd d k; [reflexivity|].
  simpl in Hnd. inversion Hnd as [|? ? Hnotin Hnd']; subst.
  simpl fold_left. rewrite (IH Hnd'). unfold get_item. simpl.
  change (find (fun i => String.eqb (vi_id i) k) items) with (get_item vi_id k items).
  assert (Hl : exists v, loaded item = Some v).
  { unfold loadable in Hitem. unfold loaded.
    destruct (vi_embedding item) as [e|]; [|discriminate].
    destruct (floats_of_attrs e); [eauto|discriminate]. }
  destruct Hl as (v & Hv). rewrite load_entry_loaded, Hv.
  destruct (String.eqb (vi_id item) k) eqn:Hk.
  - apply String.eqb_eq in Hk. subst k.
    rewrite (get_item_not_key vi_id _ _ Hnotin), Hv. apply dict_get_set.
  - destruct (get_item vi_id k items); [reflexivity|].
    apply dict_get_set_ne. apply String.eqb_neq in Hk. congruence.
Qed.

(** X9: a restart rebuilds the index as a mirror of the first page of
    the embeddings table, not of the table.  When the scan succeeds,
    every embedding on the page is numeric and no key is on it twice, the
    rebuilt index holds under each key exactly the entry made of the item
    the page has under that key, and holds nothing under any other key:
    what the index held before is gone, and an item of the table that is
    not on the first page is not indexed, however well-formed. *)
Theorem rebuilt_index_mirrors_page s :
  dynamodb_disabled s = false -> first_fails s = false ->
  Forall (fun i => loadable i = true)
         (first_page (embeddings_page s) (embeddings_table s)) ->
  List.NoDup (List.map vi_id (first_page (embeddings_page s) (embeddings_table s))) ->
  (rebuild_index s).1 = Return tt
  /\ (forall k,
        dict_get k (vector_store (rebuild_index s).2)
        = match get_item vi_id k
                  (first_page (embeddings_page s) (embeddings_table s)) with
          | Some item => loaded item
          | None => None
          end)
  /\ (forall item,
        In item (embeddings_table s) ->
        ~ In (vi_id item)
             (List.map vi_id (first_page (embeddings_page s) (embeddings_table s))) ->
        dict_get (vi_id item) (vector_store (rebuild_index s).2) = None).
Proof.
  intros Hd Hf Hload Hnd. unfold rebuild_index, bind, modify.
  destruct (recovery_spec (first_page (embeddings_page s) (embeddings_table s)) []
              (set_vector_store (fun _ => []) s))
    as (s2 & Hrun & Hvs); auto.
  - simpl. now rewrite app_nil_r.
  - rewrite Hrun. simpl. split; [reflexivity|].
    assert (Hlook : forall k,
              dict_get k (vector_store s2)
              = match get_item vi_id k
                        (first_page (embeddings_page s) (embeddings_table s)) with
                | Some item => loaded item
                | None => None
                end).
    { intros k. rewrite Hvs. simpl.
      now rewrite (fold_load_entry_lookup _ Hload Hnd). }
    split; [exact Hlook|].
    intros item _ Hnot. rewrite Hlook.
    now rewrite (get_item_not_key vi_id _ _ Hnot).
Qed.

Lemma rebuilt_index_mirrors_page_witness :
  dict_get "m1" (vector_store (rebuild_index short_page).2)
  = loaded (stored "m1" "u1" (List.map Number e1))
  /\ In (stored "m3" "u2" (List.map Number e1)) (embeddings_table short_page)
  /\ dict_get "m3" (vector_store (rebuild_index short_page).2) = None.
Proof.
  destruct (rebuilt_index_mirrors_page short_page eq_refl eq_refl) as (_ & H & Hout).
  - repeat constructor.
  - repeat constructor; simpl; intuition discriminate.
  - split; [exact (H "m1")|]. split; [simpl; auto|].
    apply (Hout (stored "m3" "u2" (List.map Number e1))); [simpl; auto|].
    simpl. intuition discriminate.
Defined.

Lemma load_items_index_only items :
  forall n s, index_only s (load_items items n s).2.
Proof.
  induction items as [|item items IH]; intros n s; simpl.
  - now repeat split.
  - destruct (vi_embedding item) as [e|]; [|now repeat split].
    destruct (floats_of_attrs e) as [fe|]; [|now repeat split].
    unfold bind at 1, modify.
    match goal with |- index_only _ (load_items _ _ ?s0).2 =>
      destruct (IH (S n) s0) as (H1 & H2 & H3 & H4) end.
    repeat split; assumption.
Qed.

(** X10: [_load_vectors_to_memory] never raises and writes to no table:
    whatever the embeddings table holds and whether or not the scan
    succeeds, it returns, with both tables as they were.  When DynamoDB
    is disabled, and when the scan fails, the index is left as it was. *)
Theorem recovery_never_raises s :
  (_load_vectors_to_memory s).1 = Return tt
  /\ memories_table (_load_vectors_to_memory s).2 = memories_table s
  /\ embeddings_table (_load_vectors_to_memory s).2 = embeddings_table s
  /\ (dynamodb_disabled s = true \/ first_fails s = true ->
      vector_store (_load_vectors_to_memory s).2 = vector_store s).
Proof.
  unfold _load_vectors_to_memory, try_except, embeddings_scan, Table,
    bind, gets, ret, raise, request, first_fails.
  destruct (dynamodb_disabled s) eqn:Hd.
  - simpl. auto.
  - simpl. rewrite Hd.
    destruct (faults s) as [|b fs] eqn:Hfs.
    + pose proof (load_items_index_only
                  (first_page (embeddings_page s) (embeddings_table s)) 0%nat s)
        as (_ & Hm & He & _).
      destruct (load_items (first_page (embeddings_page s) (embeddings_table s)) 0 s)
      as [[n|e] s1]; simpl in *;
        (split; [reflexivity|]); (split; [assumption|]); (split; [assumption|]);
        intros [?|?]; discriminate.
    + destruct b; simpl.
      * repeat split; auto.
      * pose proof (load_items_index_only
                  (first_page (embeddings_page s) (embeddings_table s)) 0%nat
                  (set_faults fs s))
          as (_ & Hm & He & _).
        destruct (load_items (first_page (embeddings_page s) (embeddings_table s)) 0
                (set_faults fs s)) as [[n|e] s1];
          simpl in *;
          (split; [reflexivity|]); (split; [assumption|]); (split; [assumption|]);
          intros [?|?]; discriminate.
Qed.

(** X11: a search for a tenant that has no entry in the index returns
    the empty list and never raises, whatever the entries of other
    tenants are (their embeddings may even have another length than the
    query); it sends no request to DynamoDB: the state is left as it is. *)
Theorem search_without_entries q u limit t s :
  (forall k vd, In (k, vd) (vector_store s) -> vd_user_id vd <> Some u) ->
  semantic_search q u limit t s = (Return [], s).
Proof.
  intros Hnone.
  assert (Hscan : forall items results s0,
            (forall k vd, In (k, vd) items -> vd_user_id vd <> Some u) ->
            scan_vectors q u t items results s0 = (Return results, s0)).
  { induction items as [|[k vd] items IH]; intros results s0 Hitems; [reflexivity|].
    simpl. rewrite bool_decide_eq_false_2 by (eapply Hitems; now left).
    simpl. apply IH. intros k' vd' Hin. eapply Hitems. right. eassumption. }
  unfold semantic_search, bind, gets. rewrite (Hscan _ _ _ Hnone).
  unfold ret, sort_desc, slice_to. simpl.
  destruct (0 <=? limit)%Z; [now destruct (Z.to_nat limit)|reflexivity].
Qed.

Lemma search_without_entries_witness :
  semantic_search [1; 0]%float "u9" 10 0.5 two_tenants = (Return [], two_tenants).
Proof.
  apply search_without_entries.
  intros k vd [H|[H|[H|[]]]]; injection H as <- <-; discriminate.
Defined.

End RecoveryFacts.

(** ** The routes that read *)

Module RouteFacts.
Import Numpy MemoryUtils PyDict DatabaseService SearchFacts LifecycleFacts RelatedFacts
  Fixtures.
Local Open Scope string_scope.

Lemma get_memory_by_id_eq memory_id s :
  get_memory_by_id memory_id s
  = if dynamodb_disabled s then (Return None, s)
    else match faults s with
         | [] => (Return (get_item md_id memory_id (memories_table s)), s)
         | true :: fs => (Return None, set_faults fs s)
         | false :: fs =>
             (Return (get_item md_id memory_id (memories_table s)), set_faults fs s)
         end.
Proof.
  unfold get_memory_by_id, bind, gets, try_except, Table, memories_get_item,
    bind, gets, request, ret, raise.
  destruct (dynamodb_disabled s) eqn:Hd; simpl; [reflexivity|].
  rewrite Hd. now destruct (faults s) as [|[] fs].
Qed.

(** X12: the route [GET /memories/{memory_id}] takes no user: while the
    request to DynamoDB succeeds it answers the stored record to
    whoever asks, whatever tenant owns it, and 404 when there is none.
    When DynamoDB is disabled or the request fails it answers 404 as
    well, also for a memory that exists; it never answers 500. *)
Theorem route_get_memory_any_tenant memory_id s :
  (dynamodb_disabled s = false -> first_fails s = false ->
   (SearchRoutes.get_memory_by_id memory_id s).1
   = Return match get_item md_id memory_id (memories_table s) with
            | Some m => SearchRoutes.Ok m
            | None => SearchRoutes.HTTPException 404 "Memory not found"
            end)
  /\ (dynamodb_disabled s = true \/ first_fails s = true ->
      (SearchRoutes.get_memory_by_id memory_id s).1
      = Return (SearchRoutes.HTTPException 404 "Memory not found")).
Proof.
  unfold SearchRoutes.get_memory_by_id, try_except, bind, first_fails.
  rewrite get_memory_by_id_eq.
  destruct (dynamodb_disabled s) eqn:Hd.
  - split; [discriminate|reflexivity].
  - destruct (faults s) as [|[] fs]; simpl.
    + split; [|intros [?|?]; discriminate].
      intros _ _. now destruct (get_item md_id memory_id (memories_table s)).
    + split; [discriminate|reflexivity].
    + split; [|intros [?|?]; discriminate].
      intros _ _. now destruct (get_item md_id memory_id (memories_table s)).
Qed.

Lemma route_get_memory_any_tenant_witness :
  (SearchRoutes.get_memory_by_id "m3" two_tenants).1
  = Return (SearchRoutes.Ok (record "m3" "u2")).
Proof.
  exact (proj1 (route_get_memory_any_tenant "m3" two_tenants) eq_refl eq_refl).
Defined.

Lemma get_related_memories_returns memory_id u limit s :
  exists rs s2,
    get_related_memories memory_id u limit s = (Return rs, s2)
    /\ vector_store s2 = vector_store s
    /\ memories_table s2 = memories_table s.
Proof.
  destruct (get_related_memories_cases memory_id u limit s)
    as [(Hget & ->)|[(vd & Hget & Hu & ->)|(vd & out & s1 & Hget & Hu & Hrun & ->)]].
  - eexists _, _. repeat split.
  - eexists _, _. repeat split.
  - apply semantic_search_spec in Hrun as [(_ & Hm & _ & Hv) _].
    eexists _, _. split; [reflexivity|]. now split.
Qed.

Lemma related_members memory_id u limit s rs :
  (get_related_memories memory_id u limit s).1 = Return rs ->
  forall r, In r rs ->
    md_user_id (memory r) = Some u /\ md_id (memory r) <> memory_id.
Proof.
  intros Hrs r Hr.
  destruct (get_related_memories_cases memory_id u limit s)
    as [(Hget & H)|[(vd & Hget & Hu & H)|(vd & out & s1 & Hget & Hu & Hrun & H)]];
    rewrite H in Hrs; simpl in Hrs; injection Hrs as <-; try contradiction.
  destruct out as [results|e]; [|contradiction].
  pose proof (semantic_search_spec _ _ _ _ _ _ _ Hrun) as [_ Hspec].
  destruct (Hspec results eq_refl) as (all & Hh & Hres).
  apply In_slice_to in Hr. unfold others in Hr.
  apply filter_In in Hr as [Hr Hne].
  rewrite Hres in Hr. apply In_sorted_slice in Hr.
  pose proof (hits_owned _ _ _ _ _ _ Hh) as Ho.
  rewrite List.Forall_forall in Ho. split; [now apply Ho|].
  apply negb_true_iff in Hne. now apply String.eqb_neq in Hne.
Qed.

(** X13: the route [POST /memories/{memory_id}/related] checks the owner
    before it looks for related memories.  While DynamoDB answers every
    request: an id without record is answered 404; a memory of another
    tenant is answered 403; for a memory of the asking user the answer
    is a 200 whose [count] is the length of its list, and every memory
    in the list is owned by that user and is not the memory asked about.
    In each case the index and the tables are left as they were. *)
Theorem route_related_checks_owner memory_id limit u s :
  dynamodb_disabled s = false -> fault_free s ->
  (get_item md_id memory_id (memories_table s) = None ->
   (SearchRoutes.get_related_memories memory_id limit u s).1
   = Return (SearchRoutes.HTTPException 404 "Memory not found"))
  /\ (forall m, get_item md_id memory_id (memories_table s) = Some m ->
        md_user_id m <> Some u ->
        (SearchRoutes.get_related_memories memory_id limit u s).1
        = Return (SearchRoutes.HTTPException 403 "Access denied"))
  /\ (forall m, get_item md_id memory_id (memories_table s) = Some m ->
        md_user_id m = Some u ->
        exists body,
          (SearchRoutes.get_related_memories memory_id limit u s).1
          = Return (SearchRoutes.Ok body)
          /\ SearchRoutes.related_memory_id body = memory_id
          /\ SearchRoutes.count body = length (SearchRoutes.related_memories body)
          /\ forall r, In r (SearchRoutes.related_memories body) ->
               md_user_id (memory r) = Some u /\ md_id (memory r) <> memory_id)
  /\ vector_store (SearchRoutes.get_related_memories memory_id limit u s).2
     = vector_store s
  /\ memories_table (SearchRoutes.get_related_memories memory_id limit u s).2
     = memories_table s.
Proof.
  intros Hd Hff.
  destruct (get_memory_by_id_fault_free memory_id s Hd Hff)
    as (s1 & Hget & (_ & Hm1 & _ & Hv1) & _).
  destruct (get_related_memories_returns memory_id u limit s1)
    as (rs & s2 & Hrel & Hv2 & Hm2).
  assert (Hroute :
    SearchRoutes.get_related_memories memory_id limit u s
    = match get_item md_id memory_id (memories_table s) with
      | None => (Return (SearchRoutes.HTTPException 404 "Memory not found"), s1)
      | Some m =>
          if bool_decide (md_user_id m = Some u)
          then (Return (SearchRoutes.Ok
                  {| SearchRoutes.related_memory_id := memory_id;
                     SearchRoutes.related_memories := rs;
                     SearchRoutes.count := length rs |}), s2)
          else (Return (SearchRoutes.HTTPException 403 "Access denied"), s1)
      end).
  { unfold SearchRoutes.get_related_memories, try_except, bind at 1.
    rewrite Hget.
    destruct (get_item md_id memory_id (memories_table s)) as [m|]; [|reflexivity].
    destruct (bool_decide (md_user_id m = Some u)); cbn [negb]; [|reflexivity].
    unfold bind. now rewrite Hrel. }
  rewrite Hroute.
  destruct (get_item md_id memory_id (memories_table s)) as [m|] eqn:Hitem.
  - destruct (bool_decide (md_user_id m = Some u)) eqn:Hown.
    + apply bool_decide_eq_true in Hown. simpl.
      split; [discriminate|].
      split; [intros m' Hm' Hne; congruence|].
      split; [|split; congruence].
      intros m' _ _. eexists. split; [reflexivity|]. simpl.
      split; [reflexivity|]. split; [reflexivity|].
      apply (related_members memory_id u limit s1). now rewrite Hrel.
    + apply bool_decide_eq_false in Hown. simpl.
      split; [discriminate|]. split; [reflexivity|].
      split; [intros m' Hm' Hu; congruence|]. split; congruence.
  - simpl. split; [reflexivity|]. split; [discriminate|].
    split; [discriminate|]. split; congruence.
Qed.

Lemma route_related_checks_owner_witness :
  (SearchRoutes.get_related_memories "m1" 5 "u2" two_tenants).1
  = Return (SearchRoutes.HTTPException 403 "Access denied").
Proof.
  refine (proj1 (proj2 (route_related_checks_owner "m1" 5 "u2" two_tenants
                          eq_refl _)) (record "m1" "u1") eq_refl _).
  - constructor.
  - discriminate.
Defined.

End RouteFacts.

(** ** More on the chunker *)

Module ChunkerMore.
Import PyStr PyNum ParserService ChunkerFacts.

(** *** strip *)

Lemma lstrip_idem s : lstrip (lstrip s) = lstrip s.
Proof.
  induction s as [|c s IH]; simpl; [reflexivity|].
  destruct (isspace c) eqn:Hc; [assumption|]. simpl. now rewrite Hc.
Qed.

Lemma lstrip_nonspace_app x c y :
  isspace c = false -> lstrip (x ++ c :: y) = lstrip x ++ c :: y.
Proof.
  intros Hc. induction x as [|a x IH]; simpl.
  - now rewrite Hc.
  - destruct (isspace a); [assumption|reflexivity].
Qed.

Lemma rstrip_snoc y c : isspace c = false -> rstrip (y ++ [c]) = y ++ [c].
Proof.
  intros Hc. unfold rstrip. rewrite rev_app_distr. simpl. rewrite Hc.
  simpl. now rewrite rev_involutive.
Qed.

Lemma rstrip_cons c t : isspace c = false -> rstrip (c :: t) = c :: rstrip t.
Proof.
  intros Hc. unfold rstrip. simpl.
  rewrite (lstrip_nonspace_app (rev t) c []) by assumption.
  rewrite rev_app_distr. reflexivity.
Qed.

Lemma rstrip_idem t : rstrip (rstrip t) = rstrip t.
Proof. unfold rstrip. now rewrite rev_involutive, lstrip_idem. Qed.

Lemma lstrip_head s :
  lstrip s = [] \/ exists c t, lstrip s = c :: t /\ isspace c = false.
Proof.
  induction s as [|c s IH]; simpl; [now left|].
  destruct (isspace c) eqn:Hc; [assumption|]. right. eauto.
Qed.

Lemma strip_idem s : strip (strip s) = strip s.
Proof.
  unfold strip. destruct (lstrip_head s) as [->|(c & t & -> & Hc)].
  - reflexivity.
  - rewrite (rstrip_cons c t Hc). simpl. rewrite Hc.
    now rewrite (rstrip_cons c _ Hc), rstrip_idem.
Qed.

Lemma strip_snoc x c : isspace c = false -> strip (x ++ [c]) = lstrip x ++ [c].
Proof.
  intros Hc. unfold strip.
  now rewrite (lstrip_nonspace_app x c []), rstrip_snoc.
Qed.

(** *** Every chunk of a split text is stripped *)

Definition stripped (c : str) : Prop := strip c = c.

Lemma stripped_push chunks cur :
  Forall stripped chunks ->
  Forall stripped (if truthy cur then chunks ++ [strip cur] else chunks).
Proof.
  intros H. destruct (truthy cur); [|assumption].
  apply Forall_app. split; [assumption|].
  constructor; [apply strip_idem|constructor].
Qed.

Lemma stripped_sentence_step max_tokens st sentence :
  Forall stripped (fst st) ->
  Forall stripped (fst (sentence_step max_tokens st sentence)).
Proof.
  destruct st as [chunks cur]. unfold sentence_step. simpl. intros H.
  destruct (truthy (strip sentence)); simpl; [|assumption].
  destruct (estimate_tokens (cur ++ sentence) <=? max_tokens); simpl; [assumption|].
  now apply stripped_push.
Qed.

Lemma stripped_sentences max_tokens sentences st :
  Forall stripped (fst st) ->
  Forall stripped (fst (fold_left (sentence_step max_tokens) sentences st)).
Proof.
  revert st. induction sentences as [|s ss IH]; intros st H; simpl; [assumption|].
  now apply IH, stripped_sentence_step.
Qed.

Lemma stripped_flush st : Forall stripped (fst st) -> Forall stripped (flush st).
Proof. destruct st as [chunks cur]. apply stripped_push. Qed.

Lemma stripped_split_long_paragraph paragraph max_tokens :
  Forall stripped (_split_long_paragraph paragraph max_tokens).
Proof.
  unfold _split_long_paragraph. apply stripped_flush, stripped_sentences. constructor.
Qed.

Lemma stripped_paragraph_step max_tokens st paragraph :
  Forall stripped (fst st) ->
  Forall stripped (fst (paragraph_step max_tokens st paragraph)).
Proof.
  destruct st as [chunks cur]. unfold paragraph_step. simpl. intros H.
  destruct (max_tokens <? estimate_tokens paragraph); simpl.
  - apply Forall_app. split; [now apply stripped_push|].
    apply stripped_split_long_paragraph.
  - destruct (estimate_tokens (cur ++ paragraph) <=? max_tokens); simpl; [assumption|].
    now apply stripped_push.
Qed.

Lemma stripped_paragraphs max_tokens paragraphs st :
  Forall stripped (fst st) ->
  Forall stripped (fst (fold_left (paragraph_step max_tokens) paragraphs st)).
Proof.
  revert st. induction paragraphs as [|p ps IH]; intros st H; simpl; [assumption|].
  now apply IH, stripped_paragraph_step.
Qed.

(** X15: when a text is over the budget and is split, every chunk that
    comes back is stripped: it has no whitespace at its start or at its
    end, so that stripping it again changes nothing. *)
Theorem chunks_are_stripped (text : str) (max_tokens : option Z) :
  default max_tokens_default max_tokens < estimate_tokens text ->
  Forall (fun c => strip c = c) (_split_text_into_chunks text max_tokens).
Proof.
  intros Hover. unfold _split_text_into_chunks.
  apply Z.leb_gt in Hover. rewrite Hover.
  apply stripped_flush, stripped_paragraphs. constructor.
Qed.

Lemma chunks_are_stripped_witness :
  3 < estimate_tokens three_paragraphs
  /\ Forall (fun c => strip c = c) (_split_text_into_chunks three_paragraphs (Some 3)).
Proof.
  assert (H : 3 < estimate_tokens three_paragraphs) by (vm_compute; reflexivity).
  split; [exact H|]. exact (chunks_are_stripped three_paragraphs (Some 3) H).
Defined.

(** *** The chunks of a long paragraph end with the sentence mark *)

Definition ends_with_stop (c : str) : Prop := exists body, c = body ++ full_stop.

Lemma stop_not_space : isspace 0x3002%N = false.
Proof. reflexivity. Qed.

Lemma ends_with_stop_strip x : ends_with_stop (strip (x ++ full_stop)).
Proof.
  exists (lstrip x). unfold full_stop. apply strip_snoc, stop_not_space.
Qed.

(** The chunks so far end with the mark, and so does the chunk being
    built, unless it is still empty. *)
Definition stopped (st : list str * str) : Prop :=
  Forall ends_with_stop (fst st) /\ (snd st = [] \/ ends_with_stop (snd st)).

Lemma stopped_push chunks cur :
  Forall ends_with_stop chunks -> cur = [] \/ ends_with_stop cur ->
  Forall ends_with_stop (if truthy cur then chunks ++ [strip cur] else chunks).
Proof.
  intros Hc [->|(body & ->)]; [assumption|].
  destruct (truthy (body ++ full_stop)); [|assumption].
  apply Forall_app. split; [assumption|].
  constructor; [apply ends_with_stop_strip|constructor].
Qed.

Lemma stopped_sentence_step max_tokens st sentence :
  stopped st -> stopped (sentence_step max_tokens st sentence).
Proof.
  destruct st as [chunks cur]. unfold stopped, sentence_step. simpl.
  intros [Hc Hcur].
  destruct (truthy (strip sentence)); simpl; [|auto].
  destruct (estimate_tokens (cur ++ sentence) <=? max_tokens); simpl.
  - split; [assumption|]. right. exists (cur ++ sentence). now rewrite app_assoc.
  - split; [now apply stopped_push|]. right. now exists sentence.
Qed.

Lemma stopped_sentences max_tokens sentences st :
  stopped st -> stopped (fold_left (sentence_step max_tokens) sentences st).
Proof.
  revert st. induction sentences as [|s ss IH]; intros st H; simpl; [assumption|].
  now apply IH, stopped_sentence_step.
Qed.

(** X16: every chunk [_split_long_paragraph] returns ends with the
    sentence mark ['。'], whether or not the paragraph had one there; so
    no chunk of a long paragraph is empty. *)
Theorem long_paragraph_chunks_end_with_stop (paragraph : str) (max_tokens : Z) :
  Forall (fun c => (exists body, c = body ++ full_stop) /\ c <> [])
         (_split_long_paragraph paragraph max_tokens).
Proof.
  unfold _split_long_paragraph.
  destruct (stopped_sentences max_tokens (split full_stop paragraph) ([], []))
    as [Hc Hcur].
  { split; [constructor|now left]. }
  destruct (fold_left (sentence_step max_tokens) (split full_stop paragraph) ([], []))
    as [chunks cur].
  simpl in Hc, Hcur. unfold flush.
  pose proof (stopped_push chunks cur Hc Hcur) as H.
  eapply Forall_impl; [exact H|].
  intros c (body & ->). split; [now exists body|].
  now destruct body.
Qed.

(** *** Chunks made of whole paragraphs fit the budget *)

Lemma space_not_chinese c : isspace c = true -> is_chinese c = false.
Proof.
  intros Hc. unfold is_chinese.
  destruct (0x4e00 <=? c)%N eqn:H1; [|reflexivity].
  destruct (c <=? 0x9fff)%N eqn:H2; [|reflexivity].
  exfalso. apply N.leb_le in H1, H2. unfold isspace in Hc.
  repeat rewrite ?orb_true_iff, ?andb_true_iff, ?N.leb_le, ?N.eqb_eq in Hc.
  lia.
Qed.

Lemma words_from_spaces ws :
  Forall (fun c => isspace c = true) ws -> words_from ws = ([], []).
Proof.
  induction 1 as [|c ws Hc _ IH]; simpl; [reflexivity|]. now rewrite IH, Hc.
Qed.

Lemma words_from_app_spaces s ws :
  Forall (fun c => isspace c = true) ws -> words_from (s ++ ws) = words_from s.
Proof.
  intros Hws. induction s as [|c s IH]; simpl.
  - now apply words_from_spaces.
  - now rewrite IH.
Qed.

Lemma split_whitespace_lstrip s : split_whitespace (lstrip s) = split_whitespace s.
Proof.
  induction s as [|c s IH]; simpl; [reflexivity|].
  destruct (isspace c) eqn:Hc; [|reflexivity].
  rewrite IH. unfold split_whitespace. simpl.
  destruct (words_from s) as [w l]. now rewrite Hc.
Qed.

Lemma lstrip_spaces t :
  exists sp, Forall (fun c => isspace c = true) sp /\ t = sp ++ lstrip t.
Proof.
  induction t as [|c t (sp & Hsp & IH)]; simpl.
  - exists []. split; [constructor|reflexivity].
  - destruct (isspace c) eqn:Hc.
    + exists (c :: sp). split; [now constructor|]. simpl. now rewrite <- IH.
    + exists []. split; [constructor|reflexivity].
Qed.

Lemma rstrip_spaces s :
  exists sp, Forall (fun c => isspace c = true) sp /\ s = rstrip s ++ sp.
Proof.
  destruct (lstrip_spaces (rev s)) as (sp & Hsp & H).
  exists (rev sp). split.
  - rewrite List.Forall_forall in *. intros c Hc. apply Hsp. now apply in_rev.
  - unfold rstrip. rewrite <- rev_app_distr, <- H. now rewrite rev_involutive.
Qed.

Lemma split_whitespace_rstrip s : split_whitespace (rstrip s) = split_whitespace s.
Proof.
  destruct (rstrip_spaces s) as (sp & Hsp & H).
  unfold split_whitespace. rewrite H at 2. now rewrite words_from_app_spaces.
Qed.

Lemma estimate_tokens_strip s : estimate_tokens (strip s) = estimate_tokens s.
Proof.
  unfold estimate_tokens.
  rewrite (kept_strip is_chinese space_not_chinese).
  unfold strip. now rewrite split_whitespace_rstrip, split_whitespace_lstrip.
Qed.

Lemma estimate_tokens_app_sep s : estimate_tokens (s ++ para_sep) = estimate_tokens s.
Proof.
  unfold estimate_tokens, split_whitespace.
  rewrite List.filter_app, words_from_app_spaces.
  - simpl. now rewrite app_nil_r.
  - repeat constructor.
Qed.

Section Budget.
Variable max_tokens : Z.

Definition fits (c : str) : Prop := estimate_tokens c <= max_tokens.

(** The chunks so far fit, and so does the chunk being built, unless it
    is still empty. *)
Definition within (st : list str * str) : Prop :=
  Forall fits (fst st) /\ (snd st = [] \/ fits (snd st)).

Lemma within_push chunks cur :
  Forall fits chunks -> cur = [] \/ fits cur ->
  Forall fits (if truthy cur then chunks ++ [strip cur] else chunks).
Proof.
  intros Hc Hcur. destruct cur as [|c cur]; [assumption|]. simpl truthy. cbv iota.
  apply Forall_app. split; [assumption|].
  constructor; [|constructor].
  destruct Hcur as [?|Hfit]; [discriminate|].
  unfold fits. now rewrite estimate_tokens_strip.
Qed.

Lemma within_paragraph_step st paragraph :
  fits paragraph -> within st -> within (paragraph_step max_tokens st paragraph).
Proof.
  intros Hp [Hc Hcur]. destruct st as [chunks cur]. simpl in Hc, Hcur.
  unfold within, paragraph_step.
  assert (Hlong : (max_tokens <? estimate_tokens paragraph) = false)
    by (apply Z.ltb_ge; exact Hp).
  rewrite Hlong.
  destruct (estimate_tokens (cur ++ paragraph) <=? max_tokens) eqn:Hfit; simpl.
  - split; [assumption|]. right. unfold fits.
    rewrite app_assoc, estimate_tokens_app_sep. now apply Z.leb_le.
  - split; [now apply within_push|]. right. unfold fits.
    now rewrite estimate_tokens_app_sep.
Qed.

Lemma within_paragraphs paragraphs st :
  Forall fits paragraphs -> within st ->
  within (fold_left (paragraph_step max_tokens) paragraphs st).
Proof.
  intros Hps. revert st. induction Hps as [|p ps Hp _ IH]; intros st H; simpl;
    [assumption|].
  now apply IH, within_paragraph_step.
Qed.

End Budget.

(** X17: when no paragraph alone is over the budget, no chunk is: every
    chunk the chunker returns is then estimated at no more tokens than
    the budget, whether the text was split or not. *)
Theorem chunks_within_budget (text : str) (max_tokens : option Z) :
  Forall (fun p => estimate_tokens p <= default max_tokens_default max_tokens)
         (split para_sep text) ->
  Forall (fun c => estimate_tokens c <= default max_tokens_default max_tokens)
         (_split_text_into_chunks text max_tokens).
Proof.
  intros Hps. unfold _split_text_into_chunks.
  destruct (estimate_tokens text <=? default max_tokens_default max_tokens) eqn:H.
  - apply Z.leb_le in H. now repeat constructor.
  - destruct (within_paragraphs (default max_tokens_default max_tokens)
                (split para_sep text) ([], []) Hps) as [Hc Hcur].
    { split; [constructor|now left]. }
    destruct (fold_left (paragraph_step (default max_tokens_default max_tokens))
                (split para_sep text) ([], [])) as [chunks cur].
    apply (within_push _ chunks cur Hc Hcur).
Qed.

Lemma chunks_within_budget_witness :
  Forall (fun c => estimate_tokens c <= 3)
         (_split_text_into_chunks three_paragraphs (Some 3)).
Proof.
  apply (chunks_within_budget three_paragraphs (Some 3)).
  repeat constructor; vm_compute; discriminate.
Defined.

End ChunkerMore.

(** ** The list of memories *)

Module MemoriesFacts.
Import Numpy MemoryUtils PyDict DatabaseService SearchFacts LifecycleFacts Fixtures.

(** *** The order on time stamps *)

Lemma string_compare_trans a :
  forall b c,
    String.compare a b <> Gt -> String.compare b c <> Gt -> String.compare a c <> Gt.
Proof.
  induction a as [|x a IH]; intros [|y b] [|z c]; simpl; try easy.
  unfold Ascii.compare.
  destruct (N.compare_spec (Ascii.N_of_ascii x) (Ascii.N_of_ascii y)) as [Hxy|Hxy|Hxy];
    destruct (N.compare_spec (Ascii.N_of_ascii y) (Ascii.N_of_ascii z)) as [Hyz|Hyz|Hyz];
    destruct (N.compare_spec (Ascii.N_of_ascii x) (Ascii.N_of_ascii z)) as [Hxz|Hxz|Hxz];
    try easy; try lia.
  apply IH.
Qed.

Lemma string_leb_trans a b c :
  String.leb a b = true -> String.leb b c = true -> String.leb a c = true.
Proof.
  unfold String.leb. intros Hab Hbc.
  pose proof (string_compare_trans a b c) as H.
  destruct (String.compare a b); destruct (String.compare b c);
    destruct (String.compare a c); try reflexivity; try discriminate;
    exfalso; apply H; congruence.
Qed.

Lemma string_ltb_leb a b : String.ltb a b = true -> String.leb a b = true.
Proof. unfold String.ltb, String.leb. now destruct (String.compare a b). Qed.

Lemma string_ltb_false_leb a b : String.ltb a b = false -> String.leb b a = true.
Proof.
  unfold String.ltb, String.leb. rewrite (String.compare_antisym b a).
  now destruct (String.compare a b).
Qed.

(** *** The sort and the slice *)

(** Newest first. *)
Definition newer (a b : MemoryData) : Prop :=
  String.leb (md_created_at b) (md_created_at a) = true.

Lemma insert_newest_perm x l : Permutation (insert_newest x l) (x :: l).
Proof.
  induction l as [|y l IH]; simpl; [reflexivity|].
  destruct (String.ltb (md_created_at y) (md_created_at x)); [reflexivity|].
  rewrite IH. apply perm_swap.
Qed.

Lemma sort_newest_from_perm l acc :
  Permutation (fold_left (fun acc x => insert_newest x acc) l acc) (acc ++ l).
Proof.
  revert acc. induction l as [|x l IH]; intros acc; simpl.
  - now rewrite app_nil_r.
  - rewrite IH, insert_newest_perm. apply Permutation_middle.
Qed.

Lemma sort_newest_perm l : Permutation (sort_newest l) l.
Proof. apply (sort_newest_from_perm l []). Qed.

Lemma insert_newest_sorted x l :
  StronglySorted newer l -> StronglySorted newer (insert_newest x l).
Proof.
  induction 1 as [|y l Hs IH Hy]; simpl.
  - repeat constructor.
  - destruct (String.ltb (md_created_at y) (md_created_at x)) eqn:Hlt.
    + constructor; [now constructor|].
      apply string_ltb_leb in Hlt. constructor; [exact Hlt|].
      eapply Forall_impl; [exact Hy|]. intros z Hz.
      unfold newer in *. eapply string_leb_trans; eassumption.
    + constructor; [assumption|].
      apply (Permutation_Forall (Permutation_sym (insert_newest_perm x l))).
      constructor; [|assumption].
      unfold newer. now apply string_ltb_false_leb.
Qed.

Lemma sort_newest_from_sorted l acc :
  StronglySorted newer acc ->
  StronglySorted newer (fold_left (fun acc x => insert_newest x acc) l acc).
Proof.
  revert acc. induction l as [|x l IH]; intros acc Hs; simpl; [assumption|].
  now apply IH, insert_newest_sorted.
Qed.

Lemma sort_newest_sorted l : StronglySorted newer (sort_newest l).
Proof. apply sort_newest_from_sorted. constructor. Qed.

Lemma StronglySorted_drop {A} (R : A -> A -> Prop) n l :
  StronglySorted R l -> StronglySorted R (drop n l).
Proof.
  intros Hs. revert n. induction Hs as [|x l Hs IH Hx]; intros [|n]; simpl;
    try constructor; auto.
Qed.

Lemma In_slice {A} (l : list A) a b x : In x (slice l a b) -> In x l.
Proof.
  unfold slice. intros H.
  set (n := Z.to_nat (slice_index (Z.of_nat (length l)) a)) in *.
  set (k := Z.to_nat (slice_index (Z.of_nat (length l)) b
                      - slice_index (Z.of_nat (length l)) a)) in *.
  rewrite <- (take_drop n l). apply in_or_app. right.
  rewrite <- (take_drop k (drop n l)). apply in_or_app. now left.
Qed.

Lemma length_slice {A} (l : list A) a b :
  0 <= a ->
  Z.of_nat (length (slice l a b)) <= Z.max 0 (Z.of_nat (length l) - a).
Proof.
  intros Ha. unfold slice, slice_index.
  assert (Hneg : (a <? 0) = false) by (apply Z.ltb_ge; lia).
  rewrite Hneg, length_take, length_drop. lia.
Qed.

Lemma slice_sorted {A} (R : A -> A -> Prop) (l : list A) a b :
  StronglySorted R l -> StronglySorted R (slice l a b).
Proof. intros H. unfold slice. now apply StronglySorted_take, StronglySorted_drop. Qed.

Lemma In_take {A} n (l : list A) x : In x (take n l) -> In x l.
Proof.
  intros H. rewrite <- (take_drop n l). apply in_or_app. now left.
Qed.

Lemma slice_nil {A} a b : slice (@nil A) a b = [].
Proof. unfold slice. now rewrite drop_nil, take_nil. Qed.

(** *** get_memories *)

(** What the items DynamoDB hands out have in common. *)
Definition selected (user_id : string) (memory_type start_date end_date : option string)
    (table : list MemoryData) (m : MemoryData) : Prop :=
  In m table
  /\ md_user_id m = Some user_id
  /\ (forall ty, given memory_type = Some ty -> md_memory_type m = ty)
  /\ (forall a b, given memory_type = None ->
        given start_date = Some a -> given end_date = Some b ->
        String.leb a (md_created_at m) = true
        /\ String.leb (md_created_at m) b = true).

Lemma filter_expression_user u dates m :
  filter_expression u dates m = true -> md_user_id m = Some u.
Proof.
  unfold filter_expression. intros H. apply andb_prop in H as [H _].
  now apply bool_decide_eq_true in H.
Qed.

Lemma get_memories_spec u limit offset mt sd ed s :
  exists memories s',
    get_memories u limit offset mt sd ed s
    = (Return (slice (sort_newest memories) offset (offset + limit)), s')
    /\ frame s s'
    /\ Z.of_nat (length memories) <= Z.max 0 limit
    /\ Forall (selected u mt sd ed (memories_table s)) memories.
Proof.
  assert (Hnone : forall s', frame s s' ->
            exists memories s'0,
              (Return (@nil MemoryData), s')
              = (Return (slice (sort_newest memories) offset (offset + limit)), s'0)
              /\ frame s s'0
              /\ Z.of_nat (length memories) <= Z.max 0 limit
              /\ Forall (selected u mt sd ed (memories_table s)) memories).
  { intros s' Hf. exists [], s'.
    split; [unfold sort_newest; simpl fold_left; now rewrite slice_nil|].
    split; [assumption|]. split; [simpl; lia|constructor]. }
  assert (Hlen : forall (keep : MemoryData -> bool) (l : list MemoryData),
            (limit <? 1) = false ->
            Z.of_nat (length (List.filter keep (take (Z.to_nat limit) l)))
            <= Z.max 0 limit).
  { intros keep l Hl. apply Z.ltb_ge in Hl.
    pose proof (List.filter_length_le keep (take (Z.to_nat limit) l)) as H1.
    rewrite length_take in H1. lia. }
  unfold get_memories, bind at 1, gets.
  destruct (dynamodb_disabled s) eqn:Hd; [apply Hnone, frame_refl|].
  unfold try_except, bind at 1, Table, bind at 1, gets, ret, raise. rewrite Hd.
  unfold bind at 1.
  destruct (given mt) as [ty|] eqn:Hmt.
  - unfold memories_query_by_type.
    destruct (limit <? 1) eqn:Hl; [apply Hnone, frame_refl|].
    unfold bind, request, gets, ret.
    destruct (faults s) as [|[] fs] eqn:Hfs;
      try (apply Hnone; now repeat split);
      eexists _, _; (split; [reflexivity|]); (split; [now repeat split|]);
      (split; [now apply Hlen|]);
      apply List.Forall_forall; intros m Hm;
      apply filter_In in Hm as [Hm Hkeep];
      apply In_take in Hm; unfold first_page in Hm; apply In_take in Hm;
      apply (Permutation_in _ (sort_newest_perm _)) in Hm;
      apply filter_In in Hm as [Hm Hty];
      (split; [exact Hm|]);
      (split; [now apply filter_expression_user in Hkeep|]);
      (split; [intros ty' Hty'; rewrite Hmt in Hty'; injection Hty' as <-;
               now apply String.eqb_eq in Hty
              |intros a b Hn; rewrite Hmt in Hn; discriminate]).
  - unfold memories_scan.
    destruct (limit <? 1) eqn:Hl; [apply Hnone, frame_refl|].
    unfold bind, request, gets, ret.
    destruct (faults s) as [|[] fs] eqn:Hfs;
      try (apply Hnone; now repeat split);
      eexists _, _; (split; [reflexivity|]); (split; [now repeat split|]);
      (split; [now apply Hlen|]);
      apply List.Forall_forall; intros m Hm;
      apply filter_In in Hm as [Hm Hkeep];
      apply In_take in Hm; unfold first_page in Hm; apply In_take in Hm;
      (split; [exact Hm|]);
      (split; [now apply filter_expression_user in Hkeep|]);
      (split; [intros ty' Hty'; rewrite Hmt in Hty'; discriminate|]);
      intros a b _ Ha Hb; rewrite Ha, Hb in Hkeep;
      unfold filter_expression in Hkeep;
      apply andb_prop in Hkeep as [_ Hkeep];
      now apply andb_prop in Hkeep.
Qed.

(** X18: [get_memories] never raises and lists only what it was asked
    for: every memory in its list is a record of the memories table
    owned by the asking tenant, of the given type when a type is given,
    and created between the two dates when no type and both dates are
    given.  The list is sorted by creation time, newest first, and the
    call changes neither the tables nor the index. *)
Theorem get_memories_selects u limit offset mt sd ed s :
  exists ms,
    (get_memories u limit offset mt sd ed s).1 = Return ms
    /\ Forall (selected u mt sd ed (memories_table s)) ms
    /\ StronglySorted newer ms
    /\ memories_table (get_memories u limit offset mt sd ed s).2 = memories_table s
    /\ vector_store (get_memories u limit offset mt sd ed s).2 = vector_store s.
Proof.
  destruct (get_memories_spec u limit offset mt sd ed s)
    as (memories & s' & -> & (_ & Hm & _ & Hv) & _ & Hsel).
  eexists. split; [reflexivity|]. simpl. split; [|split; [|now split]].
  - rewrite List.Forall_forall in *. intros m Hin. apply Hsel.
    apply In_slice in Hin.
    eapply Permutation_in; [apply sort_newest_perm|exact Hin].
  - apply slice_sorted, sort_newest_sorted.
Qed.

(** X19: the pages of [get_memories] do not add up.  DynamoDB looks at
    no more than [limit] items for one call, and the offset is taken
    from what is left of those after the filter: with [1 <= limit] and
    [0 <= offset], the list has at most [limit - offset] elements, and
    from [offset = limit] on it is empty, however many memories the
    tenant has. *)
Theorem get_memories_page_bound u limit offset mt sd ed s :
  1 <= limit -> 0 <= offset ->
  exists ms,
    (get_memories u limit offset mt sd ed s).1 = Return ms
    /\ Z.of_nat (length ms) <= Z.max 0 (limit - offset)
    /\ (limit <= offset -> ms = []).
Proof.
  intros Hlimit Hoffset.
  destruct (get_memories_spec u limit offset mt sd ed s)
    as (memories & s' & -> & _ & Hlen & _).
  eexists. split; [reflexivity|].
  assert (Hbound : Z.of_nat (length (slice (sort_newest memories) offset
                                       (offset + limit)))
                   <= Z.max 0 (limit - offset)).
  { pose proof (length_slice (sort_newest memories) offset (offset + limit) Hoffset)
      as H.
    rewrite (Permutation_length (sort_newest_perm memories)) in H. lia. }
  split; [exact Hbound|].
  intros Hpast.
  destruct (slice (sort_newest memories) offset (offset + limit)); [reflexivity|].
  simpl in Hbound. lia.
Qed.

Lemma get_memories_page_bound_witness :
  (get_memories "u1" 1 0 None None None two_tenants).1 = Return [record "m1" "u1"]
  /\ (get_memories "u1" 1 1 None None None two_tenants).1 = Return [].
Proof.
  split; [vm_compute; reflexivity|].
  destruct (get_memories_page_bound "u1" 1 1 None None None two_tenants)
    as (ms & Hms & _ & Hnil); [lia|lia|].
  rewrite Hms. f_equal. apply Hnil. lia.
Defined.

End MemoriesFacts.

(** ** More on the service as a whole *)

Module ServiceFacts.
Import Numpy MemoryUtils PyDict DatabaseService FloatFacts SearchFacts LifecycleFacts
  RecoveryFacts Fixtures.
Local Open Scope string_scope.

(** X20: what a search returns is what the stores hold: every result
    carries the record the memories table has under the id of that
    record, and its score is the similarity of the query to an embedding
    the index has under that id for the asking tenant. *)
Theorem search_results_hydrated q u limit t s rs s' :
  semantic_search q u limit t s = (Return rs, s') ->
  forall r, In r rs ->
    get_item md_id (md_id (memory r)) (memories_table s) = Some (memory r)
    /\ exists vd,
         In (md_id (memory r), vd) (vector_store s)
         /\ vd_user_id vd = Some u
         /\ calculate_similarity q (vd_embedding vd) = Some (similarity_score r).
Proof.
  intros Hrun r Hr. apply semantic_search_spec in Hrun as [_ Hspec].
  destruct (Hspec rs eq_refl) as (all & Hh & ->).
  apply In_sorted_slice in Hr.
  apply hits_source in Hh. rewrite List.Forall_forall in Hh.
  destruct (Hh r Hr) as (vd & Hin & Hu & Hc & Hg).
  split; [exact Hg|]. now exists vd.
Qed.

Lemma search_results_hydrated_witness :
  get_item md_id "m3" (memories_table two_tenants) = Some (record "m3" "u2")
  /\ exists vd,
       In ("m3", vd) (vector_store two_tenants)
       /\ vd_user_id vd = Some "u2"
       /\ calculate_similarity e1 (vd_embedding vd) = Some 1%float.
Proof.
  refine (search_results_hydrated e1 "u2" 10 0.5%float two_tenants
            [hit "m3" "u2" 1] _ _ (hit "m3" "u2" 1) _).
  - vm_compute. reflexivity.
  - now left.
Defined.

(** X21: a larger limit only adds results at the end: for limits
    [0 <= k <= k'], the search with limit [k] returns the first [k]
    results of the search with limit [k'] on the same state, and raises
    when that one raises. *)
Theorem search_limit_prefix q u (k k' : Z) t s :
  (0 <= k)%Z -> (k <= k')%Z ->
  (semantic_search q u k t s).1
  = match (semantic_search q u k' t s).1 with
    | Return rs' => Return (take (Z.to_nat k) rs')
    | Raise e => Raise e
    end.
Proof.
  intros H0 Hk. unfold semantic_search, bind, gets.
  destruct (scan_vectors q u t (vector_store s) [] s) as [[all|e] s1]; simpl;
    [|reflexivity].
  unfold slice_to.
  assert (Hb : (0 <=? k)%Z = true) by (apply Z.leb_le; lia).
  assert (Hb' : (0 <=? k')%Z = true) by (apply Z.leb_le; lia).
  rewrite Hb, Hb', take_take. f_equal. f_equal. lia.
Qed.

Lemma search_limit_prefix_witness :
  (semantic_search e1 "u1" 1 0.5 two_tenants).1
  = Return (take 1 [hit "m1" "u1" 1; hit "m2" "u1" 1]).
Proof.
  rewrite (search_limit_prefix e1 "u1" 1 10 0.5%float two_tenants); [|lia|lia].
  vm_compute. reflexivity.
Defined.

Lemma scan_vectors_disabled q u t items :
  forall results s,
    dynamodb_disabled s = true ->
    exists out,
      scan_vectors q u t items results s = (out, s)
      /\ (out = Return results \/ out = Raise ValueError).
Proof.
  induction items as [|[k vd] items IH]; intros results s Hd; simpl.
  - exists (Return results). auto.
  - destruct (bool_decide (vd_user_id vd = Some u)); simpl; [|now apply IH].
    unfold bind at 1, cosine.
    destruct (calculate_similarity q (vd_embedding vd)) as [sim|]; simpl;
      [|exists (Raise ValueError); auto].
    destruct (t <=? sim)%float; [|now apply IH].
    unfold bind at 1, get_memory_by_id, bind at 1, gets. rewrite Hd. simpl.
    now apply IH.
Qed.

(** X22: with DynamoDB disabled the service keeps nothing and finds
    nothing, and says so with no error: [create_memory] returns [None],
    [get_memory_by_id] returns [None], [delete_memory] returns [False],
    [get_memories] returns the empty list and recovery does nothing, each
    leaving the state as it is; a search returns the empty list (or
    raises numpy's [ValueError] on an entry of another length), whatever
    the index holds. *)
Theorem disabled_service_is_inert s :
  dynamodb_disabled s = true ->
  (forall content memory_type embedding user_id metadata source summary tags
          memory_id now,
     create_memory content memory_type embedding user_id metadata source summary
       tags memory_id now s = (Return None, s))
  /\ (forall memory_id, get_memory_by_id memory_id s = (Return None, s))
  /\ (forall memory_id, delete_memory memory_id s = (Return false, s))
  /\ (forall u limit offset mt sd ed,
        get_memories u limit offset mt sd ed s = (Return [], s))
  /\ _load_vectors_to_memory s = (Return tt, s)
  /\ (forall q u limit t,
        semantic_search q u limit t s = (Return [], s)
        \/ semantic_search q u limit t s = (Raise ValueError, s)).
Proof.
  intros Hd. repeat split.
  - intros. unfold create_memory, bind, gets. now rewrite Hd.
  - intros. unfold get_memory_by_id, bind, gets. now rewrite Hd.
  - intros. unfold delete_memory, try_except, bind, Table, bind, gets, raise, ret.
    now rewrite Hd.
  - intros. unfold get_memories, bind, gets. now rewrite Hd.
  - unfold _load_vectors_to_memory, bind, gets. now rewrite Hd.
  - intros q u limit t. unfold semantic_search, bind, gets.
    destruct (scan_vectors_disabled q u t (vector_store s) [] s Hd)
      as (out & -> & [-> | ->]); [left|now right].
    unfold ret, sort_desc, slice_to. simpl.
    destruct (0 <=? limit)%Z; [now destruct (Z.to_nat limit)|reflexivity].
Qed.

(** A service whose [_init_tables] was refused access to the tables of
    [two_tenants]: [__init__] has left the index empty. *)
Definition disabled_service : State :=
  {| dynamodb_disabled := true;
     memories_table := memories_table two_tenants;
     embeddings_table := embeddings_table two_tenants;
     faults := [];
     vector_store := [];
     memories_page := memories_page two_tenants;
     embeddings_page := embeddings_page two_tenants |}.

Lemma disabled_service_is_inert_witness :
  semantic_search e1 "u1" 10 0.5 disabled_service = (Return [], disabled_service)
  \/ semantic_search e1 "u1" 10 0.5 disabled_service
     = (Raise ValueError, disabled_service).
Proof.
  exact (proj2 (proj2 (proj2 (proj2 (proj2
           (disabled_service_is_inert disabled_service eq_refl)))))
           e1 "u1" 10 0.5%float).
Defined.

Lemma NoDup_delete_item {I} (key : I -> string) k t :
  List.NoDup (List.map key t) -> List.NoDup (List.map key (delete_item key k t)).
Proof.
  unfold delete_item. induction t as [|i t IH]; simpl; [constructor|].
  intros Hnd. inversion Hnd as [|? ? Hnotin Hnd']; subst.
  destruct (String.eqb (key i) k); simpl; [now apply IH|].
  constructor; [|now apply IH].
  intros Hin. apply Hnotin. apply in_map_iff in Hin as (j & Hj & Hin).
  apply filter_In in Hin as [Hin _]. apply in_map_iff. now exists j.
Qed.

Lemma recovery_keeps_memories s :
  memories_table (_load_vectors_to_memory s).2 = memories_table s.
Proof.
  unfold _load_vectors_to_memory, try_except, embeddings_scan, Table,
    bind, gets, ret, raise, request.
  destruct (dynamodb_disabled s) eqn:Hd; simpl; [reflexivity|].
  rewrite Hd.
  destruct (faults s) as [|b fs] eqn:Hfs.
  - pose proof (load_items_index_only
                  (first_page (embeddings_page s) (embeddings_table s)) 0%nat s)
      as (_ & Hm & _).
    destruct (load_items (first_page (embeddings_page s) (embeddings_table s)) 0 s)
      as [[n|e] s1]; simpl in *;
      assumption.
  - destruct b; simpl; [reflexivity|].
    pose proof (load_items_index_only
                  (first_page (embeddings_page s) (embeddings_table s)) 0%nat
                  (set_faults fs s))
      as (_ & Hm & _).
    destruct (load_items (first_page (embeddings_page s) (embeddings_table s)) 0
                (set_faults fs s)) as [[n|e] s1];
      simpl in *; assumption.
Qed.

Lemma get_item_page_delete {I} (key : I -> string) page k t :
  get_item key k (first_page page (delete_item key k t)) = None.
Proof.
  unfold get_item, first_page.
  destruct (find _ _) as [i|] eqn:Hfind; [|reflexivity].
  apply List.find_some in Hfind as [Hin Hk].
  assert (Hin' : In i (delete_item key k t)).
  { rewrite <- (take_drop (page (delete_item key k t)) (delete_item key k t)).
    apply in_or_app. now left. }
  unfold delete_item in Hin'. apply filter_In in Hin' as [_ Hne].
  now rewrite Hk in Hne.
Qed.

Lemma NoDup_first_page {I} (key : I -> string) page t :
  List.NoDup (List.map key t) -> List.NoDup (List.map key (first_page page t)).
Proof.
  unfold first_page. intros Hnd.
  rewrite <- (take_drop (page t) t), List.map_app in Hnd.
  now apply List.NoDup_app_remove_r in Hnd.
Qed.

(** X23: a delete that returns [True] outlasts a restart: when the index
    is afterwards rebuilt from the embeddings table (its embeddings
    numeric, no key stored twice), the rebuilt index has no entry under
    the deleted id, and the memories table has no record of it. *)
Theorem deleted_memory_stays_deleted memory_id s :
  dynamodb_disabled s = false -> fault_free s ->
  Forall (fun i => loadable i = true) (embeddings_table s) ->
  List.NoDup (List.map vi_id (embeddings_table s)) ->
  (delete_memory memory_id s).1 = Return true
  /\ dict_get memory_id
       (vector_store (rebuild_index (delete_memory memory_id s).2).2) = None
  /\ get_item md_id memory_id
       (memories_table (rebuild_index (delete_memory memory_id s).2).2) = None.
Proof.
  intros Hd Hff Hload Hnd.
  destruct (route_delete_fault_free memory_id s Hd Hff)
    as (s1 & Hroute & Hd1 & Hff1 & Hm & He & Hv).
  assert (Hdel : delete_memory memory_id s = (Return true, s1)).
  { revert Hroute. unfold SearchRouter.delete_memory, try_except, bind, ret.
    destruct (delete_memory memory_id s) as [[[]|e] s0]; simpl; congruence. }
  rewrite Hdel. simpl. split; [reflexivity|].
  unfold rebuild_index, bind, modify.
  assert (Hload1 : Forall (fun i => loadable i = true)
                     (delete_item vi_id memory_id (embeddings_table s))).
  { unfold delete_item. rewrite List.Forall_forall in *.
    intros i Hi. apply filter_In in Hi as [Hi _]. now apply Hload. }
  assert (Hload2 : Forall (fun i => loadable i = true)
                     (first_page (embeddings_page s1)
                        (delete_item vi_id memory_id (embeddings_table s)))).
  { unfold first_page. now apply Forall_take. }
  destruct (recovery_spec
              (first_page (embeddings_page s1)
                 (delete_item vi_id memory_id (embeddings_table s))) []
              (set_vector_store (fun _ => []) s1))
    as (s2 & Hrun & Hvs); auto.
  - unfold first_fails. simpl. unfold fault_free in Hff1.
    destruct (faults s1) as [|b fs]; [reflexivity|]. now inversion Hff1.
  - simpl. now rewrite He, app_nil_r.
  - pose proof (recovery_keeps_memories (set_vector_store (fun _ => []) s1)) as Hfr.
    rewrite Hrun in *. simpl in *. split.
    + rewrite Hvs.
      rewrite (fold_load_entry_lookup _ Hload2
                 (NoDup_first_page vi_id _ _ (NoDup_delete_item vi_id _ _ Hnd))).
      now rewrite get_item_page_delete.
    + rewrite Hfr, Hm. apply get_item_delete.
Qed.

Lemma deleted_memory_stays_deleted_witness :
  (delete_memory "m1" two_tenants).1 = Return true
  /\ dict_get "m1"
       (vector_store (rebuild_index (delete_memory "m1" two_tenants).2).2) = None
  /\ get_item md_id "m1"
       (memories_table (rebuild_index (delete_memory "m1" two_tenants).2).2) = None.
Proof.
  apply (deleted_memory_stays_deleted "m1" two_tenants eq_refl).
  - constructor.
  - repeat constructor.
  - repeat constructor; simpl; intuition discriminate.
Defined.

End ServiceFacts.

(** ** The statistics *)

Module StatsFacts.
Import Numpy MemoryUtils PyDict DatabaseService SearchFacts LifecycleFacts RecoveryFacts
  Fixtures.
Local Open Scope string_scope.
Local Open Scope nat_scope.

(** The sum of the counts of a distribution. *)
Definition counted (d : dict nat) : nat := list_sum (List.map snd d).

Lemma counted_set_new ty v (d : dict nat) :
  dict_get ty d = None -> counted (dict_set ty v d) = counted d + v.
Proof.
  unfold counted. induction d as [|[k n] d IH]; simpl; [lia|].
  destruct (String.eqb ty k); [discriminate|]. intros H. simpl. rewrite (IH H). lia.
Qed.

Lemma counted_set_old ty v v0 (d : dict nat) :
  dict_get ty d = Some v0 -> counted (dict_set ty v d) + v0 = counted d + v.
Proof.
  unfold counted. induction d as [|[k n] d IH]; simpl; [discriminate|].
  destruct (String.eqb ty k); simpl.
  - intros [= ->]. lia.
  - intros H. specialize (IH H). lia.
Qed.

Lemma counted_count_type ty d : counted (count_type ty d) = S (counted d).
Proof.
  unfold count_type. destruct (dict_get ty d) as [v0|] eqn:Hget; simpl.
  - pose proof (counted_set_old ty (v0 + 1) v0 d Hget). lia.
  - rewrite (counted_set_new ty _ d Hget). lia.
Qed.

Lemma lookup_count_type ty ty' d :
  default 0 (dict_get ty' (count_type ty d))
  = default 0 (dict_get ty' d) + (if String.eqb ty ty' then 1 else 0).
Proof.
  unfold count_type. destruct (String.eqb ty ty') eqn:Hty.
  - apply String.eqb_eq in Hty. subst ty'. now rewrite dict_get_set.
  - apply String.eqb_neq in Hty. rewrite dict_get_set_ne by congruence. lia.
Qed.

(** The loop never raises, changes nothing, and adds at most one to the
    counts for each key. *)
Lemma count_types_spec keys :
  forall type_stats s,
    exists d s',
      count_types keys type_stats s = (Return d, s')
      /\ frame s s'
      /\ counted d <= counted type_stats + length keys.
Proof.
  induction keys as [|k keys IH]; intros type_stats s; simpl.
  - exists type_stats, s. split; [reflexivity|]. split; [apply frame_refl|lia].
  - destruct (get_memory_by_id_spec k s) as (o & s1 & Hget & Hfr & _).
    unfold bind at 1. rewrite Hget. destruct o as [m|].
    + destruct (IH (count_type (md_memory_type m) type_stats) s1)
        as (d & s' & Hrun & Hfr' & Hle).
      exists d, s'. split; [exact Hrun|]. split; [eapply frame_trans; eassumption|].
      rewrite counted_count_type in Hle. lia.
    + destruct (IH type_stats s1) as (d & s' & Hrun & Hfr' & Hle).
      exists d, s'. split; [exact Hrun|]. split; [eapply frame_trans; eassumption|].
      lia.
Qed.

(** Whether the record found under the key of an index entry has the
    given type. *)
Definition has_type (memories : list MemoryData) (ty : string) (k : string) : bool :=
  match get_item md_id k memories with
  | Some m => String.eqb (md_memory_type m) ty
  | None => false
  end.

Lemma count_types_fault_free keys :
  forall type_stats s,
    dynamodb_disabled s = false -> fault_free s ->
    exists d s',
      count_types keys type_stats s = (Return d, s')
      /\ frame s s'
      /\ forall ty,
           default 0 (dict_get ty d)
           = default 0 (dict_get ty type_stats)
             + length (List.filter (has_type (memories_table s) ty) keys).
Proof.
  induction keys as [|k keys IH]; intros type_stats s Hd Hff; simpl.
  - exists type_stats, s. split; [reflexivity|]. split; [apply frame_refl|].
    intros ty. lia.
  - destruct (get_memory_by_id_fault_free k s Hd Hff) as (s1 & Hget & Hfr & Hff1).
    unfold bind at 1. rewrite Hget.
    pose proof Hfr as (Hd1 & Hm1 & _).
    assert (Hd1' : dynamodb_disabled s1 = false) by congruence.
    unfold has_type at 1.
    destruct (get_item md_id k (memories_table s)) as [m|].
    + destruct (IH (count_type (md_memory_type m) type_stats) s1 Hd1' Hff1)
        as (d & s' & Hrun & Hfr' & Hcount).
      exists d, s'. split; [exact Hrun|]. split; [eapply frame_trans; eassumption|].
      intros ty. rewrite Hcount, Hm1, lookup_count_type.
      destruct (String.eqb (md_memory_type m) ty); simpl; lia.
    + destruct (IH type_stats s1 Hd1' Hff1) as (d & s' & Hrun & Hfr' & Hcount).
      exists d, s'. split; [exact Hrun|]. split; [eapply frame_trans; eassumption|].
      intros ty. now rewrite Hcount, Hm1.
Qed.

(** X24: [get_search_stats] never raises and changes neither a table nor
    the index.  The counts of its type distribution add up to no more
    than its [vector_count], which is the size of the index when the
    call reports no error and 0 when it reports one; it reports an error
    exactly when DynamoDB is disabled or the count request fails. *)
Theorem stats_counts_bounded s :
  exists st,
    (get_search_stats s).1 = Return st
    /\ frame s (get_search_stats s).2
    /\ counted (type_distribution st) <= vector_count st
    /\ (error st = None <-> dynamodb_disabled s = false /\ first_fails s = false)
    /\ (error st = None -> vector_count st = length (vector_store s))
    /\ (error st <> None ->
        vector_count st = 0 /\ total_memories st = 0 /\ type_distribution st = []).
Proof.
  unfold get_search_stats, try_except, memories_count, Table, first_fails,
    bind, gets, request, raise, ret.
  destruct (dynamodb_disabled s) eqn:Hd; simpl.
  - eexists. split; [reflexivity|]. split; [apply frame_refl|]. simpl.
    split; [unfold counted; simpl; lia|].
    split; [split; [discriminate|intros [? _]; discriminate]|].
    split; [discriminate|auto].
  - destruct (faults s) as [|[] fs] eqn:Hfs; simpl.
    + destruct (count_types_spec (List.map fst (vector_store s)) [] s)
        as (d & s' & Hrun & Hfr & Hle).
      rewrite Hrun. simpl.
      eexists. split; [reflexivity|]. split; [exact Hfr|]. simpl.
      rewrite length_map in Hle. unfold counted in Hle at 2. simpl in Hle.
      split; [lia|]. split; [tauto|]. split; [reflexivity|congruence].
    + eexists. split; [reflexivity|]. split; [now repeat split|]. simpl.
      split; [unfold counted; simpl; lia|].
      split; [split; [discriminate|intros [_ ?]; discriminate]|].
      split; [discriminate|auto].
    + destruct (count_types_spec (List.map fst (vector_store s)) [] (set_faults fs s))
        as (d & s' & Hrun & Hfr & Hle).
      rewrite Hrun. simpl.
      eexists. split; [reflexivity|].
      split; [eapply frame_trans; [|exact Hfr]; now repeat split|]. simpl.
      rewrite length_map in Hle. unfold counted in Hle at 2. simpl in Hle.
      split; [lia|]. split; [tauto|]. split; [reflexivity|congruence].
Qed.

(** X25: while DynamoDB answers every request, [vector_count] is the
    number of index entries and the type distribution gives for each
    type the number of index entries whose record has that type; an
    index entry without record is counted in [vector_count] and under no
    type.  [total_memories] is the number of records on the first page
    of a scan of the memories table (of all tenants): the records of the
    table when one page holds them, fewer when it does not. *)
Theorem stats_type_distribution s :
  dynamodb_disabled s = false -> fault_free s ->
  exists st,
    (get_search_stats s).1 = Return st
    /\ error st = None
    /\ total_memories st = length (first_page (memories_page s) (memories_table s))
    /\ total_memories st <= length (memories_table s)
    /\ (length (memories_table s) <= memories_page s (memories_table s) ->
        total_memories st = length (memories_table s))
    /\ vector_count st = length (vector_store s)
    /\ forall ty,
         default 0 (dict_get ty (type_distribution st))
         = length (List.filter (has_type (memories_table s) ty)
                     (List.map fst (vector_store s))).
Proof.
  intros Hd Hff.
  assert (Hle : length (first_page (memories_page s) (memories_table s))
                <= length (memories_table s)).
  { unfold first_page. rewrite length_take. lia. }
  assert (Hall : length (memories_table s) <= memories_page s (memories_table s) ->
                 length (first_page (memories_page s) (memories_table s))
                 = length (memories_table s)).
  { unfold first_page. rewrite length_take. lia. }
  unfold get_search_stats, try_except, memories_count, Table,
    bind, gets, request, raise, ret.
  rewrite Hd. simpl. unfold fault_free in Hff.
  destruct (faults s) as [|b fs] eqn:Hfs; simpl.
  - destruct (count_types_fault_free (List.map fst (vector_store s)) [] s Hd)
      as (d & s' & Hrun & _ & Hcount); [unfold fault_free; now rewrite Hfs|].
    rewrite Hrun. simpl.
    eexists. split; [reflexivity|]. simpl. repeat split; auto.
  - inversion Hff as [|? ? -> Hff']; subst. simpl.
    destruct (count_types_fault_free (List.map fst (vector_store s)) []
                (set_faults fs s) Hd Hff')
      as (d & s' & Hrun & _ & Hcount).
    rewrite Hrun. simpl.
    eexists. split; [reflexivity|]. simpl. repeat split; auto.
Qed.

(** All three records of [two_tenants] on one page, and two of them
    when a page holds two. *)
Lemma stats_type_distribution_witness :
  (exists st,
     (get_search_stats two_tenants).1 = Return st
     /\ total_memories st = 3
     /\ vector_count st = 3
     /\ default 0 (dict_get "text" (type_distribution st)) = 3)
  /\ (exists st,
        (get_search_stats short_page).1 = Return st
        /\ total_memories st = 2
        /\ length (memories_table short_page) = 3).
Proof.
  split.
  - destruct (stats_type_distribution two_tenants eq_refl)
      as (st & Hst & _ & Htot & _ & _ & Hvec & Hty); [constructor|].
    exists st. split; [exact Hst|]. split; [exact Htot|]. split; [exact Hvec|].
    exact (Hty "text").
  - destruct (stats_type_distribution short_page eq_refl)
      as (st & Hst & _ & Htot & _); [constructor|].
    exists st. split; [exact Hst|]. split; [exact Htot|reflexivity].
Defined.

End StatsFacts.
